(** * FAT12-Reader: a shallow embedding of HAL.c, FATfs.c and main.c

    The C sources keep their state in file-level [static] variables; the
    embedding threads that state explicitly.  Machine integers are [Z] with
    the wrap-around of their C type written out, byte buffers are
    [list byte], and the three ways a call can end are kept apart by
    [outcome]: a value, an access outside an allocated object, or a loop that
    is still running when its fuel is used up. *)

From Stdlib Require Import ZArith List Lia Bool.
From Stdlib Require Import Init.Byte Strings.Byte.
From Stdlib Require Strings.String DecimalString.
Import ListNotations.
Import String.StringSyntax.
Open Scope Z_scope.

Ltac div_lia := Z.to_euclidean_division_equations; lia.

(** ** Machine integers and bytes *)

Definition u8w (x : Z) : Z := x mod 256.
Definition u16 (x : Z) : Z := x mod 65536.
Definition u32 (x : Z) : Z := x mod 4294967296.
Definition u64 (x : Z) : Z := x mod 18446744073709551616.

(** A 32-bit [int] after an operation that left its range. *)
Definition s32 (x : Z) : Z :=
  let r := u32 x in if r <? 2147483648 then r else r - 4294967296.

Definition u8 (b : byte) : Z := Z.of_N (Byte.to_N b).

Definition zlen {A : Type} (l : list A) : Z := Z.of_nat (length l).

(** ** Outcomes of a call *)

Inductive outcome (A : Type) : Type :=
| Done (a : A)
| Fault
| OutOfFuel.

Arguments Done {A} a.
Arguments Fault {A}.
Arguments OutOfFuel {A}.

Definition bind {A B : Type} (m : outcome A) (k : A -> outcome B) : outcome B :=
  match m with
  | Done a => k a
  | Fault => Fault
  | OutOfFuel => OutOfFuel
  end.

Definition access {A : Type} (o : option A) : outcome A :=
  match o with
  | Some a => Done a
  | None => Fault
  end.

(** What a call returned, and the state it left, when it returned. *)
Definition returned {A B : Type} (o : outcome (A * B)) : option B :=
  match o with
  | Done (_, b) => Some b
  | _ => None
  end.

Definition state_after {A B : Type} (o : outcome (A * B)) : option A :=
  match o with
  | Done (a, _) => Some a
  | _ => None
  end.

Declare Scope outcome_scope.
Delimit Scope outcome_scope with outcome.
Notation "x <- m ;; k" := (bind m (fun x => k))
  (at level 61, m at next level, right associativity) : outcome_scope.
Notation "' p <- m ;; k" := (bind m (fun p => k))
  (at level 61, p pattern, m at next level, right associativity) : outcome_scope.
Open Scope outcome_scope.

(** ** Memory blocks *)

(** [load l i] is [l[i]]; an index outside the block has no value. *)
Definition load {A : Type} (l : list A) (i : Z) : option A :=
  if i <? 0 then None else nth_error l (Z.to_nat i).

(** [upd l i x] is [l[i] = x]. *)
Definition upd {A : Type} (l : list A) (i : Z) (x : A) : option (list A) :=
  if (0 <=? i) && (i <? zlen l)
  then Some (firstn (Z.to_nat i) l ++ x :: skipn (Z.to_nat i + 1) l)
  else None.

(** [store buf off data] copies [data] to [buf + off]. *)
Definition store {A : Type} (buf : list A) (off : Z) (data : list A) : option (list A) :=
  if (0 <=? off) && (off + zlen data <=? zlen buf)
  then Some (firstn (Z.to_nat off) buf ++ data
             ++ skipn (Z.to_nat off + length data) buf)
  else None.

(** [slice buf off n] is the [n] elements at [buf + off]. *)
Definition slice {A : Type} (buf : list A) (off n : Z) : option (list A) :=
  if (0 <=? off) && (0 <=? n) && (off + n <=? zlen buf)
  then Some (firstn (Z.to_nat n) (skipn (Z.to_nat off) buf))
  else None.

(** What [malloc] returns is not initialised.  [heap k i] is the byte found
    at index [i] of the [k]-th block a call allocates; every statement below
    holds for all [heap]. *)
Definition heap_t : Type := nat -> nat -> byte.

Definition malloc (heap : heap_t) (k : nat) (size : Z) : list byte :=
  map (heap k) (seq 0 (Z.to_nat size)).

(** A block of [n] [uint16_t], read from its bytes (little endian). *)
Definition malloc16 (heap : heap_t) (k : nat) (n : Z) : list Z :=
  map (fun i => u8 (heap k (2 * i)%nat) + 256 * u8 (heap k (2 * i + 1)%nat))
      (seq 0 (Z.to_nat n)).

(** ** HAL.c *)

Module HAL.

Definition KMC_DEFAULT_SECTOR_SIZE : Z := 512.

(** The directory of image files [fopen] looks a name up in. *)
Definition disk : Type := String.string -> option (list byte).

Record state : Type := mkState {
  s_file_img : option (list byte);
  s_sector_size : Z
}.

Definition initial : state := mkState None 0.

(** [fseek(f, pos, SEEK_SET); fread(buff, 1, n, f)]: the bytes delivered. *)
Definition fread (img : list byte) (pos n : Z) : list byte :=
  firstn (Z.to_nat n) (skipn (Z.to_nat pos) img).

(** [kmc_read_sector(index, buff + off)]: bytes read, and the buffer after.
    The file offset [index * s_sector_size] is computed in 32 bits. *)
Definition kmc_read_sector (h : state) (index : Z) (buff : list byte) (off : Z)
  : outcome (Z * list byte) :=
  match s_file_img h with
  | Some img =>
      let data := fread img (u32 (index * s_sector_size h)) (s_sector_size h) in
      buff' <- access (store buff off data) ;;
      Done (zlen data, buff')
  | None => Done (0, buff)
  end.

Definition kmc_read_multi_sector (h : state) (index num : Z) (buff : list byte)
  : outcome (Z * list byte) :=
  match s_file_img h with
  | Some img =>
      let data := fread img (u32 (index * s_sector_size h))
                            (u32 (num * s_sector_size h)) in
      buff' <- access (store buff 0 data) ;;
      Done (zlen data, buff')
  | None => Done (0, buff)
  end.

Definition kmc_init (fs : disk) (file_name : String.string) (h : state)
  : state * option (list byte) :=
  match fs file_name with
  | Some img => (mkState (Some img) KMC_DEFAULT_SECTOR_SIZE, Some img)
  | None => (mkState None (s_sector_size h), None)
  end.

Definition kmc_update_sector_size (h : state) (bytes_per_sector : Z) : state * Z :=
  if (0 <? bytes_per_sector)
     && (0 =? Z.rem bytes_per_sector KMC_DEFAULT_SECTOR_SIZE)
     && negb (KMC_DEFAULT_SECTOR_SIZE =? bytes_per_sector)
  then (mkState (s_file_img h) bytes_per_sector, bytes_per_sector)
  else (h, s_sector_size h).

(** [kmc_de_init]: [fclose(s_file_img)].  [fclose] takes an open stream, so a
    NULL [s_file_img] is an access outside any object.  The pointer is not
    cleared; the program ends right after the one call there is. *)
Definition kmc_de_init (h : state) : outcome unit :=
  match s_file_img h with
  | Some _ => Done tt
  | None => Fault
  end.

End HAL.

(** ** FATfs.h and FATfs.c *)

Module FATfs.

Definition ENTRIES_PER_SECTOR : Z := 16.
Definition FAT12_CLUSTER_OFFSET_FACTOR : Z := 31.

Inductive disk_state_enum_t : Type :=
| GOOD_CONDITION
| FAILED_TO_OPEN
| BAD_BOOT_SECTOR.

(** [fatfs_entry_discr_enum_t] *)
Definition DELETED_ENTRY : Z := 0xE5.
Definition UNUSED_ENTRY : Z := 0x00.
Definition FAKE_ENTRY : Z := 0x0F.
Definition FOLDER_ENTRY : Z := 0x10.
Definition FILE_ENTRY : Z := 0x00.

(** [fatfs_fat12_enum_base_index_t] *)
Definition BOOT_SECTOR_BASE_ADDRESS : Z := 0.
Definition ROOT_DIR_12_PHYSC_BASE_INDEX : Z := 19.
Definition ROOT_DIR_12_LOGICAL_BASE_INDEX : Z := 0.
Definition DATA_REGION_12_LOGICAL_BASE_INDEX : Z := 2.
Definition FAT_TABE_PHYSC_BASE_INDEX : Z := 1.

Record fatfs_boot_sector_struct_t : Type := mkBoot {
  bytes_per_sector : Z;
  sectors_per_cluster : Z;
  reserved_sectors_quantity : Z;
  num_of_FATs : Z;
  max_root_dir_entries : Z;
  total_sectors : Z;
  sectors_per_FAT : Z;
  signature : Z;
  fat_type : list byte
}.

(** The listing keeps the source's parallel arrays. *)
Record fatfs_entry_list_struct_t : Type := mkList {
  entry_name : list (list byte);
  attribute : list Z;
  first_logical_cluster : list Z;
  entry_size : list Z;
  list_count : Z
}.

(** The file-level variables of FATfs.c, with those of HAL.c. *)
Record state : Type := mkState {
  hal : HAL.state;
  s_FAT12Infor : fatfs_boot_sector_struct_t;
  s_fat_table : option (list byte);
  s_dirlist : fatfs_entry_list_struct_t;
  s_cluster_chain : list Z;
  print_file_callback : bool   (* false: the pointer is NULL *)
}.

(** Static storage starts zeroed. *)
Definition initial : state :=
  mkState HAL.initial
          (mkBoot 0 0 0 0 0 0 0 0 (repeat x00 8))
          None
          (mkList [] [] [] [] 0)
          []
          false.

Definition set_chain (st : state) (c : list Z) : state :=
  mkState (hal st) (s_FAT12Infor st) (s_fat_table st) (s_dirlist st) c
          (print_file_callback st).
Definition set_dirlist (st : state) (d : fatfs_entry_list_struct_t) : state :=
  mkState (hal st) (s_FAT12Infor st) (s_fat_table st) d (s_cluster_chain st)
          (print_file_callback st).

Definition fatfs_clear_cluster_chain (st : state) : state := set_chain st [].

(** [strlen]: the index of the first NUL.  A block that holds no NUL is read
    past its end. *)
Fixpoint strlen (s : list byte) : outcome Z :=
  match s with
  | [] => Fault
  | b :: r => if u8 b =? 0 then Done 0 else (n <- strlen r ;; Done (1 + n))
  end.

(** The [for] loop of [hex_to_decimal]; [i] counts up to [bytes_count].
    [hex_line[byte_offset] << (8 * i)] is computed in [int] and added to a
    [uint64_t]. *)
Fixpoint hex_loop (n : nat) (hex_line : list byte) (index i decimal_value : Z)
  : outcome Z :=
  match n with
  | O => Done decimal_value
  | S n' =>
      let byte_offset := u32 (index + i) in
      b <- access (load hex_line byte_offset) ;;
      hex_loop n' hex_line index (i + 1)
               (u64 (decimal_value + s32 (Z.shiftl (u8 b) (8 * i))))
  end.

(** [strlen(hex_line)] comes first and scans the block from its start.  The
    guard [index >= line_length && index < 0] is kept as written; [index] is
    unsigned, so it never holds. *)
Definition hex_to_decimal (hex_line : list byte) (index bytes_count : Z) : outcome Z :=
  n <- strlen hex_line ;;
  let line_length := u32 n in
  if (index >=? line_length) && (index <? 0)
  then Done 0
  else hex_loop (Z.to_nat bytes_count) hex_line index 0 0.

(** The table is [None] while [s_fat_table] is NULL. *)
Definition read_FAT_entry (fat : option (list byte)) (logical_cluster : Z) : outcome Z :=
  table <- access fat ;;
  if Z.odd logical_cluster
  then
    b0 <- access (load table (Z.quot (3 * logical_cluster) 2)) ;;
    let four_bits := u16 (Z.shiftr (u8 b0) 4) in
    b1 <- access (load table (Z.quot (3 * logical_cluster) 2 + 1)) ;;
    let eight_bits := u16 (Z.shiftl (u8 b1) 4) in
    Done (u16 (four_bits + eight_bits))
  else
    b1 <- access (load table (Z.quot (3 * logical_cluster) 2 + 1)) ;;
    let four_bits := u16 (Z.shiftl (Z.land (u8 b1) 0x0f) 8) in
    b0 <- access (load table (Z.quot (3 * logical_cluster) 2)) ;;
    let eight_bits := u16 (u8 b0) in
    Done (u16 (four_bits + eight_bits)).

(** The linked list is a list of cluster numbers; a node is added at its end. *)
Definition fatfs_add_node (chain : list Z) (logical_cluster : Z) : list Z :=
  chain ++ [logical_cluster].

(** The [while] loop of [fatfs_get_cluster_chain]. *)
Fixpoint chain_loop (fuel : nat) (fat : option (list byte))
         (logical_cluster : Z) (chain : list Z) (chain_length : Z)
  : outcome (list Z * Z) :=
  if logical_cluster <? 0xFF8
  then
    match fuel with
    | O => OutOfFuel
    | S fuel' =>
        e <- read_FAT_entry fat logical_cluster ;;
        chain_loop fuel' fat e (fatfs_add_node chain e) (u32 (chain_length + 1))
    end
  else Done (chain, chain_length).

Definition fatfs_get_cluster_chain (fuel : nat) (st : state) (first_logical_cluster : Z)
  : outcome (state * Z) :=
  let logical_cluster := first_logical_cluster in
  let chain := fatfs_add_node (s_cluster_chain st) logical_cluster in
  let chain_length := 1 in
  '(chain', chain_length') <-
     chain_loop fuel (s_fat_table st) logical_cluster chain chain_length ;;
  Done (set_chain st chain', u32 (chain_length' - 1)).

Definition ResgisterPrint_file_func (st : state) : state :=
  mkState (hal st) (s_FAT12Infor st) (s_fat_table st) (s_dirlist st)
          (s_cluster_chain st) true.

(** The fields [fatfs_init] reads out of the boot sector. *)
Definition parse_boot_sector (buffer : list byte) : outcome fatfs_boot_sector_struct_t :=
  bps <- hex_to_decimal buffer 11 2 ;;
  spc <- hex_to_decimal buffer 13 1 ;;
  rsq <- hex_to_decimal buffer 14 2 ;;
  nf <- hex_to_decimal buffer 16 1 ;;
  mrde <- hex_to_decimal buffer 17 2 ;;
  ts <- hex_to_decimal buffer 19 2 ;;
  spf <- hex_to_decimal buffer 22 2 ;;
  sg <- hex_to_decimal buffer 38 1 ;;
  ft <- access (slice buffer 54 8) ;;
  Done (mkBoot (u16 bps) (u8w spc) (u16 rsq) (u8w nf) (u16 mrde) (u16 ts)
               (u16 spf) (u8w sg) ft).

(** The condition of the [if] that follows the read of the boot sector, with
    the grouping C gives it: [&&] binds tighter than [||]. *)
Definition boot_sector_invalid (b : fatfs_boot_sector_struct_t) : bool :=
  negb (Z.rem (bytes_per_sector b) 512 =? 0)
  || ((bytes_per_sector b <? 1)
      && (reserved_sectors_quantity b <? 1)
      && (num_of_FATs b <? 2)
      && negb (Z.rem (max_root_dir_entries b) 16 =? 0)).

(** [state1] is what the first [if] leaves in [state]; the second [if]
    assigns [state] on both of its branches. *)
Definition fatfs_init (fs : HAL.disk) (heap : heap_t) (file_name : String.string)
           (st : state) : outcome (state * disk_state_enum_t) :=
  let '(h1, disk_ptr) := HAL.kmc_init fs file_name (hal st) in
  let buffer := malloc heap 0 512 in
  '(state1, info) <-
     match disk_ptr with
     | None => Done (FAILED_TO_OPEN, s_FAT12Infor st)
     | Some _ =>
         '(_, buffer1) <- HAL.kmc_read_sector h1 BOOT_SECTOR_BASE_ADDRESS buffer 0 ;;
         info <- parse_boot_sector buffer1 ;;
         Done (GOOD_CONDITION, info)
     end ;;
  if boot_sector_invalid info
  then
    Done (mkState h1 info (s_fat_table st) (s_dirlist st) (s_cluster_chain st)
                  (print_file_callback st),
          BAD_BOOT_SECTOR)
  else
    let '(h2, sector_size) := HAL.kmc_update_sector_size h1 (bytes_per_sector info) in
    let fat := malloc heap 1 (sector_size * sectors_per_FAT info) in
    '(_, fat1) <- HAL.kmc_read_multi_sector h2 FAT_TABE_PHYSC_BASE_INDEX
                                           (sectors_per_FAT info) fat ;;
    Done (mkState h2 info (Some fat1) (s_dirlist st) (s_cluster_chain st)
                  (print_file_callback st),
          GOOD_CONDITION).

(** The [while (temp->next != NULL)] loop of [fatfs_read_dir]: one sector per
    node, the last node left out. *)
Fixpoint dir_chain_loop (h : HAL.state) (bps : Z) (temp : list Z)
         (buffer : list byte) (i : Z) : outcome (list byte) :=
  match temp with
  | [] => Fault
  | c :: next =>
      match next with
      | [] => Done buffer
      | _ :: _ =>
          '(_, buffer1) <-
             HAL.kmc_read_sector h (c + FAT12_CLUSTER_OFFSET_FACTOR) buffer i ;;
          dir_chain_loop h bps next buffer1 (u32 (i + bps))
      end
  end.

(** The first part of [fatfs_read_dir]: the directory's bytes, their count,
    and the block of entry offsets. *)
Definition read_dir_buffer (heap : heap_t) (fuel : nat) (st : state)
           (first_cluster : Z) : outcome (state * list byte * Z * list Z) :=
  let info := s_FAT12Infor st in
  if ROOT_DIR_12_LOGICAL_BASE_INDEX =? first_cluster
  then
    let root_dir_cluster_count := Z.quot (max_root_dir_entries info) ENTRIES_PER_SECTOR in
    let buffer_size := u32 (bytes_per_sector info * root_dir_cluster_count) in
    let buffer := malloc heap 0 buffer_size in
    let entries_index := malloc16 heap 1 (max_root_dir_entries info) in
    '(_, buffer1) <- HAL.kmc_read_multi_sector (hal st) ROOT_DIR_12_PHYSC_BASE_INDEX
                                              root_dir_cluster_count buffer ;;
    Done (st, buffer1, buffer_size, entries_index)
  else if first_cluster >? ROOT_DIR_12_LOGICAL_BASE_INDEX
  then
    '(st1, chain_length) <- fatfs_get_cluster_chain fuel st first_cluster ;;
    let buffer_size := u32 (chain_length * bytes_per_sector info) in
    let buffer := malloc heap 0 buffer_size in
    let entries_index := malloc16 heap 1 (chain_length * ENTRIES_PER_SECTOR) in
    buffer1 <- dir_chain_loop (hal st1) (bytes_per_sector info)
                              (s_cluster_chain st1) buffer 0 ;;
    Done (st1, buffer1, buffer_size, entries_index)
  else Done (st, [], 0, []).

(** The test an entry passes to be listed. *)
Definition entry_listed (buffer : list byte) (i : Z) : outcome bool :=
  b0 <- access (load buffer i) ;;
  if negb (DELETED_ENTRY =? u8 b0) && negb (UNUSED_ENTRY =? u8 b0)
  then
    b11 <- access (load buffer (u32 (i + 11))) ;;
    Done (negb (FAKE_ENTRY =? u8 b11))
  else Done false.

(** [for (i = 0; i < buffer_size; i += 32)]. *)
Fixpoint scan_loop (fuel : nat) (buffer : list byte) (buffer_size i : Z)
         (entries_index : list Z) (j count : Z) : outcome (list Z * Z * Z) :=
  if i <? buffer_size
  then
    match fuel with
    | O => OutOfFuel
    | S fuel' =>
        keep <- entry_listed buffer i ;;
        if keep
        then
          entries_index1 <- access (upd entries_index j (u16 i)) ;;
          scan_loop fuel' buffer buffer_size (u32 (i + 32)) entries_index1
                    (u32 (j + 1)) (u16 (count + 1))
        else
          scan_loop fuel' buffer buffer_size (u32 (i + 32)) entries_index j count
    end
  else Done (entries_index, j, count).

(** One entry of the listing: name with its NUL, attribute, first cluster, size. *)
Definition entry_t : Type := (list byte * Z * Z * Z)%type.

Definition fill_entry (buffer : list byte) (index : Z) : outcome entry_t :=
  name <- access (slice buffer index 11) ;;
  attr <- access (load buffer (index + 11)) ;;
  let offset := u32 (index + 26) in
  cluster <- hex_to_decimal buffer offset 2 ;;
  let offset := u32 (index + 28) in
  size <- hex_to_decimal buffer offset 4 ;;
  Done (name ++ [x00], u8 attr, u16 cluster, u32 size).

(** [for (i = 0; i < s_dirlist.list_count; i++)], filling the arrays. *)
Fixpoint fill_loop (n : nat) (buffer : list byte) (entries_index : list Z) (i : Z)
  : outcome (list entry_t) :=
  match n with
  | O => Done []
  | S n' =>
      index <- access (load entries_index i) ;;
      e <- fill_entry buffer index ;;
      rest <- fill_loop n' buffer entries_index (i + 1) ;;
      Done (e :: rest)
  end.

Definition listing_of (es : list entry_t) (count : Z) : fatfs_entry_list_struct_t :=
  mkList (map (fun e => fst (fst (fst e))) es)
         (map (fun e => snd (fst (fst e))) es)
         (map (fun e => snd (fst e)) es)
         (map (fun e => snd e) es)
         count.

Definition fatfs_read_dir (heap : heap_t) (fuel : nat) (st : state) (first_cluster : Z)
  : outcome (state * fatfs_entry_list_struct_t) :=
  '(st1, buffer, buffer_size, entries_index) <-
     read_dir_buffer heap fuel st first_cluster ;;
  '(entries_index1, _, count) <-
     scan_loop (S (Z.to_nat (Z.quot buffer_size 32))) buffer buffer_size 0
               entries_index 0 (list_count (s_dirlist st1)) ;;
  es <- fill_loop (Z.to_nat count) buffer entries_index1 0 ;;
  let st2 := fatfs_clear_cluster_chain (set_dirlist st1 (listing_of es count)) in
  Done (st2, s_dirlist st2).

(** The arrays are freed; the count is cleared. *)
Definition fatfs_clear_dir_list (st : state) : state :=
  set_dirlist st (mkList [] [] [] [] 0).

(** A call of the registered callback: the buffer it is handed, and the length. *)
Definition sink_call : Type := (list byte * Z)%type.

(** The [while (NULL != temp->next)] loop of [fatfs_read_file]. *)
Fixpoint file_loop (st : state) (temp : list Z) (file_content : list byte)
         (bytes_read : Z) : outcome (list sink_call) :=
  match temp with
  | [] => Fault
  | c :: next =>
      match next with
      | [] => Done []
      | _ :: _ =>
          '(n, content1) <-
             HAL.kmc_read_sector (hal st) (c + FAT12_CLUSTER_OFFSET_FACTOR)
                                 file_content 0 ;;
          if print_file_callback st
          then
            rest <- file_loop st next content1 (u32 (bytes_read + n)) ;;
            Done ((content1, bytes_per_sector (s_FAT12Infor st)) :: rest)
          else Fault
      end
  end.

Definition fatfs_read_file (heap : heap_t) (fuel : nat) (st : state) (first_cluster : Z)
  : outcome (state * list sink_call) :=
  '(st1, chain_length) <- fatfs_get_cluster_chain fuel st first_cluster ;;
  let temp := s_cluster_chain st1 in
  let file_content := malloc heap 0 (bytes_per_sector (s_FAT12Infor st1)) in
  calls <- file_loop st1 temp file_content 0 ;;
  Done (fatfs_clear_cluster_chain st1, calls).

(** [free(s_fat_table)], which takes NULL as well, then [kmc_de_init]. *)
Definition fatfs_de_init (st : state) : outcome unit :=
  HAL.kmc_de_init (hal st).

End FATfs.

(** ** main.c *)

Module App.

Import FATfs.
Local Open Scope string_scope.
Local Open Scope Z_scope.

(** What the program does to the console, in order: a character written by
    [printf], [system("cls")], [getch()]. *)
Inductive console : Type :=
| Put (b : byte)
| Cls
| Getch.

Definition puts (s : list byte) : list console := map Put s.

Definition text (s : String.string) : list byte := String.list_byte_of_string s.

(** A format that starts with a newline. *)
Definition line (s : String.string) : list byte := x0a :: text s.

Definition spaces (n : Z) : list byte := repeat " "%byte (Z.to_nat n).

(** [%d] of an [int]. *)
Definition decimal (n : Z) : list byte :=
  text (DecimalString.NilZero.string_of_int (Z.to_int n)).

(** A minimum field width: [%4d], [%12s] and [%8d] pad on the left, [%-6s]
    pads on the right. *)
Definition right_justify (width : Z) (s : list byte) : list byte :=
  spaces (width - zlen s) ++ s.
Definition left_justify (width : Z) (s : list byte) : list byte :=
  s ++ spaces (width - zlen s).

(** The string [%s] prints from a block: the bytes before the first NUL. A
    block that holds no NUL is read past its end. *)
Fixpoint c_string (s : list byte) : outcome (list byte) :=
  match s with
  | [] => Fault
  | b :: r => if u8 b =? 0 then Done [] else (t <- c_string r ;; Done (b :: t))
  end.

Definition rule : list byte :=
  line "+-----------+-------------------------------------------------------+".

Definition table_head : list byte :=
  rule
  ++ line "|  MY DISK  | Select the options below to access or press 0 to exit |"
  ++ rule
  ++ line "|  Option   |         Name          |    Type     |       size      |"
  ++ rule.

(** The two [printf] of the loop of [app_print_entry_list]; [i + 1] and the
    [uint32_t] size go through [%d]. *)
Definition folder_row (i : Z) (name : list byte) : list byte :=
  line "|  " ++ right_justify 4 (decimal (s32 (i + 1))) ++ text "     |"
  ++ right_justify 12 name ++ text "           |"
  ++ left_justify 6 (text "Folder") ++ text "       |         #       |".

Definition file_row (i : Z) (name : list byte) (size : Z) : list byte :=
  line "|  " ++ right_justify 4 (decimal (s32 (i + 1))) ++ text "     |"
  ++ right_justify 12 name ++ text "           |"
  ++ left_justify 6 (text "File") ++ text "       | "
  ++ right_justify 8 (decimal (s32 size)) ++ text " Bytes  |".

(** [for (i = 0; i < entry_list->list_count; i++)]. *)
Fixpoint print_rows (n : nat) (entry_list : fatfs_entry_list_struct_t) (i : Z)
  : outcome (list byte) :=
  match n with
  | O => Done []
  | S n' =>
      attr <- access (load (attribute entry_list) i) ;;
      block <- access (load (entry_name entry_list) i) ;;
      name <- c_string block ;;
      r <- (if FOLDER_ENTRY =? attr
            then Done (folder_row i name)
            else size <- access (load (entry_size entry_list) i) ;;
                 Done (file_row i name size)) ;;
      rest <- print_rows n' entry_list (u32 (i + 1)) ;;
      Done (r ++ rest)
  end.

Definition app_print_entry_list (entry_list : fatfs_entry_list_struct_t)
  : outcome (list byte) :=
  rows <- print_rows (Z.to_nat (list_count entry_list)) entry_list 0 ;;
  Done (table_head ++ rows ++ rule).

(** [app_print_file_content(file_content, bytes_read)]: the characters
    written. *)
Definition app_print_file_content (file_content : list byte) (bytes_read : Z)
  : outcome (list byte) :=
  access (slice file_content 0 bytes_read).

(** The callback [main] registers, at each call [fatfs_read_file] made. *)
Fixpoint print_calls (calls : list sink_call) : outcome (list byte) :=
  match calls with
  | [] => Done []
  | (file_content, bytes_read) :: rest =>
      a <- app_print_file_content file_content bytes_read ;;
      b <- print_calls rest ;;
      Done (a ++ b)
  end.

Definition app_print_disk_state (disk_state : disk_state_enum_t) : list byte :=
  match disk_state with
  | FAILED_TO_OPEN => [x0a; x0a; x09; x09] ++ text "FAILED TO OPEN DISK!"
  | BAD_BOOT_SECTOR => [x0a; x0a; x09; x09] ++ text "DISK HAS BAD BOOT SECTOR!"
  | GOOD_CONDITION => []
  end.

(** What [scanf("%d", &choice)] meets on the input: a number, which it
    stores, or something that is no number.  The end of the list is the end
    of the input. *)
Inductive scan : Type :=
| Number (n : Z)
| NoMatch.

Definition prompt : list byte := [x0a; x0a] ++ text "[OPTION] >> ".
Definition retry : list byte :=
  [x0a; x0a; x09] ++ text "Please re-enter your option or press 0 to exit!".

(** The [do ... while] of [main]: [check_choice] is 1 after a number and 0
    after a matching failure; at the end of the input [scanf] returns [EOF],
    which is 4294967295 in the [uint32_t check_choice], so the loop ends
    with [choice] as it was.  What [fflush(stdin)] drops is not in the list.
    The result is [choice], the input left and what was written. *)
Fixpoint ask (inputs : list scan) (choice : Z) : Z * list scan * list byte :=
  match inputs with
  | [] => (choice, [], prompt)
  | Number n :: rest => (n, rest, prompt)
  | NoMatch :: rest =>
      let '(choice1, rest1, out) := ask rest choice in
      (choice1, rest1, prompt ++ retry ++ out)
  end.

Definition file_head : list byte :=
  [x0a; x0a] ++ text "=>> [Read file ... ]" ++ [x0a; x0a]
  ++ x0a :: text "File: " ++ [x0a; x0a].
Definition file_tail : list byte :=
  [x0a] ++ [x0a; x0a] ++ text "Press any key to continue...".

(** One option of the menu, after the [do ... while]: the state to go on
    with, or none after [exit(0)], and what was done to the console.
    [dir_list] is the struct [fatfs_read_dir] returned last: its pointers
    are those of [s_dirlist], so its arrays are read in the state, also
    after [fatfs_clear_dir_list] has freed them. *)
Definition main_option (heap : heap_t) (fuel : nat) (st : state) (choice : Z)
  : outcome (option state * list console) :=
  if choice =? 0
  then
    _ <- fatfs_de_init st ;;
    Done (None, [])
  else
    attr <- access (load (attribute (s_dirlist st)) (choice - 1)) ;;
    if FOLDER_ENTRY =? attr
    then
      let st1 := fatfs_clear_dir_list st in
      cluster <- access (load (first_logical_cluster (s_dirlist st1)) (choice - 1)) ;;
      '(st2, dir_list) <- fatfs_read_dir heap fuel st1 cluster ;;
      table <- app_print_entry_list dir_list ;;
      Done (Some st2, Cls :: puts table)
    else if FILE_ENTRY =? attr
    then
      cluster <- access (load (first_logical_cluster (s_dirlist st)) (choice - 1)) ;;
      '(st2, calls) <- fatfs_read_file heap fuel st cluster ;;
      content <- print_calls calls ;;
      table <- app_print_entry_list (s_dirlist st2) ;;
      Done (Some st2,
            puts (file_head ++ content ++ file_tail) ++ [Getch; Cls] ++ puts table)
    else Done (Some st, []).

(** [while (1)]: [n] bounds the number of options taken; [heaps k] is the
    heap the [k]-th option meets. *)
Fixpoint main_loop (n : nat) (heaps : nat -> heap_t) (k : nat) (fuel : nat)
         (st : state) (choice : Z) (inputs : list scan) : outcome (list console) :=
  match n with
  | O => OutOfFuel
  | S n' =>
      let '(choice1, inputs1, asked) := ask inputs choice in
      '(next, out) <- main_option (heaps k) fuel st choice1 ;;
      match next with
      | None => Done (puts asked ++ out)
      | Some st1 =>
          rest <- main_loop n' heaps (S k) fuel st1 choice1 inputs1 ;;
          Done (puts asked ++ out ++ rest)
      end
  end.

(** [main]: what it did to the console when it ended, by [exit(0)] or by
    [return 0].  [heap0] and [heap1] are the heaps [fatfs_init] and the
    first [fatfs_read_dir] meet. *)
Definition main (fs : HAL.disk) (heap0 heap1 : heap_t) (heaps : nat -> heap_t)
           (fuel n : nat) (inputs : list scan) : outcome (list console) :=
  '(st, disk_state) <- fatfs_init fs heap0 "floppy.img" initial ;;
  match disk_state with
  | GOOD_CONDITION =>
      let st1 := ResgisterPrint_file_func st in
      '(st2, dir_list) <- fatfs_read_dir heap1 fuel st1 ROOT_DIR_12_LOGICAL_BASE_INDEX ;;
      table <- app_print_entry_list dir_list ;;
      rest <- main_loop n heaps 0 fuel st2 0 inputs ;;
      Done (puts table ++ rest)
  | _ => Done (puts (app_print_disk_state disk_state))
  end.

End App.

(** ** The specification's vocabulary

    Definitions that follow the words of the specification, to be compared
    with what the code computes. *)

Module Spec.

Import FATfs.

(** *** Geometry derived from the boot sector *)





(** The four conditions a boot sector must meet. *)
Definition boot_sector_valid (b : fatfs_boot_sector_struct_t) : Prop :=
  (0 < bytes_per_sector b /\ bytes_per_sector b mod 512 = 0)
  /\ 1 <= reserved_sectors_quantity b
  /\ 2 <= num_of_FATs b
  /\ max_root_dir_entries b mod 16 = 0.

(** *** The packed 12-bit table *)

(** Nibble [k] of the table, the low nibble of a byte first. *)
Definition nibble (table : list byte) (k : Z) : option Z :=
  option_map (fun b => (u8 b / 16 ^ (k mod 2)) mod 16) (load table (k / 2)).

(** The 12-bit value that starts at nibble [k]. *)
Definition entry_at_nibble (table : list byte) (k : Z) : option Z :=
  match nibble table k, nibble table (k + 1), nibble table (k + 2) with
  | Some n0, Some n1, Some n2 => Some (n0 + 16 * n1 + 256 * n2)
  | _, _, _ => None
  end.

(** The entry of cluster [c] from the two bytes at [floor (3c/2)]. *)
Definition packed_entry (c : Z) (b0 b1 : byte) : Z :=
  if Z.even c
  then Z.lor (u8 b0) (Z.shiftl (Z.land (u8 b1) 0x0F) 8)
  else Z.lor (Z.shiftr (u8 b0) 4) (Z.shiftl (u8 b1) 4).

(** *** Cluster chains *)

(** From [c] the walk appends exactly [tail], then stops. *)
Fixpoint walk_from (fat : option (list byte)) (c : Z) (tail : list Z) : Prop :=
  match tail with
  | [] => 0xFF8 <= c
  | e :: r => c < 0xFF8 /\ read_FAT_entry fat c = Done e /\ walk_from fat e r
  end.

(** Each node is the FAT entry of the node before it. *)
Fixpoint linked (fat : option (list byte)) (l : list Z) : Prop :=
  match l with
  | a :: (b :: _) as r => read_FAT_entry fat a = Done b /\ linked fat r
  | _ => True
  end.

(** The cluster reached after [k] links, when the walk gets that far. *)
Fixpoint nth_cluster (k : nat) (fat : option (list byte)) (c : Z) : option Z :=
  match k with
  | O => Some c
  | S k' =>
      if c <? 0xFF8
      then match read_FAT_entry fat c with
           | Done e => nth_cluster k' fat e
           | _ => None
           end
      else None
  end.

(** The chain from [f] comes back to a cluster it has visited. *)
Definition cycles (fat : option (list byte)) (f : Z) : Prop :=
  exists (i p : nat) (c : Z),
    (0 < p)%nat /\ nth_cluster i fat f = Some c /\ nth_cluster (i + p) fat f = Some c.

(** The clusters the loops read: each in the range of a [uint16_t] and below
    the end-of-chain values. *)
Definition clusters_ok (body : list Z) : Prop :=
  Forall (fun c => 0 <= c < 0xFF8) body.

(** Fields in the ranges of their C types. *)
Definition fields_in_range (st : state) : Prop :=
  (0 <= bytes_per_sector (s_FAT12Infor st) < 65536)
  /\ (0 <= max_root_dir_entries (s_FAT12Infor st) < 65536)
  /\ (0 <= list_count (s_dirlist st) < 65536).

(** *** Sectors and buffers *)

(** The bytes the image holds of sector [index], for sectors of [ss] bytes. *)
Definition sector_bytes (img : list byte) (ss index : Z) : list byte :=
  HAL.fread img (index * ss) ss.

(** [buf] holds [data] from offset [off] on. *)
Definition holds_at (buf : list byte) (off : Z) (data : list byte) : Prop :=
  forall j, 0 <= j < zlen data -> load buf (off + j) = load data j.

(** *** Directory entries *)

(** An entry is listed when name[0] is neither 0x00 nor 0xE5 and the
    attribute is not 0x0F. *)
Definition qualifies (buffer : list byte) (i : Z) : bool :=
  match load buffer i, load buffer (i + 11) with
  | Some b0, Some b11 =>
      negb (u8 b0 =? 0x00) && negb (u8 b0 =? 0xE5) && negb (u8 b11 =? 0x0F)
  | _, _ => false
  end.

(** The number of 32-byte strides that start below [buffer_size]. *)
Definition entry_slots (buffer_size : Z) : nat := Z.to_nat ((buffer_size + 31) / 32).

Definition slot_offsets (a n : nat) : list Z :=
  map (fun k => 32 * Z.of_nat k) (seq a n).

(** The offsets of the listed entries, in on-disk order. *)
Definition listed_offsets (buffer : list byte) (buffer_size : Z) : list Z :=
  filter (qualifies buffer) (slot_offsets 0 (entry_slots buffer_size)).

Definition qualifying (buffer : list byte) (buffer_size : Z) : Z :=
  zlen (listed_offsets buffer buffer_size).

Definition byte_at (buffer : list byte) (i : Z) : Z :=
  match load buffer i with
  | Some b => u8 b
  | None => 0
  end.

(** The little-endian u16 at offset [i]. *)
Definition le16_at (buffer : list byte) (i : Z) : Z :=
  byte_at buffer i + 256 * byte_at buffer (i + 1).

(** The little-endian u32 at offset [i]. *)
Definition le32_at (buffer : list byte) (i : Z) : Z :=
  byte_at buffer i + 256 * byte_at buffer (i + 1)
  + 65536 * byte_at buffer (i + 2) + 16777216 * byte_at buffer (i + 3).

(** The decoded entry at [off]: the 11 name bytes and a NUL, the attribute,
    the u16 at +26 and the u32 at +28, little endian. *)
Definition parsed_entry (buffer : list byte) (off : Z) : entry_t :=
  (firstn 11 (skipn (Z.to_nat off) buffer) ++ [x00],
   byte_at buffer (off + 11),
   le16_at buffer (off + 26),
   le32_at buffer (off + 28)).

(** The fields of the boot sector of an image: little endian, at the
    offsets of the BPB. *)
Definition boot_fields (img : list byte) : fatfs_boot_sector_struct_t :=
  mkBoot (le16_at img 11) (byte_at img 13) (le16_at img 14) (byte_at img 16)
         (le16_at img 17) (le16_at img 19) (le16_at img 22) (byte_at img 38)
         (firstn 8 (skipn 54 img)).

(** What the validation of [fatfs_init] comes to, on the fields of an image. *)
Definition boot_sector_rejected (img : list byte) : Prop :=
  le16_at img 11 mod 512 <> 0
  \/ (le16_at img 11 = 0 /\ le16_at img 14 = 0
      /\ byte_at img 16 < 2 /\ le16_at img 17 mod 16 <> 0).

(** The sector size of a device with an image open. *)
Definition sector_size_ok (h : HAL.state) : Prop :=
  HAL.s_file_img h <> None ->
  0 < HAL.s_sector_size h /\ HAL.s_sector_size h mod 512 = 0.

(** *** Reading sector by sector *)

(** [n] calls of [kmc_read_sector], for the sectors from [index] on, each
    into the next [s_sector_size] bytes of the buffer: the bytes read in all,
    and the buffer after. *)
Fixpoint read_sectors (h : HAL.state) (index : Z) (n : nat) (buff : list byte) (off : Z)
  : outcome (Z * list byte) :=
  match n with
  | O => Done (0, buff)
  | S n' =>
      '(a, buff1) <- HAL.kmc_read_sector h index buff off ;;
      '(b, buff2) <- read_sectors h (index + 1) n' buff1 (off + HAL.s_sector_size h) ;;
      Done (a + b, buff2)
  end.

(** The sectors of the data clusters [body], one after the other. *)
Definition chain_bytes (img : list byte) (ss : Z) (body : list Z) : list byte :=
  concat (map (fun c => sector_bytes img ss (c + FAT12_CLUSTER_OFFSET_FACTOR)) body).

(** *** Listings and their table *)

(** A well-formed listing: four arrays of [list_count] elements, names of 11
    bytes and a NUL, values in the ranges of their C types. *)
Definition listing_ok (l : fatfs_entry_list_struct_t) : Prop :=
  0 <= list_count l < 65536
  /\ zlen (entry_name l) = list_count l
  /\ zlen (attribute l) = list_count l
  /\ zlen (first_logical_cluster l) = list_count l
  /\ zlen (entry_size l) = list_count l
  /\ Forall (fun name => exists s, name = s ++ [x00] /\ zlen s = 11) (entry_name l)
  /\ Forall (fun a => 0 <= a < 256) (attribute l)
  /\ Forall (fun k => 0 <= k < 65536) (first_logical_cluster l)
  /\ Forall (fun s => 0 <= s < 4294967296) (entry_size l).

(** The bytes of a name before its first NUL. *)
Fixpoint until_nul (s : list byte) : list byte :=
  match s with
  | [] => []
  | b :: r => if u8 b =? 0 then [] else b :: until_nul r
  end.

(** The row of entry [i]: a folder when the attribute is exactly 0x10, a
    file with its size otherwise. *)
Definition table_row (i : Z) (name : list byte) (attr size : Z) : list byte :=
  if attr =? 0x10
  then App.folder_row i (until_nul name)
  else App.file_row i (until_nul name) size.

(** The rows of the entries from [i] on. *)
Fixpoint table_rows (i : Z) (names : list (list byte)) (attrs sizes : list Z)
  : list byte :=
  match names, attrs, sizes with
  | name :: names', attr :: attrs', size :: sizes' =>
      table_row i name attr size ++ table_rows (i + 1) names' attrs' sizes'
  | _, _, _ => []
  end.

Definition table_of (l : fatfs_entry_list_struct_t) : list byte :=
  App.table_head
  ++ table_rows 0 (entry_name l) (attribute l) (entry_size l)
  ++ App.rule.

End Spec.

(** ** Concrete images *)

Module Images.

Import FATfs.
Local Open Scope string_scope.
Local Open Scope Z_scope.

Definition byte_of (z : Z) : byte :=
  match Byte.of_N (Z.to_N z) with
  | Some b => b
  | None => x00
  end.

Definition bytes (l : list Z) : list byte := map byte_of l.
Definition text (s : String.string) : list byte := String.list_byte_of_string s.
Definition zeros (n : Z) : list byte := repeat x00 (Z.to_nat n).
Definition fill (b : byte) (n : Z) : list byte := repeat b (Z.to_nat n).
Definition pad (n : Z) (l : list byte) : list byte := l ++ zeros (n - zlen l).

Definition le16 (x : Z) : list byte := bytes [x mod 256; x / 256].
Definition le32 (x : Z) : list byte :=
  bytes [x mod 256; (x / 256) mod 256; (x / 65536) mod 256; x / 16777216].

(** A boot sector: the BPB fields at offsets 11 to 23, the signature at 38
    and the type label at 54. *)
Definition boot_sector (bps spc rsv nf mrde ts spf : Z) : list byte :=
  pad 512 (bytes [0xEB; 0x3C; 0x90] ++ text "MSDOS5.0"
           ++ le16 bps ++ bytes [spc] ++ le16 rsv ++ bytes [nf]
           ++ le16 mrde ++ le16 ts ++ bytes [0xF0] ++ le16 spf
           ++ zeros 14 ++ bytes [0x29] ++ zeros 15 ++ text "FAT12   ").

(** A 32-byte directory entry. *)
Definition dirent (name : list byte) (attr cluster size : Z) : list byte :=
  name ++ bytes [attr] ++ zeros 14 ++ le16 cluster ++ le32 size.

(** 12-bit entries packed two to three bytes. *)
Fixpoint pack_fat (es : list Z) : list byte :=
  match es with
  | e0 :: e1 :: r =>
      bytes [e0 mod 256; e0 / 256 + 16 * (e1 mod 16); e1 / 16] ++ pack_fat r
  | [e0] => bytes [e0 mod 256; e0 / 256]
  | [] => []
  end.

Definition zero_heap : heap_t := fun _ _ => x00.

Definition floppy : String.string := "floppy.img".

Definition one_image (img : list byte) : HAL.disk :=
  fun name => if String.eqb name floppy then Some img else None.

Definition no_image : HAL.disk := fun _ => None.

(** The state [fatfs_init] leaves, with the callback registered as [main] does. *)
Definition mounted (img : list byte) : state :=
  match fatfs_init (one_image img) zero_heap floppy initial with
  | Done (st, _) => ResgisterPrint_file_func st
  | _ => initial
  end.

(** A call of [read_dir] as [main] makes it: the state and the listing after. *)
Definition run_read_dir (st : state) (cluster : Z) : state * fatfs_entry_list_struct_t :=
  match fatfs_read_dir zero_heap 1 st cluster with
  | Done r => r
  | _ => (st, mkList [] [] [] [] 0)
  end.

(** The bytes [read_dir] gathers for a directory. *)
Definition dir_bytes (st : state) (cluster : Z) : list byte :=
  match read_dir_buffer zero_heap 1 st cluster with
  | Done (_, buffer, _, _) => buffer
  | _ => []
  end.

(** The stock 1.44 MB layout (512-byte sectors, one reserved sector, two FATs
    of nine sectors, 224 root entries, 2880 sectors) with one file
    [HELLO   TXT] of 13 bytes at cluster 2. *)
Definition stock_info : fatfs_boot_sector_struct_t :=
  mkBoot 512 1 1 2 224 2880 9 0x29 (text "FAT12   ").

Definition stock_fat : list byte := pad 4608 (pack_fat [0xFF0; 0xFFF; 0xFFF]).

Definition hello : list byte := text "Hello, world!".
Definition hello_name : list byte := text "HELLO   TXT".
Definition dot_name : list byte := text ".          ".
Definition dotdot_name : list byte := text "..         ".
Definition inner_name : list byte := text "INNER   TXT".

Definition stock : list byte :=
  pad (2880 * 512)
      (boot_sector 512 1 1 2 224 2880 9
       ++ stock_fat ++ stock_fat
       ++ pad (14 * 512) (dirent hello_name 0x20 2 13)
       ++ pad 512 hello).

(** The stock layout with the FAT entry of cluster 2 pointing to cluster 2. *)
Definition cyclic_fat : list byte := pad 4608 (pack_fat [0xFF0; 0xFFF; 2]).

Definition cyclic : list byte :=
  pad (34 * 512)
      (boot_sector 512 1 1 2 224 2880 9
       ++ cyclic_fat ++ cyclic_fat
       ++ pad (14 * 512) (dirent (text "LOOP    TXT") 0x20 2 13)
       ++ pad 512 hello).

(** A boot sector whose bytes_per_sector field is 0, the other fields as on
    the stock layout. *)
Definition zero_bps : list byte := boot_sector 0 1 1 2 224 2880 9.

(** The stock layout with two sectors per cluster: the file at cluster 2 has
    512 bytes [A] in sector 33 and 512 bytes [B] in sector 34. *)
Definition paired : list byte :=
  boot_sector 512 2 1 2 224 2880 9
  ++ stock_fat ++ stock_fat
  ++ pad (14 * 512) (dirent (text "TWO     TXT") 0x20 2 1024)
  ++ fill "A"%byte 512 ++ fill "B"%byte 512.

(** 1024-byte sectors: one reserved sector, two FATs of three sectors, so the
    224 root entries are sectors 7 to 13 and cluster 2 is sector 14.  The
    image has 40 sectors; those from 14 on hold zeros but for the file. *)
Definition kilo_fat : list byte := pad 3072 (pack_fat [0xFF0; 0xFFF; 0xFFF]).

Definition kilo : list byte :=
  pad (40 * 1024)
      (pad 1024 (boot_sector 1024 1 1 2 224 1440 3)
       ++ kilo_fat ++ kilo_fat
       ++ pad (7 * 1024) (dirent hello_name 0x20 2 13)
       ++ pad 1024 (text "Hello, world!")).

(** The stock layout with 2064 root entries (129 sectors, 66048 bytes): the
    first entry is deleted, the entry at offset 65536 is a file, the others
    are unused. *)
Definition wide_root : list byte :=
  boot_sector 512 1 1 2 2064 2880 9
  ++ stock_fat ++ stock_fat
  ++ pad (129 * 512)
         (dirent (bytes [0xE5] ++ text "LD     TXT") 0x20 5 7
          ++ zeros (65536 - 32)
          ++ dirent (text "NEW     TXT") 0x20 2 13).

(** The bytes of that root directory. *)
Definition wide_root_dir : list byte := HAL.fread wide_root (19 * 512) (129 * 512).

Definition deleted_name : list byte := bytes [0xE5] ++ text "LD     TXT".
Definition new_name : list byte := text "NEW     TXT".

(** The stock layout with a subdirectory [SUB] at cluster 3 that holds the
    dot entries and [INNER   TXT] (cluster 4, 5 bytes). *)
Definition nested_fat : list byte :=
  pad 4608 (pack_fat [0xFF0; 0xFFF; 0xFFF; 0xFFF; 0xFFF]).

Definition nested : list byte :=
  boot_sector 512 1 1 2 224 2880 9
  ++ nested_fat ++ nested_fat
  ++ pad (14 * 512) (dirent (text "SUB        ") 0x10 3 0)
  ++ zeros 512
  ++ pad 512 (dirent dot_name 0x10 3 0
              ++ dirent dotdot_name 0x10 0 0
              ++ dirent inner_name 0x20 4 5)
  ++ pad 512 (text "inner").

(** The stock layout with three root entries: [README  TXT] with attribute
    0x00 (cluster 2, 6 bytes), the folder [SUB] (cluster 3) and
    [HELLO   TXT] with the archive attribute 0x20 (cluster 4, 13 bytes). *)
Definition readme_name : list byte := text "README  TXT".
Definition sub_name : list byte := text "SUB        ".

Definition menu : list byte :=
  boot_sector 512 1 1 2 224 2880 9
  ++ nested_fat ++ nested_fat
  ++ pad (14 * 512) (dirent readme_name 0x00 2 6
                     ++ dirent sub_name 0x10 3 0
                     ++ dirent hello_name 0x20 4 13)
  ++ pad 512 (text "readme")
  ++ pad 512 (dirent dot_name 0x10 3 0 ++ dirent dotdot_name 0x10 0 0)
  ++ pad 512 hello.




End Images.

(** * Properties *)

Import FATfs Spec.

(** ** Machine integers *)

Lemma u8_range (b : byte) : 0 <= u8 b < 256.
Proof.
  unfold u8. pose proof (Byte.to_N_bounded b). lia.
Qed.

Lemma u16_range (x : Z) : 0 <= u16 x < 65536.
Proof. unfold u16. apply Z.mod_pos_bound. lia. Qed.

Lemma u32_range (x : Z) : 0 <= u32 x < 4294967296.
Proof. unfold u32. apply Z.mod_pos_bound. lia. Qed.

Lemma u32_small (x : Z) : 0 <= x < 4294967296 -> u32 x = x.
Proof. intros H. unfold u32. apply Z.mod_small. assumption. Qed.

Lemma u16_small (x : Z) : 0 <= x < 65536 -> u16 x = x.
Proof. intros H. unfold u16. apply Z.mod_small. assumption. Qed.

Lemma u32_add_l (x y : Z) : u32 (u32 x + y) = u32 (x + y).
Proof. unfold u32. rewrite Z.add_mod_idemp_l by lia. reflexivity. Qed.

Lemma u16_add_l (x y : Z) : u16 (u16 x + y) = u16 (x + y).
Proof. unfold u16. rewrite Z.add_mod_idemp_l by lia. reflexivity. Qed.

Lemma s32_small (x : Z) : 0 <= x < 2147483648 -> s32 x = x.
Proof.
  intros H. unfold s32, u32. rewrite Z.mod_small by lia.
  replace (x <? 2147483648) with true by (symmetry; apply Z.ltb_lt; lia).
  reflexivity.
Qed.

Lemma lor_shiftl_add (a b n : Z) :
  0 <= n -> 0 <= a < 2 ^ n -> Z.lor a (Z.shiftl b n) = a + b * 2 ^ n.
Proof.
  intros Hn Ha.
  rewrite <- Z.shiftl_mul_pow2 by assumption.
  rewrite <- Z.add_lor_land.
  assert (Hz : Z.land a (Z.shiftl b n) = 0).
  { apply Z.bits_inj'. intros i Hi.
    rewrite Z.land_spec, Z.bits_0.
    destruct (Z.lt_ge_cases i n) as [Hlt | Hge].
    - rewrite Z.shiftl_spec_low by assumption. apply andb_false_r.
    - rewrite <- (Z.mod_small a (2 ^ n)) by assumption.
      rewrite Z.mod_pow2_bits_high by lia. reflexivity. }
  rewrite Hz. lia.
Qed.

(** ** Memory blocks *)

Lemma zlen_nonneg {A} (l : list A) : 0 <= zlen l.
Proof. unfold zlen. lia. Qed.

Lemma zlen_app {A} (l1 l2 : list A) : zlen (l1 ++ l2) = zlen l1 + zlen l2.
Proof. unfold zlen. rewrite length_app. lia. Qed.

Lemma zlen_malloc heap k n : 0 <= n -> zlen (malloc heap k n) = n.
Proof. intros H. unfold zlen, malloc. rewrite length_map, length_seq. lia. Qed.

Lemma zlen_fread img pos n : 0 <= n -> 0 <= zlen (HAL.fread img pos n) <= n.
Proof.
  intros H. unfold zlen, HAL.fread. rewrite length_firstn. lia.
Qed.

Lemma load_Some {A} (l : list A) i x : load l i = Some x -> 0 <= i < zlen l.
Proof.
  unfold load, zlen. destruct (i <? 0) eqn:E; [discriminate|].
  intros H. apply Z.ltb_ge in E.
  assert (nth_error l (Z.to_nat i) <> None) by congruence.
  apply nth_error_Some in H0. lia.
Qed.

Lemma load_in_range {A} (l : list A) i : 0 <= i < zlen l -> exists x, load l i = Some x.
Proof.
  unfold load, zlen. intros H.
  replace (i <? 0) with false by (symmetry; apply Z.ltb_ge; lia).
  destruct (nth_error l (Z.to_nat i)) eqn:E; [eauto|].
  apply nth_error_None in E. lia.
Qed.

Lemma load_app_l {A} (l1 l2 : list A) i :
  i < zlen l1 -> load (l1 ++ l2) i = load l1 i.
Proof.
  unfold load, zlen. intros H. destruct (i <? 0) eqn:E; [reflexivity|].
  apply Z.ltb_ge in E. apply nth_error_app1. lia.
Qed.

Lemma load_app_r {A} (l1 l2 : list A) i :
  zlen l1 <= i -> load (l1 ++ l2) i = load l2 (i - zlen l1).
Proof.
  unfold load, zlen. intros H.
  replace (i <? 0) with false by (symmetry; apply Z.ltb_ge; lia).
  replace (i - Z.of_nat (length l1) <? 0) with false by (symmetry; apply Z.ltb_ge; lia).
  rewrite nth_error_app2 by lia. f_equal. lia.
Qed.

Lemma load_firstn {A} (l : list A) n i :
  i < Z.of_nat n -> load (firstn n l) i = load l i.
Proof.
  unfold load. intros H. destruct (i <? 0) eqn:E; [reflexivity|].
  apply Z.ltb_ge in E. rewrite nth_error_firstn.
  replace (Z.to_nat i <? n)%nat with true; [reflexivity|].
  symmetry. apply Nat.ltb_lt. lia.
Qed.

Lemma load_skipn {A} (l : list A) n i :
  0 <= i -> load (skipn n l) i = load l (Z.of_nat n + i).
Proof.
  unfold load. intros H.
  replace (i <? 0) with false by (symmetry; apply Z.ltb_ge; lia).
  replace (Z.of_nat n + i <? 0) with false by (symmetry; apply Z.ltb_ge; lia).
  rewrite nth_error_skipn. f_equal. lia.
Qed.

(** What [store] leaves in the buffer. *)
Lemma store_spec {A} (buf : list A) off data buf1 :
  store buf off data = Some buf1 ->
  zlen buf1 = zlen buf
  /\ (forall j, off <= j < off + zlen data -> load buf1 j = load data (j - off))
  /\ (forall j, j < off \/ off + zlen data <= j -> load buf1 j = load buf j).
Proof.
  unfold store. destruct (0 <=? off) eqn:E1; [|discriminate].
  destruct (off + zlen data <=? zlen buf) eqn:E2; [|discriminate].
  cbn [andb]. intros H. injection H as <-.
  apply Z.leb_le in E1, E2.
  pose proof (zlen_nonneg data) as Hd.
  assert (Hf : zlen (firstn (Z.to_nat off) buf) = off).
  { unfold zlen in *. rewrite length_firstn. lia. }
  split; [|split].
  - rewrite !zlen_app, Hf. unfold zlen in *. rewrite length_skipn. lia.
  - intros j Hj. rewrite load_app_r by lia. rewrite Hf.
    apply load_app_l. lia.
  - intros j [Hj | Hj].
    + rewrite load_app_l by lia. apply load_firstn. lia.
    + rewrite load_app_r by lia. rewrite Hf.
      rewrite load_app_r by lia.
      destruct (Z.lt_ge_cases j 0) as [Hneg | Hpos]; [lia|].
      rewrite load_skipn by lia. f_equal. unfold zlen. lia.
Qed.

Lemma store_fits {A} (buf : list A) off data :
  0 <= off -> off + zlen data <= zlen buf -> exists buf1, store buf off data = Some buf1.
Proof.
  intros H1 H2. unfold store.
  replace (0 <=? off) with true by (symmetry; apply Z.leb_le; lia).
  replace (off + zlen data <=? zlen buf) with true by (symmetry; apply Z.leb_le; lia).
  eexists. reflexivity.
Qed.

Lemma upd_spec {A} (l : list A) i x l1 :
  upd l i x = Some l1 ->
  zlen l1 = zlen l /\ load l1 i = Some x /\ (forall k, k <> i -> load l1 k = load l k).
Proof.
  unfold upd. destruct (0 <=? i) eqn:E1; [|discriminate].
  destruct (i <? zlen l) eqn:E2; [|discriminate]. cbn [andb].
  intros H. injection H as <-. apply Z.leb_le in E1. apply Z.ltb_lt in E2.
  assert (Hf : zlen (firstn (Z.to_nat i) l) = i).
  { unfold zlen in *. rewrite length_firstn. lia. }
  split; [|split].
  - rewrite zlen_app, Hf. unfold zlen in *. cbn [length]. rewrite length_skipn. lia.
  - rewrite load_app_r by lia. rewrite Hf, Z.sub_diag. reflexivity.
  - intros k Hk. destruct (Z.lt_ge_cases k i) as [Hlt | Hge].
    + rewrite load_app_l by lia. apply load_firstn. lia.
    + rewrite load_app_r by lia. rewrite Hf.
      unfold load at 1. replace (k - i <? 0) with false by (symmetry; apply Z.ltb_ge; lia).
      replace (Z.to_nat (k - i)) with (S (Z.to_nat (k - i - 1))) by lia.
      cbn [nth_error].
      pose proof (load_skipn l (Z.to_nat i + 1) (k - i - 1) ltac:(lia)) as Hs.
      unfold load at 1 in Hs.
      replace (k - i - 1 <? 0) with false in Hs by (symmetry; apply Z.ltb_ge; lia).
      rewrite Hs. f_equal. lia.
Qed.

(** ** The block device *)

(** C9: after the device is opened the sector size is 512; [set_sector_size n]
    then sets and returns [n] when [n > 0] is a multiple of 512, and otherwise
    leaves the state as it is and returns the current size, 512. *)
Theorem kmc_update_sector_size_after_open
        (fs : HAL.disk) (name : String.string) (h h1 : HAL.state)
        (img : list byte) (n : Z) :
  HAL.kmc_init fs name h = (h1, Some img) ->
  0 <= n < 65536 ->
  HAL.s_sector_size h1 = 512
  /\ (0 < n /\ n mod 512 = 0 ->
      HAL.kmc_update_sector_size h1 n = (HAL.mkState (Some img) n, n))
  /\ (~ (0 < n /\ n mod 512 = 0) ->
      HAL.kmc_update_sector_size h1 n = (h1, 512)).
Proof.
  intros Hinit Hn. unfold HAL.kmc_init in Hinit.
  destruct (fs name) as [img'|]; [|discriminate].
  injection Hinit as <- <-.
  unfold HAL.kmc_update_sector_size, HAL.KMC_DEFAULT_SECTOR_SIZE.
  cbn [HAL.s_sector_size HAL.s_file_img].
  split; [reflexivity|]. split.
  - intros [Hpos Hmod].
    rewrite Z.rem_mod_nonneg by lia. rewrite Hmod.
    replace (0 <? n) with true by (symmetry; apply Z.ltb_lt; lia).
    change (0 =? 0) with true. cbn [andb].
    destruct (512 =? n) eqn:E; cbn [negb].
    + apply Z.eqb_eq in E. subst n. reflexivity.
    + reflexivity.
  - intros Hnot.
    destruct (0 <? n) eqn:Hp; cbn [andb]; [|reflexivity].
    apply Z.ltb_lt in Hp.
    rewrite Z.rem_mod_nonneg by lia.
    destruct (0 =? n mod 512) eqn:Hm; cbn [andb]; [|reflexivity].
    apply Z.eqb_eq in Hm. exfalso. apply Hnot. split; lia.
Qed.

(** After opening the 1024-byte-sector image, [n = 1024] is taken. *)
Lemma kmc_update_sector_size_after_open_witness :
  HAL.kmc_update_sector_size (HAL.mkState (Some Images.kilo) 512) 1024
  = (HAL.mkState (Some Images.kilo) 1024, 1024).
Proof.
  destruct (kmc_update_sector_size_after_open
              (Images.one_image Images.kilo) Images.floppy HAL.initial
              (HAL.mkState (Some Images.kilo) 512) Images.kilo 1024)
    as (_ & Hset & _).
  - reflexivity.
  - lia.
  - apply Hset. split; [lia | reflexivity].
Defined.

(** ** The FAT *)

Lemma packed_entry_arith c b0 b1 :
  packed_entry c b0 b1 =
  if Z.even c then u8 b0 + 256 * (u8 b1 mod 16) else u8 b0 / 16 + 16 * u8 b1.
Proof.
  unfold packed_entry. pose proof (u8_range b0). pose proof (u8_range b1).
  destruct (Z.even c).
  - rewrite lor_shiftl_add by lia.
    change 15 with (Z.ones 4). rewrite Z.land_ones by lia.
    change (2 ^ 8) with 256. change (2 ^ 4) with 16. lia.
  - rewrite Z.shiftr_div_pow2 by lia. change (2 ^ 4) with 16.
    rewrite lor_shiftl_add; change (2 ^ 4) with 16; [lia | lia | div_lia].
Qed.

(** C7: for a cluster index [c] whose two bytes lie in the table,
    [read_entry c] is [table[off] | ((table[off+1] & 0x0F) << 8)] for even [c]
    and [(table[off] >> 4) | (table[off+1] << 4)] for odd [c], with
    [off = floor (3c/2)]; it fits in 12 bits and is the 12-bit value that
    starts at nibble [3c]. *)
Theorem read_FAT_entry_packed (table : list byte) (c : Z) (b0 b1 : byte) :
  0 <= c < 65536 ->
  load table (3 * c / 2) = Some b0 ->
  load table (3 * c / 2 + 1) = Some b1 ->
  read_FAT_entry (Some table) c = Done (packed_entry c b0 b1)
  /\ 0 <= packed_entry c b0 b1 < 4096
  /\ entry_at_nibble table (3 * c) = Some (packed_entry c b0 b1).
Proof.
  intros Hc H0 H1.
  pose proof (u8_range b0) as R0. pose proof (u8_range b1) as R1.
  rewrite packed_entry_arith.
  unfold read_FAT_entry, entry_at_nibble, nibble. cbn [access bind].
  rewrite Z.quot_div_nonneg by lia. rewrite H0, H1. cbn [access bind].
  rewrite <- Z.negb_odd.
  destruct (Z.odd c) eqn:Hodd; cbn [negb].
  - apply Z.odd_spec in Hodd. destruct Hodd as [k Hk].
    replace ((3 * c) mod 2) with 1 by div_lia.
    replace ((3 * c + 1) / 2) with (3 * c / 2 + 1) by div_lia.
    replace ((3 * c + 1) mod 2) with 0 by div_lia.
    replace ((3 * c + 2) / 2) with (3 * c / 2 + 1) by div_lia.
    replace ((3 * c + 2) mod 2) with 1 by div_lia.
    rewrite ?H0, ?H1. cbn [option_map].
    rewrite Z.shiftr_div_pow2, Z.shiftl_mul_pow2 by lia.
    change (2 ^ 4) with 16. change (16 ^ 1) with 16. change (16 ^ 0) with 1.
    unfold u16.
    split; [f_equal | split; [| f_equal]]; div_lia.
  - assert (Hev : Z.even c = true) by (rewrite <- Z.negb_odd, Hodd; reflexivity).
    apply Z.even_spec in Hev. destruct Hev as [k Hk].
    replace ((3 * c) mod 2) with 0 by div_lia.
    replace ((3 * c + 1) / 2) with (3 * c / 2) by div_lia.
    replace ((3 * c + 1) mod 2) with 1 by div_lia.
    replace ((3 * c + 2) / 2) with (3 * c / 2 + 1) by div_lia.
    replace ((3 * c + 2) mod 2) with 0 by div_lia.
    rewrite ?H0, ?H1. cbn [option_map].
    change 15 with (Z.ones 4). rewrite Z.land_ones by lia.
    rewrite Z.shiftl_mul_pow2 by lia.
    change (2 ^ 4) with 16. change (2 ^ 8) with 256.
    change (16 ^ 1) with 16. change (16 ^ 0) with 1.
    unfold u16.
    split; [f_equal | split; [| f_equal]]; div_lia.
Qed.

(** Cluster 1 of the stock FAT: the bytes at offsets 1 and 2 are 0xFF. *)
Lemma read_FAT_entry_packed_witness :
  read_FAT_entry (Some Images.stock_fat) 1 = Done (packed_entry 1 xff xff)
  /\ 0 <= packed_entry 1 xff xff < 4096
  /\ entry_at_nibble Images.stock_fat (3 * 1) = Some (packed_entry 1 xff xff).
Proof.
  apply (read_FAT_entry_packed Images.stock_fat 1 xff xff).
  - lia.
  - reflexivity.
  - reflexivity.
Defined.

Lemma read_FAT_entry_range fat c e :
  read_FAT_entry fat c = Done e -> 0 <= e < 65536.
Proof.
  unfold read_FAT_entry. destruct fat as [table|]; cbn [access bind]; [|discriminate].
  destruct (Z.odd c).
  - destruct (load table (Z.quot (3 * c) 2)); cbn [access bind]; [|discriminate].
    destruct (load table (Z.quot (3 * c) 2 + 1)); cbn [access bind]; [|discriminate].
    intros H. injection H as <-. apply u16_range.
  - destruct (load table (Z.quot (3 * c) 2 + 1)); cbn [access bind]; [|discriminate].
    destruct (load table (Z.quot (3 * c) 2)); cbn [access bind]; [|discriminate].
    intros H. injection H as <-. apply u16_range.
Qed.

(** ** The chain walker *)

Lemma chain_loop_S fuel fat c chain len :
  chain_loop (S fuel) fat c chain len =
  if c <? 0xFF8
  then e <- read_FAT_entry fat c ;;
       chain_loop fuel fat e (fatfs_add_node chain e) (u32 (len + 1))
  else Done (chain, len).
Proof. reflexivity. Qed.

Lemma nth_cluster_S k fat c :
  nth_cluster (S k) fat c =
  if c <? 0xFF8
  then match read_FAT_entry fat c with
       | Done e => nth_cluster k fat e
       | _ => None
       end
  else None.
Proof. reflexivity. Qed.

(** A walk that returns has appended the clusters of [walk_from]. *)
Lemma chain_loop_done fuel : forall fat c chain len chain' len',
  chain_loop fuel fat c chain len = Done (chain', len') ->
  exists tail, chain' = chain ++ tail /\ walk_from fat c tail
               /\ u32 len' = u32 (len + zlen tail).
Proof.
  induction fuel as [|fuel IH]; intros fat c chain len chain' len' H.
  - cbn [chain_loop] in H. destruct (c <? 4088) eqn:Hc; [discriminate|].
    injection H as <- <-. exists []. rewrite app_nil_r. cbn [walk_from].
    split; [reflexivity|]. split; [lia|]. f_equal. unfold zlen. cbn. lia.
  - rewrite chain_loop_S in H. destruct (c <? 4088) eqn:Hc.
    + destruct (read_FAT_entry fat c) as [e| |] eqn:He; cbn [bind] in H; try discriminate.
      apply IH in H. destruct H as (tail & -> & Hw & Hl).
      exists (e :: tail). unfold fatfs_add_node. rewrite <- app_assoc. cbn [app].
      split; [reflexivity|]. split.
      * cbn [walk_from]. repeat split; try assumption. lia.
      * rewrite Hl. rewrite u32_add_l. f_equal. unfold zlen. cbn [length]. lia.
    + injection H as <- <-. exists []. rewrite app_nil_r. cbn [walk_from].
      split; [reflexivity|]. split; [lia|]. f_equal. unfold zlen. cbn. lia.
Qed.

Lemma walk_from_shape fat : forall tail c,
  0 <= c ->
  walk_from fat c tail ->
  exists body last, c :: tail = body ++ [last]
    /\ clusters_ok body /\ 0xFF8 <= last /\ linked fat (c :: tail).
Proof.
  induction tail as [|e r IH]; intros c H0 H.
  - exists [], c. cbn in *. repeat split; auto. constructor.
  - cbn [walk_from] in H. destruct H as (Hc & He & Hw).
    pose proof (read_FAT_entry_range _ _ _ He) as Hr.
    destruct (IH e ltac:(lia) Hw) as (body & last & Heq & Hb & Hl & Hlk).
    exists (c :: body), last. rewrite Heq. cbn [app]. repeat split; auto.
    + constructor; [lia | assumption].
    + rewrite <- Heq. cbn [linked]. split; assumption.
Qed.

(** More fuel does not change what a walk returned. *)
Lemma chain_loop_more fuel : forall fat c chain len r,
  chain_loop fuel fat c chain len = Done r ->
  chain_loop (S fuel) fat c chain len = Done r.
Proof.
  induction fuel as [|fuel IH]; intros fat c chain len r H.
  - cbn [chain_loop] in *. destruct (c <? 4088); [discriminate | assumption].
  - rewrite chain_loop_S in H. rewrite chain_loop_S.
    destruct (c <? 4088); [|assumption].
    destruct (read_FAT_entry fat c); cbn [bind] in *; try discriminate.
    apply IH. assumption.
Qed.

(** The walk is a function of the table: two walks from one cluster agree. *)
Lemma walk_from_det fat : forall t1 t2 c,
  walk_from fat c t1 -> walk_from fat c t2 -> t1 = t2.
Proof.
  induction t1 as [|e1 r1 IH]; intros [|e2 r2] c H1 H2; cbn [walk_from] in *.
  - reflexivity.
  - lia.
  - lia.
  - destruct H1 as (_ & E1 & W1). destruct H2 as (_ & E2 & W2).
    rewrite E1 in E2. injection E2 as <-. f_equal. apply (IH r2 e1); assumption.
Qed.

Lemma walk_from_suffix fat : forall t1 t2 c d,
  walk_from fat c (t1 ++ d :: t2) -> walk_from fat d t2.
Proof.
  induction t1 as [|a t1 IH]; intros t2 c d H; cbn [app walk_from] in H.
  - apply H.
  - destruct H as (_ & _ & H). apply (IH t2 a d). assumption.
Qed.

(** A walk that stops has visited no cluster twice. *)
Lemma walk_from_NoDup fat : forall tail c,
  walk_from fat c tail -> NoDup (c :: tail).
Proof.
  induction tail as [|e r IH]; intros c H.
  - constructor; [intros [] | constructor].
  - constructor.
    + intros Hin. apply in_split in Hin. destruct Hin as (t1 & t2 & Heq).
      rewrite Heq in H.
      pose proof (walk_from_suffix fat t1 t2 c c H) as Hs.
      pose proof (walk_from_det fat _ _ c H Hs) as Hd.
      apply (f_equal (@length Z)) in Hd. rewrite length_app in Hd. cbn [length] in Hd. lia.
    + cbn [walk_from] in H. apply IH. apply H.
Qed.

Lemma clusters_ok_length (body : list Z) :
  clusters_ok body -> NoDup body -> zlen body <= 0xFF8.
Proof.
  intros Hok Hnd.
  assert (Hincl : incl body (map Z.of_nat (seq 0 (Z.to_nat 0xFF8)))).
  { intros c Hc. unfold clusters_ok in Hok. rewrite Forall_forall in Hok.
    specialize (Hok c Hc). apply in_map_iff. exists (Z.to_nat c).
    split; [lia|]. apply in_seq. lia. }
  apply NoDup_incl_length in Hincl; [|assumption].
  rewrite length_map, length_seq in Hincl. unfold zlen. lia.
Qed.

(** The nodes of a chain and the length the walker reports. *)
Lemma get_cluster_chain_nodes fuel st f st1 n :
  s_cluster_chain st = [] ->
  0 <= f < 65536 ->
  fatfs_get_cluster_chain fuel st f = Done (st1, n) ->
  exists body last,
    st1 = set_chain st (body ++ [last])
    /\ hd_error (body ++ [last]) = Some f
    /\ linked (s_fat_table st) (body ++ [last])
    /\ clusters_ok body
    /\ 0xFF8 <= last
    /\ zlen body <= 0xFF8
    /\ n = zlen body.
Proof.
  intros Hnil Hf H. unfold fatfs_get_cluster_chain in H. rewrite Hnil in H.
  unfold fatfs_add_node in H at 1. cbn [app] in H.
  destruct (chain_loop fuel (s_fat_table st) f [f] 1) as [[chain' len']| |] eqn:Hloop;
    cbn [bind] in H; try discriminate.
  injection H as <- <-.
  apply chain_loop_done in Hloop. destruct Hloop as (tail & -> & Hw & Hl).
  destruct (walk_from_shape (s_fat_table st) tail f ltac:(lia) Hw)
    as (body & last & Heq & Hb & Hlast & Hlk).
  pose proof (walk_from_NoDup _ _ _ Hw) as Hnd.
  cbn [app]. rewrite Heq in *.
  assert (Hbound : zlen body <= 0xFF8).
  { apply clusters_ok_length; [assumption|].
    apply NoDup_remove_1 in Hnd. rewrite app_nil_r in Hnd. assumption. }
  exists body, last.
  repeat split; try assumption.
  - rewrite <- Heq. reflexivity.
  - assert (Hlen : 1 + zlen tail = zlen body + 1).
    { change (1 + zlen tail) with (1 + Z.of_nat (length tail)).
      replace (1 + Z.of_nat (length tail)) with (zlen (f :: tail))
        by (unfold zlen; cbn [length]; lia).
      rewrite Heq, zlen_app. reflexivity. }
    rewrite Hlen in Hl. pose proof (zlen_nonneg body) as Hnn.
    rewrite <- (u32_small (zlen body)) by lia.
    unfold u32 in *.
    rewrite <- Zminus_mod_idemp_l, Hl, Zminus_mod_idemp_l. f_equal. lia.
Qed.

Lemma nth_cluster_add a : forall b fat c,
  nth_cluster (a + b) fat c =
  match nth_cluster a fat c with
  | Some d => nth_cluster b fat d
  | None => None
  end.
Proof.
  induction a as [|a IH]; intros b fat c; cbn [nth_cluster Nat.add].
  - reflexivity.
  - destruct (c <? 4088); [|reflexivity].
    destruct (read_FAT_entry fat c); try reflexivity. apply IH.
Qed.

Lemma cycles_never_stops fat f :
  cycles fat f -> forall k, nth_cluster k fat f <> None.
Proof.
  intros (i & p & c & Hp & Hi & Hip) k.
  induction k as [k IH] using lt_wf_ind.
  destruct (Nat.le_gt_cases k (i + p)) as [Hle | Hgt].
  - replace (i + p)%nat with (k + (i + p - k))%nat in Hip by lia.
    rewrite nth_cluster_add in Hip.
    destruct (nth_cluster k fat f); discriminate.
  - replace k with ((i + p) + (k - (i + p)))%nat by lia.
    rewrite nth_cluster_add, Hip.
    specialize (IH (i + (k - (i + p)))%nat ltac:(lia)).
    rewrite nth_cluster_add, Hi in IH. exact IH.
Qed.

Lemma chain_loop_out_of_fuel fuel : forall fat c chain len,
  nth_cluster (S fuel) fat c <> None ->
  chain_loop fuel fat c chain len = OutOfFuel.
Proof.
  induction fuel as [|fuel IH]; intros fat c chain len H.
  - cbn [nth_cluster chain_loop] in *. destruct (c <? 4088); [reflexivity | congruence].
  - rewrite nth_cluster_S in H. rewrite chain_loop_S.
    destruct (c <? 4088); [|congruence].
    destruct (read_FAT_entry fat c) as [e| |]; try congruence.
    cbn [bind]. apply IH. assumption.
Qed.

(** On a chain that cycles the walk, and with it every caller, runs out of
    any fuel. *)
Lemma cycle_out_of_fuel heap st f fuel :
  cycles (s_fat_table st) f ->
  fatfs_get_cluster_chain fuel st f = OutOfFuel
  /\ fatfs_read_file heap fuel st f = OutOfFuel
  /\ (0 < f -> fatfs_read_dir heap fuel st f = OutOfFuel).
Proof.
  intros Hc.
  assert (Hw : fatfs_get_cluster_chain fuel st f = OutOfFuel).
  { unfold fatfs_get_cluster_chain.
    rewrite chain_loop_out_of_fuel; [reflexivity|].
    apply cycles_never_stops. assumption. }
  split; [assumption|]. split.
  - unfold fatfs_read_file. rewrite Hw. reflexivity.
  - intros Hpos. unfold fatfs_read_dir, read_dir_buffer, ROOT_DIR_12_LOGICAL_BASE_INDEX.
    replace (0 =? f) with false by (symmetry; apply Z.eqb_neq; lia).
    replace (f >? 0) with true by (symmetry; apply Z.gtb_lt; lia).
    rewrite Hw. reflexivity.
Qed.

Lemma cyclic_image_cycles : cycles (s_fat_table (Images.mounted Images.cyclic)) 2.
Proof.
  exists 0%nat, 1%nat, 2. split; [lia|]. split; vm_compute; reflexivity.
Qed.

(** C3, as the code has it: on a chain that cycles the walk never stops,
    whatever fuel it is given, and neither does [read_file] nor [read_dir] of
    a subdirectory; nothing bounds the number of clusters and no error is
    reported.  Every cluster below 0xFF8 is followed, those outside
    [2, max_data_cluster] like any other. *)
Theorem chain_walk_cycle_diverges (heap : heap_t) (st : state) (f : Z) :
  cycles (s_fat_table st) f ->
  forall fuel : nat,
    (fatfs_get_cluster_chain fuel st f = OutOfFuel
     /\ fatfs_read_file heap fuel st f = OutOfFuel
     /\ (0 < f -> fatfs_read_dir heap fuel st f = OutOfFuel))
    /\ (forall c e chain len,
          c < 0xFF8 -> read_FAT_entry (s_fat_table st) c = Done e ->
          chain_loop (S fuel) (s_fat_table st) c chain len
          = chain_loop fuel (s_fat_table st) e (fatfs_add_node chain e) (u32 (len + 1))).
Proof.
  intros Hc fuel. split.
  - apply cycle_out_of_fuel. assumption.
  - intros c e chain len Hlt He. rewrite chain_loop_S.
    replace (c <? 4088) with true by (symmetry; apply Z.ltb_lt; lia).
    rewrite He. reflexivity.
Qed.

(** The image whose cluster 2 points to itself, with 100 steps of fuel. *)
Lemma chain_walk_cycle_diverges_witness :
  fatfs_get_cluster_chain 100 (Images.mounted Images.cyclic) 2 = OutOfFuel
  /\ fatfs_read_file Images.zero_heap 100 (Images.mounted Images.cyclic) 2 = OutOfFuel
  /\ (0 < 2 -> fatfs_read_dir Images.zero_heap 100 (Images.mounted Images.cyclic) 2
               = OutOfFuel).
Proof.
  apply (chain_walk_cycle_diverges Images.zero_heap (Images.mounted Images.cyclic) 2
           cyclic_image_cycles 100).
Defined.

(** C3 fails on the image whose FAT entry for cluster 2 points to cluster 2:
    [read_file 2] does not return, with any fuel. *)
Lemma chain_walk_cyclic_counterexample :
  cycles (s_fat_table (Images.mounted Images.cyclic)) 2
  /\ (forall fuel : nat,
        fatfs_get_cluster_chain fuel (Images.mounted Images.cyclic) 2 = OutOfFuel
        /\ fatfs_read_file Images.zero_heap fuel (Images.mounted Images.cyclic) 2
           = OutOfFuel).
Proof.
  split; [exact cyclic_image_cycles|].
  intros fuel.
  destruct (cycle_out_of_fuel Images.zero_heap (Images.mounted Images.cyclic) 2 fuel
              cyclic_image_cycles) as (H1 & H2 & _).
  split; assumption.
Qed.

(** C6, as the code has it: the list built from [f] starts with [f]; each
    node is the FAT entry of the node before it; every node but the last is
    below 0xFF8 and the last node, which is stored, is at least 0xFF8 (the
    end-of-chain value read, or [f] itself); the reported length counts the
    nodes before the last.  No node is checked against 0, 1 or 0xFF7. *)
Theorem cluster_chain_shape (fuel : nat) (st st1 : state) (f n : Z) :
  s_cluster_chain st = [] ->
  0 <= f < 65536 ->
  fatfs_get_cluster_chain fuel st f = Done (st1, n) ->
  exists body last,
    s_cluster_chain st1 = body ++ [last]
    /\ hd_error (s_cluster_chain st1) = Some f
    /\ linked (s_fat_table st) (s_cluster_chain st1)
    /\ Forall (fun c => 0 <= c < 0xFF8) body
    /\ 0xFF8 <= last
    /\ n = zlen body.
Proof.
  intros Hnil Hf H.
  destruct (get_cluster_chain_nodes fuel st f st1 n Hnil Hf H)
    as (body & last & -> & Hhd & Hlk & Hb & Hl & _ & Hn).
  exists body, last. cbn [s_cluster_chain set_chain]. repeat split; assumption.
Qed.

(** The chain of the subdirectory at cluster 3: one cluster, then 0xFFF. *)
Lemma cluster_chain_shape_witness :
  exists body last,
    s_cluster_chain (set_chain (Images.mounted Images.nested) [3; 0xFFF]) = body ++ [last]
    /\ hd_error (s_cluster_chain (set_chain (Images.mounted Images.nested) [3; 0xFFF]))
       = Some 3
    /\ linked (s_fat_table (Images.mounted Images.nested))
              (s_cluster_chain (set_chain (Images.mounted Images.nested) [3; 0xFFF]))
    /\ Forall (fun c => 0 <= c < 0xFF8) body
    /\ 0xFF8 <= last
    /\ 1 = zlen body.
Proof.
  apply (cluster_chain_shape 1 (Images.mounted Images.nested)
           (set_chain (Images.mounted Images.nested) [3; 0xFFF]) 3 1).
  - vm_compute. reflexivity.
  - lia.
  - vm_compute. reflexivity.
Defined.

(** C6 fails on the stock image: the chain of cluster 2 is stored as
    [2; 0xFFF], end-of-chain value included, and a chain that starts at the
    reserved cluster 1 stores it. *)
Lemma chain_stores_marker_counterexample :
  option_map s_cluster_chain
             (state_after (fatfs_get_cluster_chain 1 (Images.mounted Images.stock) 2))
  = Some [2; 0xFFF]
  /\ 0xFF8 <= 0xFFF
  /\ option_map s_cluster_chain
                (state_after (fatfs_get_cluster_chain 1 (Images.mounted Images.stock) 1))
     = Some [1; 0xFFF].
Proof.
  split; [vm_compute; reflexivity|]. split; [lia|]. vm_compute. reflexivity.
Qed.

(** ** Initialisation *)

(** What the validation of [fatfs_init] tests, for fields in their ranges. *)
Lemma boot_sector_invalid_iff (b : fatfs_boot_sector_struct_t) :
  0 <= bytes_per_sector b -> 0 <= reserved_sectors_quantity b ->
  0 <= max_root_dir_entries b ->
  boot_sector_invalid b = true
  <-> bytes_per_sector b mod 512 <> 0
      \/ (bytes_per_sector b = 0 /\ reserved_sectors_quantity b = 0
          /\ num_of_FATs b < 2 /\ max_root_dir_entries b mod 16 <> 0).
Proof.
  intros Hb Hr Hm. unfold boot_sector_invalid.
  rewrite !Z.rem_mod_nonneg by lia.
  rewrite orb_true_iff, !andb_true_iff, !negb_true_iff, !Z.eqb_neq, !Z.ltb_lt.
  split; intros [H | H]; [left; assumption | right | left; assumption | right];
    repeat split; lia.
Qed.

(** C1, at the failing input: when the image cannot be opened, [fatfs_init]
    on the freshly loaded program returns GOOD_CONDITION, after allocating an
    empty FAT; on any state it returns what the validation says of the boot
    sector fields already there, never FAILED_TO_OPEN. *)
Theorem fatfs_init_open_failure (fs : HAL.disk) (heap : heap_t) (name : String.string) :
  fs name = None ->
  fatfs_init fs heap name initial
  = Done (mkState (HAL.mkState None 0) (s_FAT12Infor initial) (Some [])
                  (s_dirlist initial) [] false,
          GOOD_CONDITION)
  /\ (forall st,
        returned (fatfs_init fs heap name st)
        = Some (if boot_sector_invalid (s_FAT12Infor st)
                then BAD_BOOT_SECTOR else GOOD_CONDITION)).
Proof.
  intros Hfs. split.
  - unfold fatfs_init, HAL.kmc_init. rewrite Hfs. reflexivity.
  - intros st. unfold fatfs_init, HAL.kmc_init. rewrite Hfs. cbn [bind].
    destruct (boot_sector_invalid (s_FAT12Infor st)); [reflexivity|].
    destruct (HAL.kmc_update_sector_size _ _) as [h2 ss] eqn:E.
    assert (Hnull : HAL.s_file_img h2 = None).
    { unfold HAL.kmc_update_sector_size in E.
      destruct (_ && _) in E; injection E as <- <-; reflexivity. }
    unfold HAL.kmc_read_multi_sector. rewrite Hnull. reflexivity.
Qed.

(** No image at all under the name. *)
Lemma fatfs_init_open_failure_witness :
  fatfs_init Images.no_image Images.zero_heap Images.floppy initial
  = Done (mkState (HAL.mkState None 0) (s_FAT12Infor initial) (Some [])
                  (s_dirlist initial) [] false,
          GOOD_CONDITION).
Proof.
  apply (fatfs_init_open_failure Images.no_image Images.zero_heap Images.floppy).
  reflexivity.
Defined.

(** C2, at the failing input: a boot sector whose bytes_per_sector is 0, with
    the other fields valid, is accepted: [fatfs_init] returns GOOD_CONDITION
    and the device keeps 512-byte sectors. *)
Theorem fatfs_init_zero_bytes_per_sector (heap : heap_t) :
  returned (fatfs_init (Images.one_image Images.zero_bps) heap Images.floppy initial)
  = Some GOOD_CONDITION
  /\ option_map (fun st => (bytes_per_sector (s_FAT12Infor st),
                            reserved_sectors_quantity (s_FAT12Infor st),
                            num_of_FATs (s_FAT12Infor st),
                            max_root_dir_entries (s_FAT12Infor st),
                            HAL.s_sector_size (hal st)))
                (state_after (fatfs_init (Images.one_image Images.zero_bps) heap
                                         Images.floppy initial))
     = Some (0, 1, 2, 224, 512).
Proof.
  split; vm_compute; reflexivity.
Qed.

(** ** Sector reads *)

Lemma kmc_read_sector_spec h img index buff off :
  HAL.s_file_img h = Some img ->
  0 <= HAL.s_sector_size h ->
  0 <= index * HAL.s_sector_size h < 4294967296 ->
  0 <= off -> off + HAL.s_sector_size h <= zlen buff ->
  exists buff1,
    HAL.kmc_read_sector h index buff off
    = Done (zlen (sector_bytes img (HAL.s_sector_size h) index), buff1)
    /\ zlen buff1 = zlen buff
    /\ holds_at buff1 off (sector_bytes img (HAL.s_sector_size h) index)
    /\ (forall j, j < off -> load buff1 j = load buff j).
Proof.
  intros Himg Hss Hidx Hoff Hfit.
  unfold HAL.kmc_read_sector. rewrite Himg.
  unfold u32. rewrite Z.mod_small by lia.
  fold (sector_bytes img (HAL.s_sector_size h) index).
  pose proof (zlen_fread img (index * HAL.s_sector_size h) (HAL.s_sector_size h) Hss) as Hlen.
  fold (sector_bytes img (HAL.s_sector_size h) index) in Hlen.
  destruct (store_fits buff off (sector_bytes img (HAL.s_sector_size h) index))
    as [buff1 Hst]; [lia|lia|].
  rewrite Hst. cbn [access bind]. exists buff1. split; [reflexivity|].
  apply store_spec in Hst. destruct Hst as (Hl & Hin & Hout).
  split; [assumption|]. split.
  - intros j Hj. rewrite Hin by lia. f_equal. lia.
  - intros j Hj. apply Hout. lia.
Qed.


Lemma kmc_read_multi_sector_spec h img index num buff :
  HAL.s_file_img h = Some img ->
  0 <= index * HAL.s_sector_size h < 4294967296 ->
  0 <= num * HAL.s_sector_size h < 4294967296 ->
  num * HAL.s_sector_size h <= zlen buff ->
  exists buff1,
    HAL.kmc_read_multi_sector h index num buff
    = Done (zlen (HAL.fread img (index * HAL.s_sector_size h) (num * HAL.s_sector_size h)),
            buff1)
    /\ zlen buff1 = zlen buff
    /\ holds_at buff1 0 (HAL.fread img (index * HAL.s_sector_size h)
                                   (num * HAL.s_sector_size h)).
Proof.
  intros Himg Hidx Hnum Hfit.
  unfold HAL.kmc_read_multi_sector. rewrite Himg.
  unfold u32. rewrite !Z.mod_small by lia.
  pose proof (zlen_fread img (index * HAL.s_sector_size h) (num * HAL.s_sector_size h)
                         ltac:(lia)) as Hlen.
  destruct (store_fits buff 0 (HAL.fread img (index * HAL.s_sector_size h)
                                        (num * HAL.s_sector_size h)))
    as [buff1 Hst]; [lia|lia|].
  rewrite Hst. cbn [access bind]. exists buff1. split; [reflexivity|].
  apply store_spec in Hst. destruct Hst as (Hl & Hin & Hout).
  split; [assumption|].
  intros j Hj. rewrite Hin by lia. f_equal. lia.
Qed.


(** ** Little-endian fields *)

Lemma u8_zero (b : byte) : u8 b = 0 -> b = x00.
Proof.
  intros H. unfold u8 in H.
  assert (Hn : Byte.to_N b = 0%N) by lia.
  pose proof (Byte.of_to_N b) as Hb. rewrite Hn in Hb.
  cbn in Hb. injection Hb as <-. reflexivity.
Qed.

Lemma strlen_nul (s : list byte) : In x00 s -> exists n, strlen s = Done n.
Proof.
  induction s as [|b s IH]; intros H; [contradiction|].
  cbn [strlen]. destruct (u8 b =? 0) eqn:E; [exists 0; reflexivity|].
  destruct H as [-> | H]; [discriminate|].
  destruct (IH H) as (n & ->). exists (1 + n). reflexivity.
Qed.

Lemma strlen_done (s : list byte) (n : Z) : strlen s = Done n -> In x00 s.
Proof.
  revert n. induction s as [|b s IH]; intros n H; [discriminate|].
  cbn [strlen] in H. destruct (u8 b =? 0) eqn:E.
  - left. apply u8_zero. apply Z.eqb_eq. exact E.
  - destruct (strlen s) as [m| |]; cbn [bind] in H; try discriminate.
    right. apply (IH m). reflexivity.
Qed.

Lemma strlen_no_nul (s : list byte) : ~ In x00 s -> strlen s = Fault.
Proof.
  induction s as [|b s IH]; intros H; [reflexivity|].
  cbn [strlen]. destruct (u8 b =? 0) eqn:E.
  - exfalso. apply H. left. apply u8_zero. apply Z.eqb_eq. exact E.
  - rewrite IH; [reflexivity|]. intros Hin. apply H. right. exact Hin.
Qed.

Lemma hex_to_decimal_eq hex_line index bytes_count :
  In x00 hex_line ->
  0 <= index ->
  hex_to_decimal hex_line index bytes_count
  = hex_loop (Z.to_nat bytes_count) hex_line index 0 0.
Proof.
  intros Hn H. unfold hex_to_decimal.
  destruct (strlen_nul hex_line Hn) as (n & ->). cbn [bind].
  replace (index <? 0) with false by (symmetry; apply Z.ltb_ge; lia).
  rewrite andb_false_r. reflexivity.
Qed.

Lemma hex_to_decimal_done hex_line index bytes_count v :
  0 <= index ->
  hex_to_decimal hex_line index bytes_count = Done v ->
  In x00 hex_line
  /\ hex_loop (Z.to_nat bytes_count) hex_line index 0 0 = Done v.
Proof.
  intros Hi H.
  assert (Hn : In x00 hex_line).
  { unfold hex_to_decimal in H.
    destruct (strlen hex_line) as [n| |] eqn:E; cbn [bind] in H; try discriminate.
    apply (strlen_done _ _ E). }
  split; [exact Hn|]. rewrite <- (hex_to_decimal_eq _ _ _ Hn Hi). exact H.
Qed.

Lemma hex_to_decimal_no_nul hex_line index bytes_count :
  ~ In x00 hex_line -> hex_to_decimal hex_line index bytes_count = Fault.
Proof.
  intros H. unfold hex_to_decimal. rewrite (strlen_no_nul _ H). reflexivity.
Qed.

Lemma hex_to_decimal_1 buf index b :
  In x00 buf ->
  0 <= index < 4294967296 -> load buf index = Some b ->
  hex_to_decimal buf index 1 = Done (u8 b).
Proof.
  intros Hn Hi Hb. rewrite hex_to_decimal_eq by (assumption || lia).
  change (Z.to_nat 1) with 1%nat. cbn [hex_loop].
  unfold u32 at 1. rewrite Z.add_0_r, Z.mod_small by lia. rewrite Hb. cbn [access bind].
  pose proof (u8_range b). f_equal.
  change (8 * 0) with 0. rewrite Z.shiftl_0_r, s32_small by lia.
  unfold u64. apply Z.mod_small. lia.
Qed.

Lemma hex_to_decimal_2 buf index b0 b1 :
  In x00 buf ->
  0 <= index < 4294967295 ->
  load buf index = Some b0 -> load buf (index + 1) = Some b1 ->
  hex_to_decimal buf index 2 = Done (u8 b0 + 256 * u8 b1).
Proof.
  intros Hn Hi H0 H1. rewrite hex_to_decimal_eq by (assumption || lia).
  change (Z.to_nat 2) with 2%nat. cbn [hex_loop].
  unfold u32 at 1. rewrite Z.add_0_r, Z.mod_small by lia. rewrite H0. cbn [access bind].
  change (0 + 1) with 1.
  unfold u32 at 1. rewrite Z.mod_small by lia. rewrite H1. cbn [access bind].
  pose proof (u8_range b0). pose proof (u8_range b1). f_equal.
  change (8 * 0) with 0. change (8 * 1) with 8.
  rewrite Z.shiftl_0_r, Z.shiftl_mul_pow2 by lia. change (2 ^ 8) with 256.
  rewrite !s32_small by lia.
  unfold u64. rewrite (Z.mod_small (0 + u8 b0)) by lia.
  rewrite Z.mod_small by lia. lia.
Qed.

Lemma hex_to_decimal_4 buf index b0 b1 b2 b3 :
  In x00 buf ->
  0 <= index < 4294967293 ->
  load buf index = Some b0 -> load buf (index + 1) = Some b1 ->
  load buf (index + 2) = Some b2 -> load buf (index + 3) = Some b3 ->
  exists v, hex_to_decimal buf index 4 = Done v
    /\ u32 v = u8 b0 + 256 * u8 b1 + 65536 * u8 b2 + 16777216 * u8 b3.
Proof.
  intros Hn Hi H0 H1 H2 H3. rewrite hex_to_decimal_eq by (assumption || lia).
  change (Z.to_nat 4) with 4%nat. cbn [hex_loop].
  unfold u32 at 1. rewrite Z.add_0_r, Z.mod_small by lia. rewrite H0. cbn [access bind].
  change (0 + 1) with 1.
  unfold u32 at 1. rewrite Z.mod_small by lia. rewrite H1. cbn [access bind].
  change (1 + 1) with 2.
  unfold u32 at 1. rewrite Z.mod_small by lia. rewrite H2. cbn [access bind].
  change (2 + 1) with 3.
  unfold u32 at 1. rewrite Z.mod_small by lia. rewrite H3. cbn [access bind].
  eexists. split; [reflexivity|].
  pose proof (u8_range b0). pose proof (u8_range b1).
  pose proof (u8_range b2). pose proof (u8_range b3).
  change (8 * 0) with 0. change (8 * 1) with 8. change (8 * 2) with 16. change (8 * 3) with 24.
  rewrite Z.shiftl_0_r, !Z.shiftl_mul_pow2 by lia.
  change (2 ^ 8) with 256. change (2 ^ 16) with 65536. change (2 ^ 24) with 16777216.
  rewrite (s32_small (u8 b0)), (s32_small (u8 b1 * 256)), (s32_small (u8 b2 * 65536)) by lia.
  unfold u64. rewrite (Z.mod_small (0 + u8 b0)) by lia.
  rewrite (Z.mod_small (0 + u8 b0 + u8 b1 * 256)) by lia.
  rewrite (Z.mod_small (0 + u8 b0 + u8 b1 * 256 + u8 b2 * 65536)) by lia.
  unfold s32, u32.
  rewrite (Z.mod_small (u8 b3 * 16777216)) by lia.
  destruct (u8 b3 * 16777216 <? 2147483648) eqn:E.
  - apply Z.ltb_lt in E. rewrite (Z.mod_small _ 18446744073709551616) by lia.
    rewrite Z.mod_small by lia. lia.
  - apply Z.ltb_ge in E.
    rewrite Z.mod_mod_divide.
    + replace (0 + u8 b0 + u8 b1 * 256 + u8 b2 * 65536 + (u8 b3 * 16777216 - 4294967296))
        with (u8 b0 + 256 * u8 b1 + 65536 * u8 b2 + 16777216 * u8 b3 + (-1) * 4294967296) by lia.
      rewrite Z.mod_add by lia. apply Z.mod_small. lia.
    + exists 4294967296. reflexivity.
Qed.

(** ** Reading a file *)

Lemma file_loop_spec st img :
  HAL.s_file_img (hal st) = Some img ->
  HAL.s_sector_size (hal st) = bytes_per_sector (s_FAT12Infor st) ->
  0 <= bytes_per_sector (s_FAT12Infor st) < 65536 ->
  print_file_callback st = true ->
  forall body last content n,
    clusters_ok body ->
    zlen content = bytes_per_sector (s_FAT12Infor st) ->
    exists calls,
      file_loop st (body ++ [last]) content n = Done calls
      /\ Forall2 (fun c call =>
                    snd call = bytes_per_sector (s_FAT12Infor st)
                    /\ zlen (fst call) = bytes_per_sector (s_FAT12Infor st)
                    /\ holds_at (fst call) 0
                         (sector_bytes img (bytes_per_sector (s_FAT12Infor st))
                                       (c + FAT12_CLUSTER_OFFSET_FACTOR)))
                 body calls.
Proof.
  intros Himg Hss Hbps Hcb.
  induction body as [|c body IH]; intros last content n Hok Hlen.
  - exists []. split; [reflexivity|constructor].
  - inversion Hok as [|? ? Hc Hok']; subst.
    cbn [app file_loop].
    destruct (body ++ [last]) as [|c' rest] eqn:Hrest.
    { destruct body; discriminate. }
    unfold FAT12_CLUSTER_OFFSET_FACTOR in *.
    destruct (kmc_read_sector_spec (hal st) img (c + 31) content 0 Himg)
      as (content1 & Hrd & Hl1 & Hh & _); try (rewrite Hss; nia); try lia.
    rewrite Hrd. cbn [bind]. rewrite Hcb.
    rewrite <- Hrest.
    destruct (IH last content1
                (u32 (n + zlen (sector_bytes img (HAL.s_sector_size (hal st)) (c + 31))))
                Hok') as (calls & Hcalls & Hall); [lia|].
    rewrite Hcalls. cbn [bind]. eexists. split; [reflexivity|].
    constructor; [|assumption]. cbn [fst snd].
    rewrite <- Hss. repeat split; try assumption; lia.
Qed.

Lemma chain_loop_more_fuel fuel k fat c chain len r :
  chain_loop fuel fat c chain len = Done r ->
  chain_loop (fuel + k) fat c chain len = Done r.
Proof.
  intros H. induction k as [|k IH].
  - rewrite Nat.add_0_r. assumption.
  - rewrite Nat.add_succ_r. apply chain_loop_more. assumption.
Qed.

(** Once the walk returns, more fuel changes nothing of [read_file]. *)
Lemma fatfs_read_file_more_fuel heap fuel k st f r :
  chain_loop fuel (s_fat_table st) f (fatfs_add_node (s_cluster_chain st) f) 1 = Done r ->
  fatfs_read_file heap (fuel + k) st f = fatfs_read_file heap fuel st f.
Proof.
  intros H. unfold fatfs_read_file, fatfs_get_cluster_chain.
  rewrite (chain_loop_more_fuel fuel k _ _ _ _ r H), H. reflexivity.
Qed.

(** Seed scenario 3: on the stock image [read_file 2] calls the sink once,
    with a 512-byte buffer that starts with the 13 bytes of the file. *)
Lemma stock_read_file (heap : heap_t) (fuel : nat) :
  option_map (map (fun call => (firstn 13 (fst call), zlen (fst call), snd call)))
             (returned (fatfs_read_file heap (S fuel) (Images.mounted Images.stock) 2))
  = Some [(Images.hello, 512, 512)].
Proof.
  change (S fuel) with (1 + fuel)%nat.
  rewrite (fatfs_read_file_more_fuel heap 1 fuel (Images.mounted Images.stock) 2
             ([2; 0xFFF], 2)) by (vm_compute; reflexivity).
  vm_compute. reflexivity.
Qed.

(** C4, as the code has it: when the walk from [first_cluster] returns a
    chain of [n] clusters, [read_file] returns after calling the sink [n]
    times, once per cluster in chain order, each time with a length of
    bytes_per_sector and a buffer of that many bytes holding the bytes of
    sector [c + 31] of the image, whatever sectors_per_cluster is; on the stock
    image with one file of size 13 at cluster 2 the sink is called once, with
    a 512-byte buffer whose first 13 bytes are the file content. *)
Theorem fatfs_read_file_sink :
  (forall (heap : heap_t) (fuel : nat) (st st1 : state) (img : list byte) (f n : Z),
      HAL.s_file_img (hal st) = Some img ->
      HAL.s_sector_size (hal st) = bytes_per_sector (s_FAT12Infor st) ->
      0 <= bytes_per_sector (s_FAT12Infor st) < 65536 ->
      print_file_callback st = true ->
      s_cluster_chain st = [] ->
      0 <= f < 65536 ->
      fatfs_get_cluster_chain fuel st f = Done (st1, n) ->
      exists body last calls,
        s_cluster_chain st1 = body ++ [last]
        /\ n = zlen body
        /\ fatfs_read_file heap fuel st f = Done (fatfs_clear_cluster_chain st1, calls)
        /\ Forall2 (fun c call =>
                      snd call = bytes_per_sector (s_FAT12Infor st)
                      /\ zlen (fst call) = bytes_per_sector (s_FAT12Infor st)
                      /\ holds_at (fst call) 0
                           (sector_bytes img (bytes_per_sector (s_FAT12Infor st))
                                         (c + FAT12_CLUSTER_OFFSET_FACTOR)))
                   body calls)
  /\ (forall (heap : heap_t) (fuel : nat),
        option_map (map (fun call => (firstn 13 (fst call), zlen (fst call), snd call)))
                   (returned (fatfs_read_file heap (S fuel) (Images.mounted Images.stock) 2))
        = Some [(Images.hello, 512, 512)]).
Proof.
  split; [|exact stock_read_file].
  intros heap fuel st st1 img f n Himg Hss Hbps Hcb Hnil Hf Hwalk.
  destruct (get_cluster_chain_nodes fuel st f st1 n Hnil Hf Hwalk)
    as (body & last & -> & _ & _ & Hok & _ & _ & Hn).
  destruct (file_loop_spec (set_chain st (body ++ [last])) img Himg Hss Hbps Hcb
              body last
              (malloc heap 0 (bytes_per_sector (s_FAT12Infor st))) 0 Hok)
    as (calls & Hcalls & Hall).
  { cbn [set_chain s_FAT12Infor]. apply zlen_malloc. lia. }
  exists body, last, calls. cbn [s_cluster_chain set_chain].
  repeat split; try assumption.
  unfold fatfs_read_file. rewrite Hwalk. cbn [bind s_cluster_chain set_chain s_FAT12Infor].
  rewrite Hcalls. reflexivity.
Qed.

(** The file at cluster 4 of the image with a subdirectory. *)
Lemma fatfs_read_file_sink_witness :
  exists body last calls,
    s_cluster_chain (set_chain (Images.mounted Images.nested) [4; 0xFFF]) = body ++ [last]
    /\ 1 = zlen body
    /\ fatfs_read_file Images.zero_heap 1 (Images.mounted Images.nested) 4
       = Done (fatfs_clear_cluster_chain
                 (set_chain (Images.mounted Images.nested) [4; 0xFFF]), calls)
    /\ Forall2 (fun c call =>
                  snd call = bytes_per_sector (s_FAT12Infor (Images.mounted Images.nested))
                  /\ zlen (fst call)
                     = bytes_per_sector (s_FAT12Infor (Images.mounted Images.nested))
                  /\ holds_at (fst call) 0
                       (sector_bytes Images.nested
                          (bytes_per_sector (s_FAT12Infor (Images.mounted Images.nested)))
                          (c + FAT12_CLUSTER_OFFSET_FACTOR)))
               body calls.
Proof.
  apply (proj1 fatfs_read_file_sink Images.zero_heap 1%nat (Images.mounted Images.nested)
           (set_chain (Images.mounted Images.nested) [4; 0xFFF]) Images.nested 4 1).
  - vm_compute. reflexivity.
  - vm_compute. reflexivity.
  - vm_compute. split; [discriminate | reflexivity].
  - vm_compute. reflexivity.
  - vm_compute. reflexivity.
  - lia.
  - vm_compute. reflexivity.
Defined.

(** C4 fails with two sectors per cluster: the cluster of the file is 1024
    bytes, 512 [A] then 512 [B]; the sink is called once, with a length of
    512 and a 512-byte buffer of [A]. *)
Lemma read_file_one_sector_counterexample :
  bytes_per_sector (s_FAT12Infor (Images.mounted Images.paired))
  * sectors_per_cluster (s_FAT12Infor (Images.mounted Images.paired)) = 1024
  /\ returned (fatfs_read_file Images.zero_heap 1 (Images.mounted Images.paired) 2)
     = Some [(Images.fill "A"%byte 512, 512)].
Proof.
  split; vm_compute; reflexivity.
Qed.

(** ** The boot sector *)

Lemma byte_at_range buffer i : 0 <= byte_at buffer i < 256.
Proof.
  unfold byte_at. destruct (load buffer i) as [b|]; [apply u8_range | lia].
Qed.

Lemma byte_at_load buffer i b : load buffer i = Some b -> byte_at buffer i = u8 b.
Proof. intros H. unfold byte_at. rewrite H. reflexivity. Qed.

Lemma hex_to_decimal_1_at buf index :
  In x00 buf ->
  0 <= index < zlen buf -> index < 4294967296 ->
  hex_to_decimal buf index 1 = Done (byte_at buf index).
Proof.
  intros Hn Hi Hm. destruct (load_in_range buf index Hi) as [b Hb].
  rewrite (hex_to_decimal_1 buf index b) by (assumption || lia).
  rewrite (byte_at_load _ _ _ Hb). reflexivity.
Qed.

Lemma hex_to_decimal_2_at buf index :
  In x00 buf ->
  0 <= index -> index + 1 < zlen buf -> index < 4294967295 ->
  hex_to_decimal buf index 2 = Done (le16_at buf index).
Proof.
  intros Hn Hi Hl Hm.
  destruct (load_in_range buf index ltac:(lia)) as [b0 Hb0].
  destruct (load_in_range buf (index + 1) ltac:(lia)) as [b1 Hb1].
  rewrite (hex_to_decimal_2 buf index b0 b1) by (assumption || lia).
  unfold le16_at. rewrite (byte_at_load _ _ _ Hb0), (byte_at_load _ _ _ Hb1). reflexivity.
Qed.

Lemma le16_at_range buffer i : 0 <= le16_at buffer i < 65536.
Proof.
  unfold le16_at. pose proof (byte_at_range buffer i).
  pose proof (byte_at_range buffer (i + 1)). lia.
Qed.

(** The fields [fatfs_init] decodes: little endian, at the offsets of the BPB. *)
Lemma parse_boot_sector_fields (buffer : list byte) :
  In x00 buffer ->
  zlen buffer = 512 ->
  parse_boot_sector buffer
  = Done (mkBoot (le16_at buffer 11) (byte_at buffer 13) (le16_at buffer 14)
                 (byte_at buffer 16) (le16_at buffer 17) (le16_at buffer 19)
                 (le16_at buffer 22) (byte_at buffer 38)
                 (firstn 8 (skipn 54 buffer))).
Proof.
  intros Hn Hlen. unfold parse_boot_sector.
  rewrite !hex_to_decimal_2_at, !hex_to_decimal_1_at by (assumption || lia).
  cbn [bind]. unfold slice. rewrite Hlen. cbn [Z.leb Z.add Z.compare Pos.add Pos.succ
    Pos.compare Pos.compare_cont andb access bind].
  rewrite !u16_small by apply le16_at_range.
  unfold u8w. rewrite !Z.mod_small by apply byte_at_range.
  reflexivity.
Qed.

(** ** The directory buffer *)







(** ** Scanning a directory *)

Lemma entry_listed_qualifies buffer i b :
  0 <= i < 4294967285 ->
  entry_listed buffer i = Done b -> qualifies buffer i = b.
Proof.
  intros Hi.
  unfold entry_listed, qualifies, DELETED_ENTRY, UNUSED_ENTRY, FAKE_ENTRY.
  rewrite u32_small by lia.
  destruct (load buffer i) as [b0|]; cbn [access bind]; [|discriminate].
  rewrite (Z.eqb_sym 229), (Z.eqb_sym 0 (u8 b0)).
  destruct (u8 b0 =? 229), (u8 b0 =? 0); cbn [negb andb];
    try (intros H; injection H as <-; destruct (load buffer (i + 11)); reflexivity).
  destruct (load buffer (i + 11)) as [b11|]; cbn [access bind]; [|discriminate].
  rewrite (Z.eqb_sym 15). intros H; injection H as <-. reflexivity.
Qed.

Lemma slots_lt bs a :
  0 <= bs -> (32 * Z.of_nat a <? bs) = (a <? entry_slots bs)%nat.
Proof.
  intros H. unfold entry_slots.
  destruct (32 * Z.of_nat a <? bs) eqn:E1; destruct (a <? Z.to_nat ((bs + 31) / 32))%nat eqn:E2;
    try reflexivity.
  - apply Z.ltb_lt in E1. apply Nat.ltb_ge in E2. exfalso. div_lia.
  - apply Z.ltb_ge in E1. apply Nat.ltb_lt in E2. exfalso. div_lia.
Qed.

(** What the scan loop leaves: the count grown by the number of listed
    entries, their offsets (as [uint16_t]) written from index [j] on. *)
Lemma scan_loop_done buffer bs : 
  0 <= bs -> bs + 32 <= 4294967296 ->
  forall fuel a entries_index j count entries_index1 j1 count1,
    0 <= j <= Z.of_nat a ->
    scan_loop fuel buffer bs (32 * Z.of_nat a) entries_index j count
    = Done (entries_index1, j1, count1) ->
    let L := filter (qualifies buffer) (slot_offsets a (entry_slots bs - a)) in
    u16 count1 = u16 (count + zlen L)
    /\ (0 <= count < 65536 -> 0 <= count1 < 65536)
    /\ j1 = j + zlen L
    /\ zlen entries_index1 = zlen entries_index
    /\ (forall k off, nth_error L k = Some off ->
          load entries_index1 (j + Z.of_nat k) = Some (u16 off))
    /\ (forall k, k < j -> load entries_index1 k = load entries_index k).
Proof.
  intros Hbs Hmax.
  induction fuel as [|fuel IH]; intros a ei j count ei1 j1 count1 Hj H L; subst L.
  - cbn [scan_loop] in H. rewrite slots_lt in H by lia.
    destruct (a <? entry_slots bs)%nat eqn:E; [discriminate|].
    apply Nat.ltb_ge in E. injection H as <- <- <-.
    replace (entry_slots bs - a)%nat with 0%nat by lia. cbn.
    rewrite !Z.add_0_r. repeat split; auto; try lia.
    intros [|k] off Hk; discriminate.
  - cbn [scan_loop] in H. rewrite slots_lt in H by lia.
    destruct (a <? entry_slots bs)%nat eqn:E.
    + apply Nat.ltb_lt in E.
      assert (Hi : 32 * Z.of_nat a < bs).
      { apply Z.ltb_lt. rewrite slots_lt by lia. apply Nat.ltb_lt. assumption. }
      replace (entry_slots bs - a)%nat with (S (entry_slots bs - S a)) by lia.
      unfold slot_offsets. cbn [seq map filter]. fold (slot_offsets (S a) (entry_slots bs - S a)).
      assert (Hnext : u32 (32 * Z.of_nat a + 32) = 32 * Z.of_nat (S a)).
      { unfold u32. rewrite Z.mod_small by lia. lia. }
      rewrite Hnext in H.
      destruct (entry_listed buffer (32 * Z.of_nat a)) as [keep| |] eqn:Hk;
        cbn [bind] in H; try discriminate.
      apply entry_listed_qualifies in Hk; [|lia]. rewrite Hk.
      destruct keep.
      * destruct (upd ei j (u16 (32 * Z.of_nat a))) as [ei'|] eqn:Hu;
          cbn [access bind] in H; [|discriminate].
        apply upd_spec in Hu. destruct Hu as (Hl & Hat & Hoth).
        assert (Hj1 : u32 (j + 1) = j + 1).
        { unfold u32. apply Z.mod_small. lia. }
        rewrite Hj1 in H.
        apply IH in H; [|lia].
        destruct H as (Hc & Hr & Hjj & Hlen & Hw & Hpre).
        set (L := filter (qualifies buffer) (slot_offsets (S a) (entry_slots bs - S a))) in *.
        assert (Hz : zlen (32 * Z.of_nat a :: L) = 1 + zlen L)
          by (unfold zlen; cbn [length]; lia).
        rewrite Hz. split; [|split; [|split; [|split; [|split]]]].
        -- rewrite Hc, u16_add_l. f_equal. lia.
        -- intros Hcr. apply Hr. unfold u16. apply Z.mod_pos_bound. lia.
        -- lia.
        -- lia.
        -- intros [|k] off Hn.
           ++ cbn in Hn. injection Hn as <-. rewrite Z.add_0_r.
              rewrite Hpre by lia. assumption.
           ++ cbn [nth_error] in Hn. specialize (Hw k off Hn).
              replace (j + Z.of_nat (S k)) with (j + 1 + Z.of_nat k) by lia. assumption.
        -- intros k Hk'. rewrite Hpre by lia. apply Hoth. lia.
      * apply IH in H; [|lia]. exact H.
    + apply Nat.ltb_ge in E. injection H as <- <- <-.
      replace (entry_slots bs - a)%nat with 0%nat by lia. cbn.
      rewrite !Z.add_0_r. repeat split; auto; try lia.
      intros [|k] off Hk; discriminate.
Qed.

(** The scan of a whole buffer, from offset 0 and index 0. *)
Lemma scan_buffer_done buffer bs entries_index count entries_index1 j1 count1 :
  0 <= bs -> bs + 32 <= 4294967296 ->
  0 <= count < 65536 ->
  scan_loop (S (Z.to_nat (Z.quot bs 32))) buffer bs 0 entries_index 0 count
  = Done (entries_index1, j1, count1) ->
  count1 = u16 (count + qualifying buffer bs)
  /\ j1 = qualifying buffer bs
  /\ (forall k off, nth_error (listed_offsets buffer bs) k = Some off ->
        load entries_index1 (Z.of_nat k) = Some (u16 off)).
Proof.
  intros Hbs Hmax Hc H.
  assert (H' : scan_loop (S (Z.to_nat (Z.quot bs 32))) buffer bs (32 * Z.of_nat 0)
                         entries_index 0 count = Done (entries_index1, j1, count1))
    by exact H.
  clear H. rename H' into H.
  apply (scan_loop_done buffer bs Hbs Hmax) in H; [|cbn; lia].
  rewrite Nat.sub_0_r in H. fold (listed_offsets buffer bs) in H.
  fold (qualifying buffer bs) in H.
  destruct H as (Hcount & Hrange & Hj & _ & Hw & _).
  split; [|split].
  - rewrite <- Hcount. symmetry. apply u16_small. apply Hrange. assumption.
  - lia.
  - intros k off Hk. specialize (Hw k off Hk). rewrite Z.add_0_l in Hw. exact Hw.
Qed.

(** ** Reading a directory *)

Lemma get_cluster_chain_frame fuel st f st1 n :
  fatfs_get_cluster_chain fuel st f = Done (st1, n) ->
  hal st1 = hal st /\ s_FAT12Infor st1 = s_FAT12Infor st
  /\ s_fat_table st1 = s_fat_table st /\ s_dirlist st1 = s_dirlist st
  /\ print_file_callback st1 = print_file_callback st.
Proof.
  unfold fatfs_get_cluster_chain.
  destruct (chain_loop _ _ _ _ _) as [[chain len]| |]; cbn [bind]; try discriminate.
  intros H. injection H as <- <-. repeat split.
Qed.


Lemma read_dir_buffer_frame heap fuel st c st1 buffer bs entries_index :
  read_dir_buffer heap fuel st c = Done (st1, buffer, bs, entries_index) ->
  hal st1 = hal st /\ s_FAT12Infor st1 = s_FAT12Infor st
  /\ s_fat_table st1 = s_fat_table st /\ s_dirlist st1 = s_dirlist st
  /\ print_file_callback st1 = print_file_callback st
  /\ 0 <= bs < 4294967296.
Proof.
  unfold read_dir_buffer.
  destruct (ROOT_DIR_12_LOGICAL_BASE_INDEX =? c).
  - destruct (HAL.kmc_read_multi_sector _ _ _ _) as [[k b]| |]; cbn [bind]; try discriminate.
    intros H. injection H as <- <- <- <-. repeat split; apply u32_range.
  - destruct (c >? ROOT_DIR_12_LOGICAL_BASE_INDEX).
    + destruct (fatfs_get_cluster_chain fuel st c) as [[st' n]| |] eqn:Hw;
        cbn [bind]; try discriminate.
      destruct (dir_chain_loop _ _ _ _ _) as [b| |]; cbn [bind]; try discriminate.
      intros H. injection H as <- <- <- <-.
      destruct (get_cluster_chain_frame _ _ _ _ _ Hw) as (H1 & H2 & H3 & H4 & H5).
      repeat split; try assumption; apply u32_range.
    + intros H. injection H as <- <- <- <-. repeat split; lia.
Qed.

(** With fields in range and no chain left over, a directory buffer is far
    below 4 GiB. *)
Lemma read_dir_buffer_bound heap fuel st c st1 buffer bs entries_index :
  fields_in_range st ->
  s_cluster_chain st = [] ->
  0 <= c < 65536 ->
  read_dir_buffer heap fuel st c = Done (st1, buffer, bs, entries_index) ->
  0 <= bs <= 268435456.
Proof.
  intros (Hbps & Hm & _) Hnil Hc. unfold read_dir_buffer.
  destruct (ROOT_DIR_12_LOGICAL_BASE_INDEX =? c).
  - destruct (HAL.kmc_read_multi_sector _ _ _ _) as [[k b]| |]; cbn [bind]; try discriminate.
    intros H. injection H as <- <- <- <-.
    unfold ENTRIES_PER_SECTOR. rewrite Z.quot_div_nonneg by lia.
    assert (0 <= max_root_dir_entries (s_FAT12Infor st) / 16 < 4096) by div_lia.
    rewrite u32_small by nia. nia.
  - destruct (c >? ROOT_DIR_12_LOGICAL_BASE_INDEX).
    + destruct (fatfs_get_cluster_chain fuel st c) as [[st' n]| |] eqn:Hw;
        cbn [bind]; try discriminate.
      destruct (dir_chain_loop _ _ _ _ _) as [b| |]; cbn [bind]; try discriminate.
      intros H. injection H as <- <- <- <-.
      destruct (get_cluster_chain_nodes fuel st c st' n Hnil Hc Hw)
        as (body & last & _ & _ & _ & _ & _ & Hbound & ->).
      pose proof (zlen_nonneg body).
      rewrite u32_small by nia. nia.
    + intros H. injection H as <- <- <- <-. lia.
Qed.

(** The parts of a call of [fatfs_read_dir] that returned. *)
Lemma fatfs_read_dir_inv heap fuel st c st2 l :
  fatfs_read_dir heap fuel st c = Done (st2, l) ->
  exists st1 buffer bs entries_index entries_index1 j1 es,
    read_dir_buffer heap fuel st c = Done (st1, buffer, bs, entries_index)
    /\ scan_loop (S (Z.to_nat (Z.quot bs 32))) buffer bs 0 entries_index 0
                 (list_count (s_dirlist st1))
       = Done (entries_index1, j1, list_count l)
    /\ fill_loop (Z.to_nat (list_count l)) buffer entries_index1 0 = Done es
    /\ l = listing_of es (list_count l)
    /\ st2 = fatfs_clear_cluster_chain (set_dirlist st1 l).
Proof.
  unfold fatfs_read_dir.
  destruct (read_dir_buffer heap fuel st c) as [[[[st1 buffer] bs] ei]| |];
    cbn [bind]; try discriminate.
  destruct (scan_loop _ _ _ _ _ _ _) as [[[ei1 j1] count]| |] eqn:Hscan;
    cbn [bind]; try discriminate.
  destruct (fill_loop _ _ _ _) as [es| |] eqn:Hfill; cbn [bind]; try discriminate.
  intros H. injection H as <- <-.
  exists st1, buffer, bs, ei, ei1, j1, es. cbn [list_count listing_of s_dirlist
    fatfs_clear_cluster_chain set_chain set_dirlist].
  split; [reflexivity|]. split; [exact Hscan|]. split; [exact Hfill|].
  split; reflexivity.
Qed.

(** One call: the count grows by the number of listed entries of the
    directory read, modulo 2^16. *)
Lemma fatfs_read_dir_count heap fuel st c st2 l :
  fields_in_range st ->
  s_cluster_chain st = [] ->
  0 <= c < 65536 ->
  fatfs_read_dir heap fuel st c = Done (st2, l) ->
  exists st1 buffer bs entries_index,
    read_dir_buffer heap fuel st c = Done (st1, buffer, bs, entries_index)
    /\ list_count l = u16 (list_count (s_dirlist st) + qualifying buffer bs)
    /\ fields_in_range st2
    /\ s_cluster_chain st2 = []
    /\ s_dirlist st2 = l.
Proof.
  intros Hf Hnil Hc H.
  destruct (fatfs_read_dir_inv _ _ _ _ _ _ H)
    as (st1 & buffer & bs & ei & ei1 & j1 & es & Hbuf & Hscan & _ & _ & ->).
  destruct (read_dir_buffer_frame _ _ _ _ _ _ _ _ Hbuf) as (_ & Hinfo & _ & Hdl & _ & _).
  pose proof (read_dir_buffer_bound _ _ _ _ _ _ _ _ Hf Hnil Hc Hbuf) as Hbs.
  destruct Hf as (Hbps & Hm & Hlc).
  rewrite Hdl in Hscan.
  apply scan_buffer_done in Hscan; try lia.
  destruct Hscan as (Hcount & _ & _).
  exists st1, buffer, bs, ei. split; [assumption|]. split; [assumption|].
  split; [|split; reflexivity].
  unfold fields_in_range.
  cbn [fatfs_clear_cluster_chain set_chain set_dirlist s_FAT12Infor s_dirlist].
  rewrite Hinfo. repeat split; try lia; rewrite Hcount; apply u16_range.
Qed.




(** The counts of that run: one entry in the root directory, then three more
    from the subdirectory. *)
Lemma nested_counts :
  list_count (snd (Images.run_read_dir (Images.mounted Images.nested) 0)) = 1
  /\ list_count (snd (Images.run_read_dir
                        (fst (Images.run_read_dir (Images.mounted Images.nested) 0)) 3))
     = 4.
Proof.
  split; vm_compute; reflexivity.
Qed.

(** ** The listing of a directory of at most 64 KiB *)

Lemma hex_loop_loads n : forall buf index i d v,
  0 <= index -> 0 <= i -> index + i + Z.of_nat n <= 4294967296 ->
  hex_loop n buf index i d = Done v ->
  forall k, 0 <= k < Z.of_nat n -> exists b, load buf (index + i + k) = Some b.
Proof.
  induction n as [|n IH]; intros buf index i d v Hx Hi Hm H k Hk.
  - cbn in Hk. lia.
  - cbn [hex_loop] in H. rewrite u32_small in H by lia.
    destruct (load buf (index + i)) as [b|] eqn:E; cbn [access bind] in H; [|discriminate].
    destruct (Z.eq_dec k 0) as [-> | Hne].
    + exists b. rewrite Z.add_0_r. assumption.
    + destruct (IH buf index (i + 1) _ v Hx ltac:(lia) ltac:(lia) H (k - 1) ltac:(lia))
        as [b' Hb'].
      exists b'. rewrite <- Hb'. f_equal. lia.
Qed.

Lemma hex_to_decimal_2_inv buf index v :
  0 <= index < 4294967295 ->
  hex_to_decimal buf index 2 = Done v -> v = le16_at buf index.
Proof.
  intros Hi H.
  destruct (hex_to_decimal_done buf index 2 v) as (Hn & H'); [lia | exact H |].
  pose proof (hex_loop_loads (Z.to_nat 2) buf index 0 0 v
                ltac:(lia) ltac:(lia) ltac:(lia) H') as Hl.
  destruct (Hl 0 ltac:(lia)) as [b0 Hb0]. destruct (Hl 1 ltac:(lia)) as [b1 Hb1].
  rewrite !Z.add_0_r in Hb0. rewrite Z.add_0_r in Hb1.
  rewrite (hex_to_decimal_2 buf index b0 b1) in H by (assumption || lia).
  injection H as <-. unfold le16_at.
  rewrite (byte_at_load _ _ _ Hb0), (byte_at_load _ _ _ Hb1). reflexivity.
Qed.

Lemma hex_to_decimal_4_inv buf index v :
  0 <= index < 4294967293 ->
  hex_to_decimal buf index 4 = Done v -> u32 v = le32_at buf index.
Proof.
  intros Hi H.
  destruct (hex_to_decimal_done buf index 4 v) as (Hn & H'); [lia | exact H |].
  pose proof (hex_loop_loads (Z.to_nat 4) buf index 0 0 v
                ltac:(lia) ltac:(lia) ltac:(lia) H') as Hl.
  destruct (Hl 0 ltac:(lia)) as [b0 Hb0]. destruct (Hl 1 ltac:(lia)) as [b1 Hb1].
  destruct (Hl 2 ltac:(lia)) as [b2 Hb2]. destruct (Hl 3 ltac:(lia)) as [b3 Hb3].
  rewrite !Z.add_0_r in Hb0. rewrite Z.add_0_r in Hb1, Hb2, Hb3.
  destruct (hex_to_decimal_4 buf index b0 b1 b2 b3 Hn ltac:(lia) Hb0 Hb1 Hb2 Hb3)
    as (v' & Hv' & Hval).
  rewrite Hv' in H. injection H as <-. rewrite Hval. unfold le32_at.
  rewrite (byte_at_load _ _ _ Hb0), (byte_at_load _ _ _ Hb1),
    (byte_at_load _ _ _ Hb2), (byte_at_load _ _ _ Hb3). reflexivity.
Qed.

(** What the loop copies out of an entry is the decoded entry. *)
Lemma fill_entry_parsed buffer off e :
  0 <= off -> off + 32 <= 4294967296 ->
  fill_entry buffer off = Done e -> e = parsed_entry buffer off.
Proof.
  intros H0 Hm. unfold fill_entry, slice.
  destruct ((0 <=? off) && (0 <=? 11) && (off + 11 <=? zlen buffer));
    cbn [access bind]; [|discriminate].
  destruct (load buffer (off + 11)) as [attr|] eqn:Ha; cbn [access bind]; [|discriminate].
  rewrite !u32_small by lia.
  destruct (hex_to_decimal buffer (off + 26) 2) as [cl| |] eqn:Hc;
    cbn [bind]; try discriminate.
  destruct (hex_to_decimal buffer (off + 28) 4) as [sz| |] eqn:Hs;
    cbn [bind]; try discriminate.
  intros H. injection H as <-.
  apply hex_to_decimal_2_inv in Hc; [|lia]. apply hex_to_decimal_4_inv in Hs; [|lia].
  unfold parsed_entry. rewrite (byte_at_load _ _ _ Ha), Hs, Hc.
  rewrite u16_small by apply le16_at_range. reflexivity.
Qed.

Lemma fill_loop_map buffer entries_index : forall L i es,
  (forall k off, nth_error L k = Some off ->
     load entries_index (i + Z.of_nat k) = Some off) ->
  Forall (fun off => 0 <= off /\ off + 32 <= 4294967296) L ->
  fill_loop (length L) buffer entries_index i = Done es ->
  es = map (parsed_entry buffer) L.
Proof.
  induction L as [|off L IH]; intros i es Hld Hr H; cbn [length fill_loop map] in *.
  - injection H as <-. reflexivity.
  - pose proof (Hld 0%nat off eq_refl) as H0. rewrite Z.add_0_r in H0.
    rewrite H0 in H. cbn [access bind] in H.
    inversion Hr as [|? ? [Ha Hb] Hr']; subst.
    destruct (fill_entry buffer off) as [e| |] eqn:He; cbn [bind] in H; try discriminate.
    destruct (fill_loop (length L) buffer entries_index (i + 1)) as [rest| |] eqn:Hrest;
      cbn [bind] in H; try discriminate.
    injection H as <-.
    apply fill_entry_parsed in He; [|assumption..]. subst e. f_equal.
    apply (IH (i + 1)); [|assumption|assumption].
    intros k o Hk. specialize (Hld (S k) o Hk).
    rewrite <- Hld. f_equal. lia.
Qed.

Lemma listed_offsets_range buffer bs off :
  0 <= bs ->
  In off (listed_offsets buffer bs) ->
  0 <= off < bs /\ qualifies buffer off = true.
Proof.
  intros Hbs Hin. unfold listed_offsets in Hin. apply filter_In in Hin.
  destruct Hin as [Hin Hq]. split; [|assumption].
  unfold slot_offsets in Hin. apply in_map_iff in Hin. destruct Hin as (k & <- & Hk).
  apply in_seq in Hk.
  assert (Hlt : (k <? entry_slots bs)%nat = true) by (apply Nat.ltb_lt; lia).
  rewrite <- slots_lt in Hlt by assumption. apply Z.ltb_lt in Hlt. lia.
Qed.

Lemma qualifying_le buffer bs : 0 <= bs -> 0 <= qualifying buffer bs <= (bs + 31) / 32.
Proof.
  intros Hbs. unfold qualifying, listed_offsets, zlen.
  pose proof (filter_length_le (qualifies buffer) (slot_offsets 0 (entry_slots bs))) as Hle.
  unfold slot_offsets in Hle at 2. rewrite length_map, length_seq in Hle.
  unfold entry_slots in Hle at 2. split; [lia|].
  assert (0 <= (bs + 31) / 32) by div_lia. lia.
Qed.

Lemma qualifies_bytes buffer off :
  qualifies buffer off = true ->
  exists b0 b11,
    load buffer off = Some b0 /\ load buffer (off + 11) = Some b11
    /\ u8 b0 <> 0x00 /\ u8 b0 <> 0xE5 /\ u8 b11 <> 0x0F.
Proof.
  unfold qualifies.
  destruct (load buffer off) as [b0|]; [|discriminate].
  destruct (load buffer (off + 11)) as [b11|]; [|discriminate].
  rewrite !andb_true_iff, !negb_true_iff, !Z.eqb_neq.
  intros [[H1 H2] H3]. exists b0, b11. repeat split; assumption.
Qed.

Lemma name_head buffer off b :
  load buffer off = Some b ->
  hd_error (firstn 11 (skipn (Z.to_nat off) buffer) ++ [x00]) = Some b.
Proof.
  unfold load. destruct (off <? 0); [discriminate|].
  rewrite <- hd_error_skipn.
  destruct (skipn (Z.to_nat off) buffer) as [|x r]; cbn; [discriminate|].
  intros H. exact H.
Qed.

(** The listing of a directory of at most 65536 bytes, read with the count
    cleared: the decoded entries at the offsets that pass the test, in
    on-disk order; no name starts with 0x00 or 0xE5, no attribute is 0x0F. *)
Theorem fatfs_read_dir_listing
        (heap : heap_t) (fuel : nat) (st st1 st2 : state) (c : Z)
        (buffer : list byte) (bs : Z) (entries_index : list Z)
        (l : fatfs_entry_list_struct_t) :
  fields_in_range st ->
  s_cluster_chain st = [] ->
  0 <= c < 65536 ->
  list_count (s_dirlist st) = 0 ->
  read_dir_buffer heap fuel st c = Done (st1, buffer, bs, entries_index) ->
  bs <= 65536 ->
  fatfs_read_dir heap fuel st c = Done (st2, l) ->
  l = listing_of (map (parsed_entry buffer) (listed_offsets buffer bs))
                 (qualifying buffer bs)
  /\ Forall (fun off => qualifies buffer off = true) (listed_offsets buffer bs)
  /\ Forall (fun name => exists b, hd_error name = Some b
                                   /\ u8 b <> 0x00 /\ u8 b <> 0xE5)
            (entry_name l)
  /\ Forall (fun a => a <> 0x0F) (attribute l).
Proof.
  intros Hf Hnil Hc Hzero Hbuf Hsmall H.
  destruct (fatfs_read_dir_inv _ _ _ _ _ _ H)
    as (st1' & buffer' & bs' & ei' & ei1 & j1 & es & Hbuf' & Hscan & Hfill & Hl & _).
  rewrite Hbuf in Hbuf'. injection Hbuf' as <- <- <- <-.
  destruct (read_dir_buffer_frame _ _ _ _ _ _ _ _ Hbuf) as (_ & _ & _ & Hdl & _ & Hbs).
  rewrite Hdl, Hzero in Hscan.
  apply scan_buffer_done in Hscan; try lia.
  destruct Hscan as (Hcount & _ & Hw).
  pose proof (qualifying_le buffer bs ltac:(lia)) as Hq.
  assert (Hq' : qualifying buffer bs < 65536) by div_lia.
  rewrite Z.add_0_l, u16_small in Hcount by lia.
  assert (Hall : Forall (fun off => qualifies buffer off = true) (listed_offsets buffer bs)).
  { apply Forall_forall. intros off Hin.
    apply (listed_offsets_range buffer bs off ltac:(lia) Hin). }
  assert (Hes : es = map (parsed_entry buffer) (listed_offsets buffer bs)).
  { apply (fill_loop_map buffer ei1 (listed_offsets buffer bs) 0).
    - intros k off Hk. rewrite Z.add_0_l. rewrite (Hw k off Hk). f_equal.
      apply u16_small. apply nth_error_In in Hk.
      destruct (listed_offsets_range buffer bs off ltac:(lia) Hk). lia.
    - apply Forall_forall. intros off Hin.
      destruct (listed_offsets_range buffer bs off ltac:(lia) Hin). lia.
    - rewrite <- Hfill. f_equal. rewrite Hcount. unfold qualifying, zlen. lia. }
  rewrite Hcount, Hes in Hl. split; [exact Hl|]. split; [exact Hall|].
  rewrite Hl. cbn [listing_of entry_name attribute]. rewrite !map_map. split.
  - apply Forall_map. eapply Forall_impl; [|exact Hall].
    intros off Hoff. cbn [parsed_entry fst snd].
    destruct (qualifies_bytes _ _ Hoff) as (b0 & b11 & H0 & _ & Hn0 & Hn1 & _).
    exists b0. split; [apply name_head; assumption|]. split; assumption.
  - apply Forall_map. eapply Forall_impl; [|exact Hall].
    intros off Hoff. cbn [parsed_entry fst snd].
    destruct (qualifies_bytes _ _ Hoff) as (b0 & b11 & _ & H11 & _ & _ & Hn).
    rewrite (byte_at_load _ _ _ H11). assumption.
Qed.

(** The subdirectory at cluster 3, read with the count cleared. *)
Lemma fatfs_read_dir_listing_witness :
  snd (Images.run_read_dir (Images.mounted Images.nested) 3)
  = listing_of (map (parsed_entry (Images.dir_bytes (Images.mounted Images.nested) 3))
                    (listed_offsets (Images.dir_bytes (Images.mounted Images.nested) 3) 512))
               (qualifying (Images.dir_bytes (Images.mounted Images.nested) 3) 512).
Proof.
  apply (fatfs_read_dir_listing Images.zero_heap 1 (Images.mounted Images.nested)
           (set_chain (Images.mounted Images.nested) [3; 0xFFF])
           (fst (Images.run_read_dir (Images.mounted Images.nested) 3)) 3
           (Images.dir_bytes (Images.mounted Images.nested) 3) 512
           (malloc16 Images.zero_heap 1 16)
           (snd (Images.run_read_dir (Images.mounted Images.nested) 3))).
  - vm_compute. repeat split; discriminate.
  - vm_compute. reflexivity.
  - lia.
  - vm_compute. reflexivity.
  - vm_compute. reflexivity.
  - lia.
  - vm_compute. reflexivity.
Defined.

(** C8, at the failing input: a root directory of 2064 entries (66048
    bytes) whose first entry is deleted and whose entry at offset 65536 is a
    file that passes the test.  The offset is stored in a [uint16_t], as 0,
    and the listing returned holds the deleted entry, name[0] = 0xE5, in
    place of the file. *)
Theorem read_dir_wide_root_lists_deleted (heap : heap_t) (fuel : nat) :
  returned (fatfs_read_dir heap fuel (Images.mounted Images.wide_root) 0)
  = Some (mkList [Images.deleted_name ++ [x00]] [0x20] [5] [7] 1)
  /\ hd_error Images.deleted_name = Some xe5
  /\ qualifies Images.wide_root_dir 0 = false
  /\ qualifies Images.wide_root_dir 65536 = true
  /\ parsed_entry Images.wide_root_dir 65536 = (Images.new_name ++ [x00], 0x20, 2, 13)
  /\ u16 65536 = 0.
Proof.
  split; [|split; [|split; [|split; [|split]]]]; vm_compute; reflexivity.
Qed.

(** ** Seed scenarios *)

(** Seed scenarios 1 and 2: the stock image mounts with the fields of the
    stock layout, and [read_dir 0] lists its one file. *)
Theorem stock_read_dir (heap : heap_t) (fuel : nat) :
  s_FAT12Infor (Images.mounted Images.stock) = Images.stock_info
  /\ HAL.s_sector_size (hal (Images.mounted Images.stock)) = 512
  /\ returned (fatfs_read_dir heap fuel (Images.mounted Images.stock) 0)
     = Some (mkList [Images.hello_name ++ [x00]] [0x20] [2] [13] 1).
Proof.
  split; [|split]; vm_compute; reflexivity.
Qed.

(** Seed scenario 4: [read_dir 3] on the image with a subdirectory at
    cluster 3 lists the two dot entries and the file, in that order. *)
Theorem nested_read_dir (heap : heap_t) (fuel : nat) :
  returned (fatfs_read_dir heap (S fuel) (Images.mounted Images.nested) 3)
  = Some (mkList [Images.dot_name ++ [x00]; Images.dotdot_name ++ [x00];
                  Images.inner_name ++ [x00]]
                 [0x10; 0x10; 0x20] [3; 0; 4] [0; 0; 5] 3).
Proof.
  assert (Hfuel : fatfs_read_dir heap (1 + fuel) (Images.mounted Images.nested) 3
                  = fatfs_read_dir heap 1 (Images.mounted Images.nested) 3).
  { unfold fatfs_read_dir, read_dir_buffer, fatfs_get_cluster_chain.
    change (ROOT_DIR_12_LOGICAL_BASE_INDEX =? 3) with false.
    change (3 >? ROOT_DIR_12_LOGICAL_BASE_INDEX) with true. cbv iota.
    rewrite (chain_loop_more_fuel 1 fuel _ _ _ _ ([3; 0xFFF], 2))
      by (vm_compute; reflexivity).
    replace (chain_loop 1 (s_fat_table (Images.mounted Images.nested)) 3
               (fatfs_add_node (s_cluster_chain (Images.mounted Images.nested)) 3) 1)
      with (@Done (list Z * Z) ([3; 0xFFF], 2)) by (vm_compute; reflexivity).
    reflexivity. }
  change (S fuel) with (1 + fuel)%nat. rewrite Hfuel.
  vm_compute. reflexivity.
Qed.

(** A walk that returns has followed at most 0xFF8 links, and returns the
    same with any more fuel. *)
Theorem cluster_chain_bounded (fuel k : nat) (st st1 : state) (f n : Z) :
  s_cluster_chain st = [] ->
  0 <= f < 65536 ->
  fatfs_get_cluster_chain fuel st f = Done (st1, n) ->
  0 <= n <= 0xFF8
  /\ fatfs_get_cluster_chain (fuel + k) st f = Done (st1, n).
Proof.
  intros Hnil Hf H. split.
  - destruct (get_cluster_chain_nodes fuel st f st1 n Hnil Hf H)
      as (body & last & _ & _ & _ & _ & _ & Hb & ->).
    pose proof (zlen_nonneg body). lia.
  - unfold fatfs_get_cluster_chain in *.
    destruct (chain_loop fuel _ _ _ _) as [r| |] eqn:Hloop; cbn [bind] in H; try discriminate.
    rewrite (chain_loop_more_fuel fuel k _ _ _ _ r Hloop). exact H.
Qed.

(** The chain of cluster 3, walked with fuel 1 and with fuel 8. *)
Lemma cluster_chain_bounded_witness :
  0 <= 1 <= 0xFF8
  /\ fatfs_get_cluster_chain (1 + 7) (Images.mounted Images.nested) 3
     = Done (set_chain (Images.mounted Images.nested) [3; 0xFFF], 1).
Proof.
  apply (cluster_chain_bounded 1 7 (Images.mounted Images.nested)
           (set_chain (Images.mounted Images.nested) [3; 0xFFF]) 3 1).
  - vm_compute. reflexivity.
  - lia.
  - vm_compute. reflexivity.
Defined.

(** ** What initialisation leaves *)

Lemma store_whole {A} (buf data : list A) :
  zlen data = zlen buf -> store buf 0 data = Some data.
Proof.
  intros H. unfold store. rewrite H.
  replace ((0 <=? 0) && (0 + zlen buf <=? zlen buf)) with true
    by (symmetry; apply andb_true_iff; split; apply Z.leb_le; lia).
  change (Z.to_nat 0) with 0%nat. cbn [firstn app Nat.add].
  rewrite skipn_all2 by (unfold zlen in H; lia).
  rewrite app_nil_r. reflexivity.
Qed.

Lemma boot_sector_read heap img :
  512 <= zlen img ->
  HAL.kmc_read_sector (HAL.mkState (Some img) 512) BOOT_SECTOR_BASE_ADDRESS
                      (malloc heap 0 512) 0
  = Done (512, firstn 512 img).
Proof.
  intros Hlen. unfold HAL.kmc_read_sector, BOOT_SECTOR_BASE_ADDRESS, HAL.fread.
  cbn [HAL.s_file_img HAL.s_sector_size].
  change (u32 (0 * 512)) with 0. change (Z.to_nat 0) with 0%nat.
  change (Z.to_nat 512) with 512%nat. cbn [skipn].
  assert (Hl : zlen (firstn 512 img) = 512).
  { unfold zlen in *. rewrite length_firstn. lia. }
  rewrite store_whole by (rewrite Hl, zlen_malloc; lia).
  cbn [access bind]. rewrite Hl. reflexivity.
Qed.

Lemma byte_at_firstn (img : list byte) (i : Z) :
  i < 512 -> byte_at (firstn 512 img) i = byte_at img i.
Proof. intros Hi. unfold byte_at. rewrite load_firstn by lia. reflexivity. Qed.

Lemma le16_at_firstn (img : list byte) (i : Z) :
  i + 1 < 512 -> le16_at (firstn 512 img) i = le16_at img i.
Proof.
  intros Hi. unfold le16_at. rewrite !byte_at_firstn by lia. reflexivity.
Qed.

Lemma boot_sector_parsed (img : list byte) :
  512 <= zlen img ->
  In x00 (firstn 512 img) ->
  parse_boot_sector (firstn 512 img) = Done (boot_fields img).
Proof.
  intros Hlen Hnul.
  assert (Hboot : zlen (firstn 512 img) = 512).
  { unfold zlen in *. rewrite length_firstn. lia. }
  rewrite (parse_boot_sector_fields _ Hnul Hboot). unfold boot_fields.
  rewrite !le16_at_firstn, !byte_at_firstn by lia.
  rewrite skipn_firstn_comm, firstn_firstn. reflexivity.
Qed.

(** [fatfs_init] on an image of at least one sector whose first 512 bytes
    hold a NUL: the boot sector is read and decoded, then comes the
    validation and, past it, the read of the FAT. *)
Lemma fatfs_init_steps (fs : HAL.disk) (heap : heap_t) (name : String.string)
      (st : state) (img : list byte) :
  fs name = Some img ->
  512 <= zlen img ->
  In x00 (firstn 512 img) ->
  fatfs_init fs heap name st
  = if boot_sector_invalid (boot_fields img)
    then Done (mkState (HAL.mkState (Some img) 512) (boot_fields img) (s_fat_table st)
                       (s_dirlist st) (s_cluster_chain st) (print_file_callback st),
               BAD_BOOT_SECTOR)
    else
      '(_, fat1) <-
         HAL.kmc_read_multi_sector
           (HAL.mkState (Some img)
                        (if le16_at img 11 =? 0 then 512 else le16_at img 11))
           FAT_TABE_PHYSC_BASE_INDEX (le16_at img 22)
           (malloc heap 1 ((if le16_at img 11 =? 0 then 512 else le16_at img 11)
                           * le16_at img 22)) ;;
      Done (mkState (HAL.mkState (Some img)
                                 (if le16_at img 11 =? 0 then 512 else le16_at img 11))
                    (boot_fields img) (Some fat1)
                    (s_dirlist st) (s_cluster_chain st) (print_file_callback st),
            GOOD_CONDITION).
Proof.
  intros Hfs Hlen Hnul.
  unfold fatfs_init, HAL.kmc_init. rewrite Hfs. unfold HAL.KMC_DEFAULT_SECTOR_SIZE.
  rewrite boot_sector_read by assumption. cbn [bind].
  rewrite (boot_sector_parsed img Hlen Hnul). cbn [bind].
  destruct (boot_sector_invalid (boot_fields img)) eqn:Hok; [reflexivity|].
  pose proof (le16_at_range img 11) as Hbps.
  assert (Hmod : Z.rem (le16_at img 11) 512 = 0).
  { unfold boot_sector_invalid in Hok. apply orb_false_iff in Hok.
    destruct Hok as [Hm _]. apply negb_false_iff in Hm. apply Z.eqb_eq in Hm. exact Hm. }
  change (bytes_per_sector (boot_fields img)) with (le16_at img 11).
  change (sectors_per_FAT (boot_fields img)) with (le16_at img 22).
  assert (Hupd : HAL.kmc_update_sector_size (HAL.mkState (Some img) 512) (le16_at img 11)
                 = (HAL.mkState (Some img)
                                (if le16_at img 11 =? 0 then 512 else le16_at img 11),
                    if le16_at img 11 =? 0 then 512 else le16_at img 11)).
  { unfold HAL.kmc_update_sector_size, HAL.KMC_DEFAULT_SECTOR_SIZE.
    cbn [HAL.s_file_img HAL.s_sector_size]. rewrite Hmod. change (0 =? 0) with true.
    destruct (le16_at img 11 =? 0) eqn:E0.
    - apply Z.eqb_eq in E0. rewrite E0. reflexivity.
    - apply Z.eqb_neq in E0.
      replace (0 <? le16_at img 11) with true by (symmetry; apply Z.ltb_lt; lia).
      cbn [andb]. destruct (512 =? le16_at img 11) eqn:E5; cbn [negb].
      + apply Z.eqb_eq in E5. rewrite <- E5. reflexivity.
      + reflexivity. }
  rewrite Hupd. reflexivity.
Qed.

Lemma fat_read (heap : heap_t) (img : list byte) :
  exists fat,
    HAL.kmc_read_multi_sector
      (HAL.mkState (Some img) (if le16_at img 11 =? 0 then 512 else le16_at img 11))
      FAT_TABE_PHYSC_BASE_INDEX (le16_at img 22)
      (malloc heap 1 ((if le16_at img 11 =? 0 then 512 else le16_at img 11)
                      * le16_at img 22))
    = Done (zlen (HAL.fread img
                    (FAT_TABE_PHYSC_BASE_INDEX
                     * (if le16_at img 11 =? 0 then 512 else le16_at img 11))
                    (le16_at img 22
                     * (if le16_at img 11 =? 0 then 512 else le16_at img 11))),
            fat)
    /\ zlen fat = (if le16_at img 11 =? 0 then 512 else le16_at img 11) * le16_at img 22
    /\ holds_at fat 0
         (HAL.fread img
            (FAT_TABE_PHYSC_BASE_INDEX
             * (if le16_at img 11 =? 0 then 512 else le16_at img 11))
            (le16_at img 22 * (if le16_at img 11 =? 0 then 512 else le16_at img 11))).
Proof.
  pose proof (le16_at_range img 11) as Hbps.
  pose proof (le16_at_range img 22) as Hspf.
  set (ss := if le16_at img 11 =? 0 then 512 else le16_at img 11).
  assert (Hss : 0 < ss < 65536).
  { subst ss. destruct (le16_at img 11 =? 0) eqn:E; [lia|]. apply Z.eqb_neq in E. lia. }
  destruct (kmc_read_multi_sector_spec (HAL.mkState (Some img) ss) img
              FAT_TABE_PHYSC_BASE_INDEX (le16_at img 22)
              (malloc heap 1 (ss * le16_at img 22)) eq_refl)
    as (fat & Hrd & Hl & Hh); cbn [HAL.s_sector_size]; unfold FAT_TABE_PHYSC_BASE_INDEX.
  - lia.
  - nia.
  - rewrite zlen_malloc by nia. lia.
  - exists fat. cbn [HAL.s_sector_size] in Hrd, Hh. unfold FAT_TABE_PHYSC_BASE_INDEX in *.
    split; [exact Hrd|]. split; [|exact Hh].
    rewrite Hl, zlen_malloc by nia. reflexivity.
Qed.

(** What [fatfs_init] returns on an image that opens, of at least one
    sector, whose first 512 bytes hold a NUL: BAD_BOOT_SECTOR exactly when
    bytes_per_sector is no multiple of 512, or is 0 together with a
    reserved sector count of 0, fewer than two FATs and a root entry count
    that is no multiple of 16; GOOD_CONDITION otherwise, never
    FAILED_TO_OPEN.  So a bytes_per_sector that is a multiple of 512 and
    not 0 is accepted whatever the other fields are. *)
Theorem fatfs_init_verdict (fs : HAL.disk) (heap : heap_t) (name : String.string)
        (st : state) (img : list byte) :
  fs name = Some img ->
  512 <= zlen img ->
  In x00 (firstn 512 img) ->
  (boot_sector_rejected img ->
   returned (fatfs_init fs heap name st) = Some BAD_BOOT_SECTOR)
  /\ (~ boot_sector_rejected img ->
      returned (fatfs_init fs heap name st) = Some GOOD_CONDITION)
  /\ (0 < le16_at img 11 -> le16_at img 11 mod 512 = 0 ->
      returned (fatfs_init fs heap name st) = Some GOOD_CONDITION).
Proof.
  intros Hfs Hlen Hnul.
  pose proof (fatfs_init_steps fs heap name st img Hfs Hlen Hnul) as Hsteps.
  pose proof (boot_sector_invalid_iff (boot_fields img)
                (proj1 (le16_at_range img 11)) (proj1 (le16_at_range img 14))
                (proj1 (le16_at_range img 17))) as Hiff.
  change (bytes_per_sector (boot_fields img)) with (le16_at img 11) in Hiff.
  change (reserved_sectors_quantity (boot_fields img)) with (le16_at img 14) in Hiff.
  change (num_of_FATs (boot_fields img)) with (byte_at img 16) in Hiff.
  change (max_root_dir_entries (boot_fields img)) with (le16_at img 17) in Hiff.
  fold (boot_sector_rejected img) in Hiff.
  assert (Hbad : boot_sector_rejected img ->
                 returned (fatfs_init fs heap name st) = Some BAD_BOOT_SECTOR).
  { intros Hrej. apply Hiff in Hrej. rewrite Hsteps, Hrej. reflexivity. }
  assert (Hgood : ~ boot_sector_rejected img ->
                  returned (fatfs_init fs heap name st) = Some GOOD_CONDITION).
  { intros Hacc. rewrite Hsteps.
    destruct (boot_sector_invalid (boot_fields img)) eqn:E.
    - exfalso. apply Hacc. apply Hiff. reflexivity.
    - destruct (fat_read heap img) as (fat & Hrd & _). rewrite Hrd. reflexivity. }
  split; [exact Hbad|]. split; [exact Hgood|].
  intros Hpos Hmod. apply Hgood. intros [Hm | (Hz & _)]; [contradiction | lia].
Qed.

(** The image with a subdirectory: 512 bytes per sector. *)
Lemma fatfs_init_verdict_witness :
  (boot_sector_rejected Images.nested ->
   returned (fatfs_init (Images.one_image Images.nested) Images.zero_heap Images.floppy
                        initial)
   = Some BAD_BOOT_SECTOR)
  /\ (~ boot_sector_rejected Images.nested ->
      returned (fatfs_init (Images.one_image Images.nested) Images.zero_heap Images.floppy
                           initial)
      = Some GOOD_CONDITION)
  /\ (0 < le16_at Images.nested 11 -> le16_at Images.nested 11 mod 512 = 0 ->
      returned (fatfs_init (Images.one_image Images.nested) Images.zero_heap Images.floppy
                           initial)
      = Some GOOD_CONDITION).
Proof.
  apply (fatfs_init_verdict (Images.one_image Images.nested) Images.zero_heap Images.floppy
           initial Images.nested).
  - reflexivity.
  - vm_compute. discriminate.
  - apply (nth_error_In (firstn 512 Images.nested) 11). vm_compute. reflexivity.
Defined.

(** On an image of at least one sector, [fatfs_init] reads the first 512
    bytes and takes its fields from them, little endian, at the offsets of
    the BPB; the [strlen] of the first [hex_to_decimal] runs through those
    512 bytes, past their end when none of them is a NUL.  When the
    validation rejects the fields it returns BAD_BOOT_SECTOR and leaves the
    FAT as it was; otherwise it returns GOOD_CONDITION, the device has
    sectors of bytes_per_sector bytes (of 512 when that field is 0), and
    the FAT is a block of sectors_per_FAT sectors holding what the image
    has from sector 1 on. *)
Theorem fatfs_init_ready (fs : HAL.disk) (heap : heap_t) (name : String.string)
        (st : state) (img : list byte) :
  fs name = Some img ->
  512 <= zlen img ->
  (In x00 (firstn 512 img) ->
   (boot_sector_invalid (boot_fields img) = true ->
    fatfs_init fs heap name st
    = Done (mkState (HAL.mkState (Some img) 512) (boot_fields img) (s_fat_table st)
                    (s_dirlist st) (s_cluster_chain st) (print_file_callback st),
            BAD_BOOT_SECTOR))
   /\ (boot_sector_invalid (boot_fields img) = false ->
       exists fat,
         fatfs_init fs heap name st
         = Done (mkState (HAL.mkState (Some img)
                            (if le16_at img 11 =? 0 then 512 else le16_at img 11))
                         (boot_fields img) (Some fat)
                         (s_dirlist st) (s_cluster_chain st) (print_file_callback st),
                 GOOD_CONDITION)
         /\ zlen fat = (if le16_at img 11 =? 0 then 512 else le16_at img 11)
                       * le16_at img 22
         /\ holds_at fat 0
              (HAL.fread img
                 (FAT_TABE_PHYSC_BASE_INDEX
                  * (if le16_at img 11 =? 0 then 512 else le16_at img 11))
                 (le16_at img 22
                  * (if le16_at img 11 =? 0 then 512 else le16_at img 11)))))
  /\ (~ In x00 (firstn 512 img) -> fatfs_init fs heap name st = Fault).
Proof.
  intros Hfs Hlen. split.
  - intros Hnul.
    pose proof (fatfs_init_steps fs heap name st img Hfs Hlen Hnul) as Hsteps.
    split.
    + intros Hbad. rewrite Hsteps, Hbad. reflexivity.
    + intros Hok. destruct (fat_read heap img) as (fat & Hrd & Hl & Hh).
      exists fat. split; [|split; [exact Hl | exact Hh]].
      rewrite Hsteps, Hok, Hrd. reflexivity.
  - intros Hnone. unfold fatfs_init, HAL.kmc_init. rewrite Hfs.
    unfold HAL.KMC_DEFAULT_SECTOR_SIZE.
    rewrite boot_sector_read by assumption. cbn [bind].
    unfold parse_boot_sector. rewrite (hex_to_decimal_no_nul _ 11 2 Hnone). reflexivity.
Qed.

(** The image with a subdirectory. *)
Lemma fatfs_init_ready_witness :
  (In x00 (firstn 512 Images.nested) ->
   (boot_sector_invalid (boot_fields Images.nested) = true ->
    fatfs_init (Images.one_image Images.nested) Images.zero_heap Images.floppy initial
    = Done (mkState (HAL.mkState (Some Images.nested) 512) (boot_fields Images.nested)
                    (s_fat_table initial) (s_dirlist initial) (s_cluster_chain initial)
                    (print_file_callback initial),
            BAD_BOOT_SECTOR))
   /\ (boot_sector_invalid (boot_fields Images.nested) = false ->
       exists fat,
         fatfs_init (Images.one_image Images.nested) Images.zero_heap Images.floppy initial
         = Done (mkState (HAL.mkState (Some Images.nested)
                            (if le16_at Images.nested 11 =? 0 then 512
                             else le16_at Images.nested 11))
                         (boot_fields Images.nested) (Some fat)
                         (s_dirlist initial) (s_cluster_chain initial)
                         (print_file_callback initial),
                 GOOD_CONDITION)
         /\ zlen fat = (if le16_at Images.nested 11 =? 0 then 512
                        else le16_at Images.nested 11)
                       * le16_at Images.nested 22
         /\ holds_at fat 0
              (HAL.fread Images.nested
                 (FAT_TABE_PHYSC_BASE_INDEX
                  * (if le16_at Images.nested 11 =? 0 then 512
                     else le16_at Images.nested 11))
                 (le16_at Images.nested 22
                  * (if le16_at Images.nested 11 =? 0 then 512
                     else le16_at Images.nested 11)))))
  /\ (~ In x00 (firstn 512 Images.nested) ->
      fatfs_init (Images.one_image Images.nested) Images.zero_heap Images.floppy initial
      = Fault).
Proof.
  apply (fatfs_init_ready (Images.one_image Images.nested) Images.zero_heap Images.floppy
           initial Images.nested).
  - reflexivity.
  - vm_compute. discriminate.
Defined.

(** ** Sector reads at the end of the image *)

Lemma load_None {A} (l : list A) i : zlen l <= i -> load l i = None.
Proof.
  intros H. unfold load. pose proof (zlen_nonneg l).
  destruct (i <? 0) eqn:E; [reflexivity|].
  apply nth_error_None. unfold zlen in *. lia.
Qed.

Lemma load_ext {A} (l1 l2 : list A) :
  (forall j, 0 <= j -> load l1 j = load l2 j) -> l1 = l2.
Proof.
  intros H. apply nth_error_ext. intros n.
  assert (Hn : 0 <= Z.of_nat n) by lia.
  specialize (H (Z.of_nat n) Hn). unfold load in H.
  destruct (Z.of_nat n <? 0) eqn:E; [lia|].
  rewrite Nat2Z.id in H. exact H.
Qed.

Lemma zlen_fread_eq img pos n :
  0 <= pos -> 0 <= n ->
  zlen (HAL.fread img pos n) = Z.max 0 (Z.min n (zlen img - pos)).
Proof.
  intros Hp Hn. unfold HAL.fread, zlen. rewrite length_firstn, length_skipn. lia.
Qed.

Lemma load_fread img pos n j :
  0 <= pos -> 0 <= j ->
  load (HAL.fread img pos n) j = if j <? n then load img (pos + j) else None.
Proof.
  intros Hp Hj. unfold HAL.fread.
  destruct (j <? n) eqn:E.
  - rewrite load_firstn by lia. rewrite load_skipn by lia.
    f_equal. lia.
  - apply load_None. unfold zlen. rewrite length_firstn. lia.
Qed.

(** What one sector read delivers: the bytes the image has left from the
    sector's offset on, a whole sector at most; they land at [buff + off]
    and the rest of the buffer stays as it was. *)
Theorem kmc_read_sector_bounds (h : HAL.state) (img : list byte) (index : Z)
        (buff : list byte) (off : Z) :
  HAL.s_file_img h = Some img ->
  0 <= HAL.s_sector_size h ->
  0 <= index * HAL.s_sector_size h < 2147483648 ->
  0 <= off ->
  zlen (sector_bytes img (HAL.s_sector_size h) index)
  = Z.max 0 (Z.min (HAL.s_sector_size h) (zlen img - index * HAL.s_sector_size h))
  /\ (off + zlen (sector_bytes img (HAL.s_sector_size h) index) <= zlen buff ->
      exists buff1,
        HAL.kmc_read_sector h index buff off
        = Done (zlen (sector_bytes img (HAL.s_sector_size h) index), buff1)
        /\ zlen buff1 = zlen buff
        /\ (forall j, 0 <= j < zlen (sector_bytes img (HAL.s_sector_size h) index) ->
              load buff1 (off + j) = load img (index * HAL.s_sector_size h + j))
        /\ (forall j, j < off
                      \/ off + zlen (sector_bytes img (HAL.s_sector_size h) index) <= j ->
              load buff1 j = load buff j))
  /\ (zlen buff < off + zlen (sector_bytes img (HAL.s_sector_size h) index) ->
      HAL.kmc_read_sector h index buff off = Fault).
Proof.
  intros Himg Hss Hidx Hoff.
  set (ss := HAL.s_sector_size h) in *.
  assert (Hlen : zlen (sector_bytes img ss index) = Z.max 0 (Z.min ss (zlen img - index * ss))).
  { unfold sector_bytes. apply zlen_fread_eq; lia. }
  split; [exact Hlen|].
  assert (Hrd : HAL.kmc_read_sector h index buff off
                = (buff' <- access (store buff off (sector_bytes img ss index)) ;;
                   Done (zlen (sector_bytes img ss index), buff'))).
  { unfold HAL.kmc_read_sector. rewrite Himg. fold ss.
    rewrite (u32_small (index * ss)) by lia. reflexivity. }
  split.
  - intros Hroom.
    destruct (store_fits buff off (sector_bytes img ss index) Hoff Hroom) as [buff1 Hst].
    exists buff1. rewrite Hrd, Hst. cbn [access bind].
    destruct (store_spec _ _ _ _ Hst) as (Hl & Hin & Hout).
    split; [reflexivity|]. split; [exact Hl|]. split.
    + intros j Hj. rewrite Hin by lia.
      replace (off + j - off) with j by lia.
      unfold sector_bytes. rewrite load_fread by lia.
      destruct (j <? ss) eqn:E; [reflexivity|]. lia.
    + intros j Hj. apply Hout. exact Hj.
  - intros Hshort. rewrite Hrd. unfold store.
    destruct (off + zlen (sector_bytes img ss index) <=? zlen buff) eqn:E; [lia|].
    rewrite andb_false_r. reflexivity.
Qed.

(** The last sector of the 40-sector image of 1024-byte sectors, and the one
    after it. *)
Lemma kmc_read_sector_bounds_witness :
  zlen (sector_bytes Images.kilo 1024 40)
  = Z.max 0 (Z.min 1024 (zlen Images.kilo - 40 * 1024))
  /\ (0 + zlen (sector_bytes Images.kilo 1024 40) <= zlen (Images.zeros 1024) ->
      exists buff1,
        HAL.kmc_read_sector (HAL.mkState (Some Images.kilo) 1024) 40 (Images.zeros 1024) 0
        = Done (zlen (sector_bytes Images.kilo 1024 40), buff1)
        /\ zlen buff1 = zlen (Images.zeros 1024)
        /\ (forall j, 0 <= j < zlen (sector_bytes Images.kilo 1024 40) ->
              load buff1 (0 + j) = load Images.kilo (40 * 1024 + j))
        /\ (forall j, j < 0 \/ 0 + zlen (sector_bytes Images.kilo 1024 40) <= j ->
              load buff1 j = load (Images.zeros 1024) j))
  /\ (zlen (Images.zeros 1024) < 0 + zlen (sector_bytes Images.kilo 1024 40) ->
      HAL.kmc_read_sector (HAL.mkState (Some Images.kilo) 1024) 40 (Images.zeros 1024) 0
      = Fault).
Proof.
  apply (kmc_read_sector_bounds (HAL.mkState (Some Images.kilo) 1024) Images.kilo 40
           (Images.zeros 1024) 0).
  - reflexivity.
  - cbn [HAL.s_sector_size]. lia.
  - cbn [HAL.s_sector_size]. lia.
  - lia.
Defined.

(** ** Many sectors at once, and one by one *)

Lemma store_nil {A} (buf : list A) off :
  0 <= off <= zlen buf -> store buf off [] = Some buf.
Proof.
  intros H. unfold store. change (zlen (@nil A)) with 0.
  replace ((0 <=? off) && (off + 0 <=? zlen buf)) with true by lia.
  cbn [length app]. rewrite Nat.add_0_r, firstn_skipn. reflexivity.
Qed.

Lemma read_sectors_fread h img ss :
  HAL.s_file_img h = Some img ->
  HAL.s_sector_size h = ss ->
  0 <= ss ->
  forall n index buff off,
    0 <= index -> (index + Z.of_nat n) * ss < 4294967296 ->
    0 <= off -> off + Z.of_nat n * ss <= zlen buff ->
    exists buff1,
      store buff off (HAL.fread img (index * ss) (Z.of_nat n * ss)) = Some buff1
      /\ read_sectors h index n buff off
         = Done (zlen (HAL.fread img (index * ss) (Z.of_nat n * ss)), buff1).
Proof.
  intros Himg Hss Hpos. induction n as [|n IH]; intros index buff off Hi Hmax Hoff Hroom.
  - exists buff. change (Z.of_nat 0 * ss) with 0.
    assert (E : HAL.fread img (index * ss) 0 = []) by reflexivity.
    rewrite E. split; [apply store_nil; lia | reflexivity].
  - assert (HS : Z.of_nat (S n) * ss = ss + Z.of_nat n * ss) by lia.
    set (N := Z.of_nat n * ss) in *. assert (HN : 0 <= N) by (unfold N; nia).
    set (p := index * ss) in *. assert (Hp : 0 <= p) by (unfold p; nia).
    assert (Hp1 : (index + 1) * ss = p + ss) by (unfold p; lia).
    set (d1 := HAL.fread img p ss).
    set (d2 := HAL.fread img (p + ss) N).
    set (D := HAL.fread img p (Z.of_nat (S n) * ss)).
    assert (L1 : zlen d1 = Z.max 0 (Z.min ss (zlen img - p)))
      by (apply zlen_fread_eq; lia).
    assert (L2 : zlen d2 = Z.max 0 (Z.min N (zlen img - (p + ss))))
      by (apply zlen_fread_eq; lia).
    assert (LD : zlen D = Z.max 0 (Z.min (ss + N) (zlen img - p))).
    { unfold D. rewrite HS. apply zlen_fread_eq; lia. }
    destruct (store_fits buff off d1) as [b1 Hb1]; [lia | lia |].
    destruct (store_spec _ _ _ _ Hb1) as (Hl1 & Hin1 & Hout1).
    destruct (IH (index + 1) b1 (off + ss)) as (b2 & Hb2 & Hrest);
      [lia | fold N; nia | lia | fold N; lia |].
    fold N in Hb2, Hrest. rewrite Hp1 in Hb2, Hrest. fold d2 in Hb2, Hrest.
    destruct (store_spec _ _ _ _ Hb2) as (Hl2 & Hin2 & Hout2).
    destruct (store_fits buff off D) as [b' Hb']; [lia | lia |].
    destruct (store_spec _ _ _ _ Hb') as (Hl' & Hin' & Hout').
    assert (Hsame : b' = b2).
    { apply load_ext. intros j Hj.
      destruct (Z.ltb_spec j off) as [Hlt | Hge].
      - rewrite Hout', Hout2, Hout1 by lia. reflexivity.
      - destruct (Z.ltb_spec j (off + zlen D)) as [HinD | HoutD].
        + rewrite Hin' by lia. unfold D. rewrite HS, load_fread by lia.
          replace (j - off <? ss + N) with true by lia.
          destruct (Z.ltb_spec j (off + ss)) as [Hfirst | Hnext].
          * rewrite Hout2 by lia. rewrite Hin1 by lia.
            unfold d1. rewrite load_fread by lia.
            replace (j - off <? ss) with true by lia. reflexivity.
          * rewrite Hin2 by lia. unfold d2. rewrite load_fread by lia.
            replace (j - (off + ss) <? N) with true by lia.
            f_equal. lia.
        + rewrite Hout' by lia.
          destruct (Z.ltb_spec j (off + ss)) as [Hfirst | Hnext].
          * rewrite Hout2 by lia. rewrite Hout1 by lia. reflexivity.
          * rewrite Hout2 by lia. rewrite Hout1 by lia. reflexivity. }
    exists b2. split; [rewrite <- Hsame; exact Hb'|].
    cbn [read_sectors].
    assert (Hone : HAL.kmc_read_sector h index buff off = Done (zlen d1, b1)).
    { unfold HAL.kmc_read_sector. rewrite Himg, Hss. fold p.
      rewrite (u32_small p) by lia. fold d1. rewrite Hb1. reflexivity. }
    rewrite Hone. cbn [bind]. rewrite Hss, Hrest. cbn [bind].
    do 2 f_equal. lia.
Qed.

(** [kmc_read_multi_sector] gives what as many calls of [kmc_read_sector]
    give, sector after sector: the same bytes at the same places, and the
    same count, also where the image ends within the range. *)
Theorem kmc_read_multi_sector_as_sectors (h : HAL.state) (img : list byte)
        (index num : Z) (buff : list byte) :
  HAL.s_file_img h = Some img ->
  0 <= HAL.s_sector_size h ->
  0 <= index -> 0 <= num ->
  (index + num) * HAL.s_sector_size h < 2147483648 ->
  num * HAL.s_sector_size h <= zlen buff ->
  HAL.kmc_read_multi_sector h index num buff
  = read_sectors h index (Z.to_nat num) buff 0.
Proof.
  intros Himg Hss Hi Hn Hmax Hroom.
  destruct (read_sectors_fread h img (HAL.s_sector_size h) Himg eq_refl Hss
              (Z.to_nat num) index buff 0) as (b & Hst & Hrd);
    [lia | rewrite Z2Nat.id by lia; lia | lia | rewrite Z2Nat.id by lia; lia |].
  rewrite Z2Nat.id in Hst, Hrd by lia.
  rewrite Hrd. unfold HAL.kmc_read_multi_sector. rewrite Himg.
  rewrite (u32_small (index * HAL.s_sector_size h)) by nia.
  rewrite (u32_small (num * HAL.s_sector_size h)) by nia.
  rewrite Hst. reflexivity.
Qed.

(** The last three sectors of the 40-sector image and the two after them. *)
Lemma kmc_read_multi_sector_as_sectors_witness :
  HAL.kmc_read_multi_sector (HAL.mkState (Some Images.kilo) 1024) 37 5
                            (Images.zeros 5120)
  = read_sectors (HAL.mkState (Some Images.kilo) 1024) 37 (Z.to_nat 5)
                 (Images.zeros 5120) 0.
Proof.
  apply (kmc_read_multi_sector_as_sectors (HAL.mkState (Some Images.kilo) 1024)
           Images.kilo 37 5 (Images.zeros 5120)).
  - reflexivity.
  - cbn [HAL.s_sector_size]. lia.
  - lia.
  - lia.
  - cbn [HAL.s_sector_size]. lia.
  - vm_compute. discriminate.
Defined.

(** ** FAT entries, two to three bytes *)

Lemma read_FAT_entry_value (table : list byte) (c : Z) (b0 b1 : byte) :
  0 <= c ->
  load table (3 * c / 2) = Some b0 ->
  load table (3 * c / 2 + 1) = Some b1 ->
  read_FAT_entry (Some table) c
  = Done (if Z.odd c then u8 b0 / 16 + 16 * u8 b1 else u8 b0 + 256 * (u8 b1 mod 16)).
Proof.
  intros Hc H0 H1.
  pose proof (u8_range b0) as R0. pose proof (u8_range b1) as R1.
  unfold read_FAT_entry. cbn [access bind].
  rewrite Z.quot_div_nonneg by lia. rewrite H0, H1.
  destruct (Z.odd c); cbn [access bind]; f_equal.
  - rewrite Z.shiftr_div_pow2, Z.shiftl_mul_pow2 by lia.
    change (2 ^ 4) with 16. unfold u16. div_lia.
  - change 15 with (Z.ones 4). rewrite Z.land_ones by lia.
    rewrite Z.shiftl_mul_pow2 by lia.
    change (2 ^ 4) with 16. change (2 ^ 8) with 256. unfold u16. div_lia.
Qed.

(** Entries [2k] and [2k + 1] are the low and the high 12 bits of the 24-bit
    little-endian word at byte [3k] of the table. *)
Theorem read_FAT_entry_pair (table : list byte) (k : Z) (b0 b1 b2 : byte) :
  0 <= k ->
  load table (3 * k) = Some b0 ->
  load table (3 * k + 1) = Some b1 ->
  load table (3 * k + 2) = Some b2 ->
  read_FAT_entry (Some table) (2 * k)
  = Done ((u8 b0 + 256 * u8 b1 + 65536 * u8 b2) mod 4096)
  /\ read_FAT_entry (Some table) (2 * k + 1)
     = Done ((u8 b0 + 256 * u8 b1 + 65536 * u8 b2) / 4096).
Proof.
  intros Hk H0 H1 H2.
  pose proof (u8_range b0) as R0. pose proof (u8_range b1) as R1.
  pose proof (u8_range b2) as R2.
  split.
  - rewrite (read_FAT_entry_value table (2 * k) b0 b1); try lia.
    + replace (Z.odd (2 * k)) with false
        by (symmetry; rewrite <- Z.negb_even, Z.even_mul; reflexivity).
      f_equal. div_lia.
    + replace (3 * (2 * k) / 2) with (3 * k) by div_lia. exact H0.
    + replace (3 * (2 * k) / 2 + 1) with (3 * k + 1) by div_lia. exact H1.
  - rewrite (read_FAT_entry_value table (2 * k + 1) b1 b2); try lia.
    + replace (Z.odd (2 * k + 1)) with true
        by (symmetry; apply Z.odd_spec; exists k; lia).
      f_equal. div_lia.
    + replace (3 * (2 * k + 1) / 2) with (3 * k + 1) by div_lia. exact H1.
    + replace (3 * (2 * k + 1) / 2 + 1) with (3 * k + 2) by div_lia. exact H2.
Qed.

(** Entries 2 and 3 of the FAT of the image with a subdirectory. *)
Lemma read_FAT_entry_pair_witness :
  read_FAT_entry (Some Images.nested_fat) (2 * 1)
  = Done ((u8 xff + 256 * u8 xff + 65536 * u8 xff) mod 4096)
  /\ read_FAT_entry (Some Images.nested_fat) (2 * 1 + 1)
     = Done ((u8 xff + 256 * u8 xff + 65536 * u8 xff) / 4096).
Proof.
  apply (read_FAT_entry_pair Images.nested_fat 1 xff xff xff).
  - lia.
  - vm_compute. reflexivity.
  - vm_compute. reflexivity.
  - vm_compute. reflexivity.
Defined.

(** [read_FAT_entry] checks no bound: it returns a 12-bit value when both
    bytes of the entry lie in the table and reads outside the table
    otherwise, as it does while no table is loaded. *)
Theorem read_FAT_entry_bounds (table : list byte) (c : Z) :
  0 <= c < 65536 ->
  (3 * c / 2 + 1 < zlen table ->
   exists e, read_FAT_entry (Some table) c = Done e /\ 0 <= e < 4096)
  /\ (zlen table <= 3 * c / 2 + 1 -> read_FAT_entry (Some table) c = Fault)
  /\ read_FAT_entry None c = Fault.
Proof.
  intros Hc. split; [|split].
  - intros Hin.
    destruct (load_in_range table (3 * c / 2)) as [b0 H0]; [div_lia|].
    destruct (load_in_range table (3 * c / 2 + 1)) as [b1 H1]; [div_lia|].
    pose proof (u8_range b0) as R0. pose proof (u8_range b1) as R1.
    eexists. split; [apply (read_FAT_entry_value table c b0 b1); [lia | exact H0 | exact H1]|].
    destruct (Z.odd c); div_lia.
  - intros Hout. unfold read_FAT_entry. cbn [access bind].
    rewrite Z.quot_div_nonneg by lia.
    rewrite (load_None table (3 * c / 2 + 1)) by lia.
    destruct (Z.odd c); cbn [access bind].
    + destruct (load table (3 * c / 2)); reflexivity.
    + reflexivity.
  - reflexivity.
Qed.

(** The FAT of the stock layout has 4608 bytes: entry 3071 is the last one
    inside. *)
Lemma read_FAT_entry_bounds_witness :
  (3 * 3071 / 2 + 1 < zlen Images.stock_fat ->
   exists e, read_FAT_entry (Some Images.stock_fat) 3071 = Done e /\ 0 <= e < 4096)
  /\ (zlen Images.stock_fat <= 3 * 3071 / 2 + 1 ->
      read_FAT_entry (Some Images.stock_fat) 3071 = Fault)
  /\ read_FAT_entry None 3071 = Fault.
Proof.
  apply (read_FAT_entry_bounds Images.stock_fat 3071). lia.
Defined.

(** ** Little-endian fields, to the bit *)

Lemma hex_loop_outside n : forall buf index i d,
  0 <= index -> 0 <= i ->
  index + i + Z.of_nat (S n) <= 4294967296 ->
  zlen buf < index + i + Z.of_nat (S n) ->
  hex_loop (S n) buf index i d = Fault.
Proof.
  induction n as [|n IH]; intros buf index i d Hi Hk Hmax Hout.
  - cbn [hex_loop]. rewrite u32_small by lia.
    rewrite load_None by lia. reflexivity.
  - remember (S n) as m. cbn [hex_loop]. rewrite u32_small by lia.
    destruct (load buf (index + i)) as [b|]; [|reflexivity].
    cbn [access bind]. subst m. apply IH; lia.
Qed.

(** [hex_to_decimal] first takes the [strlen] of the block: a block with no
    NUL is read past its end, whatever is asked.  On a block that holds a
    NUL, wherever it is, the bytes at [index] are read as a little-endian
    number.  Each byte is shifted as an [int], so a fourth byte of 0x80 or
    more comes back sign-extended to 64 bits; the [uint32_t] that
    [fatfs_read_dir] stores it in cuts that off.  A field that ends outside
    the block is read outside it. *)
Theorem hex_to_decimal_value (buf : list byte) (index : Z) :
  0 <= index < 4294967293 ->
  (In x00 buf ->
   (index + 4 <= zlen buf ->
    hex_to_decimal buf index 1 = Done (byte_at buf index)
    /\ hex_to_decimal buf index 2 = Done (le16_at buf index)
    /\ hex_to_decimal buf index 4
       = Done (le32_at buf index
               + (if byte_at buf (index + 3) <? 128 then 0
                  else 18446744073709551616 - 4294967296))
    /\ u32 (le32_at buf index
            + (if byte_at buf (index + 3) <? 128 then 0
               else 18446744073709551616 - 4294967296))
       = le32_at buf index)
   /\ (forall n, 1 <= n <= 4 -> zlen buf < index + n ->
       hex_to_decimal buf index n = Fault))
  /\ (~ In x00 buf -> forall n, hex_to_decimal buf index n = Fault).
Proof.
  intros Hi. split; [|intros Hnone n; apply hex_to_decimal_no_nul; exact Hnone].
  intros Hnul. split.
  - intros Hin.
    destruct (load_in_range buf index) as [b0 H0]; [lia|].
    destruct (load_in_range buf (index + 1)) as [b1 H1]; [lia|].
    destruct (load_in_range buf (index + 2)) as [b2 H2]; [lia|].
    destruct (load_in_range buf (index + 3)) as [b3 H3]; [lia|].
    pose proof (u8_range b0). pose proof (u8_range b1).
    pose proof (u8_range b2). pose proof (u8_range b3).
    split; [apply hex_to_decimal_1_at; (assumption || lia)|].
    split; [apply hex_to_decimal_2_at; (assumption || lia)|].
    unfold le32_at.
    replace (index + 3 + 0) with (index + 3) by lia.
    rewrite (byte_at_load _ _ _ H0), (byte_at_load _ _ _ H1),
            (byte_at_load _ _ _ H2), (byte_at_load _ _ _ H3).
    split.
    + rewrite hex_to_decimal_eq by (assumption || lia).
      change (Z.to_nat 4) with 4%nat. cbn [hex_loop].
      unfold u32 at 1. rewrite Z.add_0_r, Z.mod_small by lia. rewrite H0. cbn [access bind].
      change (0 + 1) with 1.
      unfold u32 at 1. rewrite Z.mod_small by lia. rewrite H1. cbn [access bind].
      change (1 + 1) with 2.
      unfold u32 at 1. rewrite Z.mod_small by lia. rewrite H2. cbn [access bind].
      change (2 + 1) with 3.
      unfold u32 at 1. rewrite Z.mod_small by lia. rewrite H3. cbn [access bind].
      f_equal.
      change (8 * 0) with 0. change (8 * 1) with 8. change (8 * 2) with 16.
      change (8 * 3) with 24.
      rewrite Z.shiftl_0_r, !Z.shiftl_mul_pow2 by lia.
      change (2 ^ 8) with 256. change (2 ^ 16) with 65536. change (2 ^ 24) with 16777216.
      rewrite (s32_small (u8 b0)), (s32_small (u8 b1 * 256)),
              (s32_small (u8 b2 * 65536)) by lia.
      unfold u64. rewrite (Z.mod_small (0 + u8 b0)) by lia.
      rewrite (Z.mod_small (0 + u8 b0 + u8 b1 * 256)) by lia.
      rewrite (Z.mod_small (0 + u8 b0 + u8 b1 * 256 + u8 b2 * 65536)) by lia.
      unfold s32, u32.
      rewrite (Z.mod_small (u8 b3 * 16777216)) by lia.
      destruct (u8 b3 <? 128) eqn:E.
      * apply Z.ltb_lt in E.
        replace (u8 b3 * 16777216 <? 2147483648) with true by lia.
        rewrite Z.mod_small by lia. lia.
      * apply Z.ltb_ge in E.
        replace (u8 b3 * 16777216 <? 2147483648) with false by lia.
        replace (0 + u8 b0 + u8 b1 * 256 + u8 b2 * 65536
                 + (u8 b3 * 16777216 - 4294967296))
          with (u8 b0 + 256 * u8 b1 + 65536 * u8 b2 + 16777216 * u8 b3
                + (18446744073709551616 - 4294967296)
                + (-1) * 18446744073709551616) by lia.
        rewrite Z.mod_add by lia. apply Z.mod_small. lia.
    + unfold u32. destruct (u8 b3 <? 128).
      * rewrite Z.add_0_r. apply Z.mod_small. lia.
      * replace (u8 b0 + 256 * u8 b1 + 65536 * u8 b2 + 16777216 * u8 b3
                 + (18446744073709551616 - 4294967296))
          with (u8 b0 + 256 * u8 b1 + 65536 * u8 b2 + 16777216 * u8 b3
                + 4294967295 * 4294967296) by lia.
        rewrite Z.mod_add by lia. apply Z.mod_small. lia.
  - intros n Hn Hout. rewrite hex_to_decimal_eq by (assumption || lia).
    destruct (Z.to_nat n) as [|m] eqn:E; [lia|].
    apply hex_loop_outside; lia.
Qed.

(** The size field of the first entry of the subdirectory of the image. *)
Lemma hex_to_decimal_value_witness :
  (In x00 (Images.dir_bytes (Images.mounted Images.nested) 3) ->
   (28 + 4 <= zlen (Images.dir_bytes (Images.mounted Images.nested) 3) ->
    hex_to_decimal (Images.dir_bytes (Images.mounted Images.nested) 3) 28 1
    = Done (byte_at (Images.dir_bytes (Images.mounted Images.nested) 3) 28)
    /\ hex_to_decimal (Images.dir_bytes (Images.mounted Images.nested) 3) 28 2
       = Done (le16_at (Images.dir_bytes (Images.mounted Images.nested) 3) 28)
    /\ hex_to_decimal (Images.dir_bytes (Images.mounted Images.nested) 3) 28 4
       = Done (le32_at (Images.dir_bytes (Images.mounted Images.nested) 3) 28
               + (if byte_at (Images.dir_bytes (Images.mounted Images.nested) 3) (28 + 3)
                     <? 128
                  then 0 else 18446744073709551616 - 4294967296))
    /\ u32 (le32_at (Images.dir_bytes (Images.mounted Images.nested) 3) 28
            + (if byte_at (Images.dir_bytes (Images.mounted Images.nested) 3) (28 + 3)
                  <? 128
               then 0 else 18446744073709551616 - 4294967296))
       = le32_at (Images.dir_bytes (Images.mounted Images.nested) 3) 28)
   /\ (forall n, 1 <= n <= 4 ->
       zlen (Images.dir_bytes (Images.mounted Images.nested) 3) < 28 + n ->
       hex_to_decimal (Images.dir_bytes (Images.mounted Images.nested) 3) 28 n = Fault))
  /\ (~ In x00 (Images.dir_bytes (Images.mounted Images.nested) 3) ->
      forall n,
        hex_to_decimal (Images.dir_bytes (Images.mounted Images.nested) 3) 28 n = Fault).
Proof.
  apply (hex_to_decimal_value (Images.dir_bytes (Images.mounted Images.nested) 3) 28).
  lia.
Defined.

(** ** The chain walker: what it returns, and when *)

Lemma chain_loop_complete fat : forall tail c chain len,
  walk_from fat c tail ->
  exists len',
    chain_loop (length tail) fat c chain len = Done (chain ++ tail, len')
    /\ u32 len' = u32 (len + zlen tail).
Proof.
  induction tail as [|e r IH]; intros c chain len Hw.
  - cbn [walk_from] in Hw. cbn [length chain_loop].
    replace (c <? 4088) with false by lia.
    exists len. rewrite app_nil_r. change (zlen (@nil Z)) with 0.
    rewrite Z.add_0_r. split; reflexivity.
  - cbn [walk_from] in Hw. destruct Hw as (Hc & He & Hr).
    cbn [length]. rewrite chain_loop_S.
    replace (c <? 4088) with true by lia.
    rewrite He. cbn [bind].
    destruct (IH e (fatfs_add_node chain e) (u32 (len + 1)) Hr) as (len' & Hl & Hu).
    exists len'. unfold fatfs_add_node in *. rewrite <- app_assoc in Hl.
    split; [exact Hl|].
    rewrite Hu, u32_add_l. f_equal.
    unfold zlen. cbn [length]. lia.
Qed.

(** When a walk from [f] exists, fuel for its links is enough:
    [fatfs_get_cluster_chain] returns, having appended [f] and the walk to
    the chain, with the number of links as the length. *)
Theorem chain_walk_complete (st : state) (f : Z) (tail : list Z) (k : nat) :
  walk_from (s_fat_table st) f tail ->
  fatfs_get_cluster_chain (length tail + k) st f
  = Done (set_chain st (s_cluster_chain st ++ f :: tail), u32 (zlen tail)).
Proof.
  intros Hw. unfold fatfs_get_cluster_chain.
  destruct (chain_loop_complete (s_fat_table st) tail f
              (fatfs_add_node (s_cluster_chain st) f) 1 Hw) as (len' & Hl & Hu).
  rewrite (chain_loop_more_fuel _ k _ _ _ _ _ Hl). cbn [bind].
  unfold fatfs_add_node. rewrite <- app_assoc. cbn [app].
  do 2 f_equal.
  unfold u32 in *. rewrite <- Zminus_mod_idemp_l, Hu, Zminus_mod_idemp_l.
  f_equal. lia.
Qed.

(** The chain of the subdirectory at cluster 3: one link, to the marker. *)
Lemma chain_walk_complete_witness :
  fatfs_get_cluster_chain (length [0xFFF] + 2) (Images.mounted Images.nested) 3
  = Done (set_chain (Images.mounted Images.nested)
                    (s_cluster_chain (Images.mounted Images.nested) ++ 3 :: [0xFFF]),
          u32 (zlen [0xFFF])).
Proof.
  apply (chain_walk_complete (Images.mounted Images.nested) 3 [0xFFF] 2).
  cbn [walk_from]. split; [lia|]. split; [vm_compute; reflexivity | lia].
Defined.

Lemma read_FAT_entry_returns fat c : read_FAT_entry fat c <> OutOfFuel.
Proof.
  unfold read_FAT_entry. destruct fat as [table|]; cbn [access bind]; [|discriminate].
  destruct (Z.odd c).
  - destruct (load table (Z.quot (3 * c) 2)); cbn [access bind]; [|discriminate].
    destruct (load table (Z.quot (3 * c) 2 + 1)); cbn [access bind]; discriminate.
  - destruct (load table (Z.quot (3 * c) 2 + 1)); cbn [access bind]; [|discriminate].
    destruct (load table (Z.quot (3 * c) 2)); cbn [access bind]; discriminate.
Qed.

Lemma chain_loop_out_of_fuel_inv fuel : forall fat c chain len,
  chain_loop fuel fat c chain len = OutOfFuel ->
  forall k, (k <= fuel)%nat ->
    exists d, nth_cluster k fat c = Some d /\ d < 0xFF8.
Proof.
  induction fuel as [|fuel IH]; intros fat c chain len H k Hk.
  - cbn [chain_loop] in H. destruct (c <? 4088) eqn:E; [|discriminate].
    replace k with 0%nat by lia. exists c. split; [reflexivity | lia].
  - rewrite chain_loop_S in H. destruct (c <? 4088) eqn:E; [|discriminate].
    destruct k as [|k]; [exists c; split; [reflexivity | lia]|].
    rewrite nth_cluster_S, E.
    pose proof (read_FAT_entry_returns fat c) as Hret.
    destruct (read_FAT_entry fat c) as [e| |]; cbn [bind] in H;
      [| discriminate | contradiction].
    apply (IH fat e _ _ H). lia.
Qed.

Lemma nth_cluster_nonneg k : forall fat c d,
  0 <= c -> nth_cluster k fat c = Some d -> 0 <= d.
Proof.
  induction k as [|k IH]; intros fat c d Hc H.
  - cbn [nth_cluster] in H. injection H as <-. exact Hc.
  - rewrite nth_cluster_S in H. destruct (c <? 4088); [|discriminate].
    destruct (read_FAT_entry fat c) as [e| |] eqn:E; try discriminate.
    apply (IH fat e d); [|exact H].
    apply read_FAT_entry_range in E. lia.
Qed.

Lemma repeated_value (g : nat -> Z) : forall n a,
  NoDup (map g (seq a n))
  \/ exists i j, (a <= i)%nat /\ (i < j)%nat /\ (j < a + n)%nat /\ g i = g j.
Proof.
  induction n as [|n IH]; intros a.
  - left. constructor.
  - cbn [seq map].
    destruct (in_dec Z.eq_dec (g a) (map g (seq (S a) n))) as [Hin | Hnot].
    + right. apply in_map_iff in Hin. destruct Hin as (j & Hj & Hseq).
      apply in_seq in Hseq. exists a, j. repeat split; [lia | lia | lia | congruence].
    + destruct (IH (S a)) as [Hnd | (i & j & H1 & H2 & H3 & H4)].
      * left. constructor; assumption.
      * right. exists i, j. repeat split; [lia | lia | lia | exact H4].
Qed.

(** 0xFF8 links decide whether the walk ends: with that much fuel or more it
    is still running exactly when the chain comes back to a cluster it has
    visited, and then no fuel is enough. *)
Theorem chain_walk_decided (st : state) (f : Z) (fuel : nat) :
  0 <= f < 65536 ->
  (4088 <= fuel)%nat ->
  fatfs_get_cluster_chain fuel st f = OutOfFuel <-> cycles (s_fat_table st) f.
Proof.
  intros Hf Hfuel. split.
  - intros H. unfold fatfs_get_cluster_chain in H.
    destruct (chain_loop fuel _ _ _ _) as [[c l]| |] eqn:Hloop; cbn [bind] in H;
      try discriminate.
    pose proof (chain_loop_out_of_fuel_inv fuel _ _ _ _ Hloop) as Hvis.
    set (fat := s_fat_table st) in *.
    set (g := fun k => match nth_cluster k fat f with Some d => d | None => 0 end).
    destruct (repeated_value g 4089 0) as [Hnd | (i & j & _ & Hij & Hj & Heq)].
    + exfalso.
      assert (Hok : clusters_ok (map g (seq 0 4089))).
      { apply Forall_forall. intros x Hx. apply in_map_iff in Hx.
        destruct Hx as (k & <- & Hk). apply in_seq in Hk.
        destruct (Hvis k) as (d & Hd & Hlt); [lia|].
        unfold g. rewrite Hd. split; [|exact Hlt].
        apply (nth_cluster_nonneg k fat f d); [lia | exact Hd]. }
      pose proof (clusters_ok_length _ Hok Hnd) as Hlen.
      unfold zlen in Hlen. rewrite length_map, length_seq in Hlen. lia.
    + destruct (Hvis i) as (d & Hd & _); [lia|].
      destruct (Hvis j) as (d' & Hd' & _); [lia|].
      unfold g in Heq. rewrite Hd, Hd' in Heq. subst d'.
      exists i, (j - i)%nat, d. split; [lia|]. split; [exact Hd|].
      replace (i + (j - i))%nat with j by lia. exact Hd'.
  - intros Hc. apply (cycle_out_of_fuel (fun _ _ => x00) st f fuel Hc).
Qed.

(** The image whose cluster 2 links to itself. *)
Lemma chain_walk_decided_witness :
  fatfs_get_cluster_chain 4088 (Images.mounted Images.cyclic) 2 = OutOfFuel
  <-> cycles (s_fat_table (Images.mounted Images.cyclic)) 2.
Proof.
  apply (chain_walk_decided (Images.mounted Images.cyclic) 2 4088); lia.
Defined.

Lemma chain_loop_fault fuel : forall k fat f c chain len,
  nth_cluster k fat f = Some c ->
  c < 0xFF8 ->
  read_FAT_entry fat c = Fault ->
  (k < fuel)%nat ->
  chain_loop fuel fat f chain len = Fault.
Proof.
  induction fuel as [|fuel IH]; intros k fat f c chain len Hn Hc Hr Hk; [lia|].
  rewrite chain_loop_S. destruct k as [|k].
  - cbn [nth_cluster] in Hn. injection Hn as ->.
    replace (c <? 4088) with true by lia. rewrite Hr. reflexivity.
  - rewrite nth_cluster_S in Hn. destruct (f <? 4088); [|discriminate].
    destruct (read_FAT_entry fat f) as [e| |]; try discriminate.
    cbn [bind]. apply (IH k fat e c); [exact Hn | exact Hc | exact Hr | lia].
Qed.

(** A chain that leads to a cluster whose entry lies outside the table makes
    the walk read outside the table, whatever the fuel past that link; so
    do [fatfs_read_file] and [fatfs_read_dir] of a subdirectory. *)
Theorem chain_walk_leaves_table (heap : heap_t) (st : state) (f c : Z) (k fuel : nat) :
  nth_cluster k (s_fat_table st) f = Some c ->
  c < 0xFF8 ->
  read_FAT_entry (s_fat_table st) c = Fault ->
  (k < fuel)%nat ->
  fatfs_get_cluster_chain fuel st f = Fault
  /\ fatfs_read_file heap fuel st f = Fault
  /\ (0 < f -> fatfs_read_dir heap fuel st f = Fault).
Proof.
  intros Hn Hc Hr Hk.
  assert (H : fatfs_get_cluster_chain fuel st f = Fault).
  { unfold fatfs_get_cluster_chain.
    rewrite (chain_loop_fault fuel k _ f c _ _ Hn Hc Hr Hk). reflexivity. }
  split; [exact H|]. split.
  - unfold fatfs_read_file. rewrite H. reflexivity.
  - intros Hpos. unfold fatfs_read_dir, read_dir_buffer.
    replace (ROOT_DIR_12_LOGICAL_BASE_INDEX =? f) with false
      by (unfold ROOT_DIR_12_LOGICAL_BASE_INDEX; lia).
    replace (f >? ROOT_DIR_12_LOGICAL_BASE_INDEX) with true
      by (unfold ROOT_DIR_12_LOGICAL_BASE_INDEX; lia).
    rewrite H. reflexivity.
Qed.

(** On the stock image entry 0 holds 0xFF0, below the end-of-chain values,
    and the bytes of entry 0xFF0 lie past the 4608 bytes of the FAT. *)
Lemma chain_walk_leaves_table_witness :
  fatfs_get_cluster_chain 2 (Images.mounted Images.nested) 0 = Fault
  /\ fatfs_read_file Images.zero_heap 2 (Images.mounted Images.nested) 0 = Fault
  /\ (0 < 0 -> fatfs_read_dir Images.zero_heap 2 (Images.mounted Images.nested) 0 = Fault).
Proof.
  apply (chain_walk_leaves_table Images.zero_heap (Images.mounted Images.nested)
           0 0xFF0 1 2).
  - vm_compute. reflexivity.
  - lia.
  - vm_compute. reflexivity.
  - lia.
Defined.

(** A file of no bytes has first cluster 0.  On a FAT that starts with the
    media descriptor 0xF0 and has no more than 6121 bytes (eleven sectors of
    512 bytes, say) [fatfs_read_file] takes entry 0, which is 0xFF0, for
    the next cluster and reads outside the table. *)
Theorem read_file_cluster_zero_faults (heap : heap_t) (fuel : nat) (st : state)
        (table : list byte) (b1 : byte) :
  s_fat_table st = Some table ->
  load table 0 = Some xf0 ->
  load table 1 = Some b1 ->
  u8 b1 mod 16 = 15 ->
  zlen table <= 6121 ->
  (2 <= fuel)%nat ->
  fatfs_read_file heap fuel st 0 = Fault.
Proof.
  intros Ht H0 H1 Hb Hlen Hfuel.
  assert (He : read_FAT_entry (s_fat_table st) 0 = Done 0xFF0).
  { rewrite Ht, (read_FAT_entry_value table 0 xf0 b1); [| lia | exact H0 | exact H1].
    cbn [Z.odd]. rewrite Hb. reflexivity. }
  assert (Hout : read_FAT_entry (s_fat_table st) 0xFF0 = Fault).
  { rewrite Ht. unfold read_FAT_entry. cbn [access bind Z.odd].
    change (Z.quot (3 * 4080) 2 + 1) with 6121.
    rewrite (load_None table 6121) by lia. reflexivity. }
  unfold fatfs_read_file, fatfs_get_cluster_chain.
  rewrite (chain_loop_fault fuel 1 _ 0 0xFF0); [reflexivity | | lia | exact Hout | lia].
  rewrite nth_cluster_S. change (0 <? 4088) with true. cbn iota. rewrite He. reflexivity.
Qed.

(** The stock FAT: 4608 bytes that start with F0 FF FF. *)
Lemma read_file_cluster_zero_faults_witness :
  fatfs_read_file Images.zero_heap 2 (Images.mounted Images.nested) 0 = Fault.
Proof.
  apply (read_file_cluster_zero_faults Images.zero_heap 2 (Images.mounted Images.nested)
           Images.nested_fat xff).
  - vm_compute. reflexivity.
  - vm_compute. reflexivity.
  - vm_compute. reflexivity.
  - reflexivity.
  - vm_compute. discriminate.
  - lia.
Defined.

(** ** What a read leaves *)

Lemma set_chain_back st chain :
  s_cluster_chain st = [] -> set_chain (set_chain st chain) [] = st.
Proof. destruct st; cbn; intros ->; reflexivity. Qed.

Lemma kmc_read_sector_returns h index buff off :
  HAL.kmc_read_sector h index buff off <> OutOfFuel.
Proof.
  unfold HAL.kmc_read_sector. destruct (HAL.s_file_img h); [|discriminate].
  destruct (store _ _ _); cbn [access bind]; discriminate.
Qed.

Lemma file_loop_calls st : forall temp content k calls,
  file_loop st temp content k = Done calls ->
  zlen calls + 1 = zlen temp
  /\ Forall (fun call => snd call = bytes_per_sector (s_FAT12Infor st)) calls.
Proof.
  induction temp as [|c next IH]; intros content k calls H; [discriminate|].
  cbn [file_loop] in H. destruct next as [|c' r].
  - injection H as <-. split; [reflexivity | constructor].
  - destruct (HAL.kmc_read_sector _ _ _ _) as [[n content1]| |];
      cbn [bind] in H; try discriminate.
    destruct (print_file_callback st); [|discriminate].
    destruct (file_loop st (c' :: r) content1 (u32 (k + n))) as [rest| |] eqn:Hrest;
      cbn [bind] in H; try discriminate.
    injection H as <-. destruct (IH _ _ _ Hrest) as (Hlen & Hall).
    split.
    + unfold zlen in *. cbn [length] in *. lia.
    + constructor; [reflexivity | exact Hall].
Qed.

(** [fatfs_read_file] leaves every file-level variable as it found it and
    calls the callback once per cluster of the chain, always with
    bytes_per_sector as the length.  With no callback registered it calls
    through the NULL pointer as soon as the chain has a cluster. *)
Theorem fatfs_read_file_result (heap : heap_t) (fuel : nat) (st st1 : state) (f n : Z) :
  s_cluster_chain st = [] ->
  0 <= f < 65536 ->
  fatfs_get_cluster_chain fuel st f = Done (st1, n) ->
  (print_file_callback st = false ->
   fatfs_read_file heap fuel st f = if n =? 0 then Done (st, []) else Fault)
  /\ (forall st2 calls,
        fatfs_read_file heap fuel st f = Done (st2, calls) ->
        st2 = st /\ zlen calls = n
        /\ Forall (fun call => snd call = bytes_per_sector (s_FAT12Infor st)) calls).
Proof.
  intros Hnil Hf Hwalk.
  destruct (get_cluster_chain_nodes fuel st f st1 n Hnil Hf Hwalk)
    as (body & last & -> & _ & _ & _ & _ & _ & ->).
  unfold fatfs_read_file. rewrite Hwalk. cbn [bind].
  unfold fatfs_clear_cluster_chain. rewrite (set_chain_back st (body ++ [last]) Hnil).
  change (s_cluster_chain (set_chain st (body ++ [last]))) with (body ++ [last]).
  change (s_FAT12Infor (set_chain st (body ++ [last]))) with (s_FAT12Infor st).
  split.
  - intros Hcb. destruct body as [|c r].
    + reflexivity.
    + assert (Hpos : (zlen (c :: r) =? 0) = false).
      { apply Z.eqb_neq. pose proof (zlen_nonneg r) as Hr.
        replace (zlen (c :: r)) with (1 + zlen r); [lia|].
        unfold zlen. cbn [length]. lia. }
      rewrite Hpos. cbn [app file_loop].
      destruct (r ++ [last]) as [|c' r'] eqn:E; [destruct r; discriminate|].
      match goal with
      | |- context [HAL.kmc_read_sector ?h ?i ?b ?o] =>
          pose proof (kmc_read_sector_returns h i b o) as Hret;
          destruct (HAL.kmc_read_sector h i b o) as [[k content1]| |]; cbn [bind];
            [| reflexivity | contradiction]
      end.
      cbn [print_file_callback set_chain]. rewrite Hcb. reflexivity.
  - intros st2 calls H.
    destruct (file_loop _ _ _ _) as [cs| |] eqn:Hloop; cbn [bind] in H; try discriminate.
    injection H as <- <-.
    destruct (file_loop_calls _ _ _ _ _ Hloop) as (Hlen & Hall).
    split; [reflexivity|]. split.
    + rewrite zlen_app in Hlen. change (zlen [last]) with 1 in Hlen. lia.
    + exact Hall.
Qed.

(** The file at cluster 4 of the image with a subdirectory. *)
Lemma fatfs_read_file_result_witness :
  (print_file_callback (Images.mounted Images.nested) = false ->
   fatfs_read_file Images.zero_heap 1 (Images.mounted Images.nested) 4
   = if 1 =? 0 then Done (Images.mounted Images.nested, []) else Fault)
  /\ (forall st2 calls,
        fatfs_read_file Images.zero_heap 1 (Images.mounted Images.nested) 4
        = Done (st2, calls) ->
        st2 = Images.mounted Images.nested /\ zlen calls = 1
        /\ Forall (fun call =>
                     snd call = bytes_per_sector (s_FAT12Infor (Images.mounted Images.nested)))
                  calls).
Proof.
  apply (fatfs_read_file_result Images.zero_heap 1 (Images.mounted Images.nested)
           (set_chain (Images.mounted Images.nested) [4; 0xFFF]) 4 1).
  - vm_compute. reflexivity.
  - lia.
  - vm_compute. reflexivity.
Defined.

Lemma fill_entry_shape buffer index e :
  fill_entry buffer index = Done e ->
  (exists s, fst (fst (fst e)) = s ++ [x00] /\ zlen s = 11)
  /\ 0 <= snd (fst (fst e)) < 256
  /\ 0 <= snd (fst e) < 65536
  /\ 0 <= snd e < 4294967296.
Proof.
  unfold fill_entry, slice.
  destruct ((0 <=? index) && (0 <=? 11) && (index + 11 <=? zlen buffer)) eqn:E;
    cbn [access bind]; [|discriminate].
  destruct (load buffer (index + 11)) as [attr|]; cbn [access bind]; [|discriminate].
  destruct (hex_to_decimal buffer (u32 (index + 26)) 2) as [cl| |];
    cbn [bind]; try discriminate.
  destruct (hex_to_decimal buffer (u32 (index + 28)) 4) as [sz| |];
    cbn [bind]; try discriminate.
  intros H. injection H as <-. cbn [fst snd].
  split; [|split; [apply u8_range | split; [apply u16_range | apply u32_range]]].
  exists (firstn (Z.to_nat 11) (skipn (Z.to_nat index) buffer)). split; [reflexivity|].
  unfold zlen in *. rewrite length_firstn, length_skipn. lia.
Qed.

Lemma fill_loop_shape buffer ei : forall n i es,
  fill_loop n buffer ei i = Done es ->
  length es = n
  /\ Forall (fun e => (exists s, fst (fst (fst e)) = s ++ [x00] /\ zlen s = 11)
                      /\ 0 <= snd (fst (fst e)) < 256
                      /\ 0 <= snd (fst e) < 65536
                      /\ 0 <= snd e < 4294967296) es.
Proof.
  induction n as [|n IH]; intros i es H.
  - injection H as <-. split; [reflexivity | constructor].
  - cbn [fill_loop] in H.
    destruct (load ei i) as [index|]; cbn [access bind] in H; [|discriminate].
    destruct (fill_entry buffer index) as [e| |] eqn:He; cbn [bind] in H; try discriminate.
    destruct (fill_loop n buffer ei (i + 1)) as [rest| |] eqn:Hr;
      cbn [bind] in H; try discriminate.
    injection H as <-. destruct (IH _ _ Hr) as (Hlen & Hall).
    split; [cbn [length]; lia|].
    constructor; [exact (fill_entry_shape _ _ _ He) | exact Hall].
Qed.

Lemma read_dir_listing_ok (heap : heap_t) (fuel : nat) (st st2 : state) (c : Z)
      (l : fatfs_entry_list_struct_t) :
  fields_in_range st ->
  s_cluster_chain st = [] ->
  0 <= c < 65536 ->
  fatfs_read_dir heap fuel st c = Done (st2, l) ->
  listing_ok l.
Proof.
  intros Hf Hnil Hc H.
  destruct (fatfs_read_dir_count _ _ _ _ _ _ Hf Hnil Hc H)
    as (st0 & buffer0 & bs0 & ei0 & _ & _ & Hfr & _ & Hdl).
  destruct Hfr as (_ & _ & Hcount). rewrite Hdl in Hcount.
  destruct (fatfs_read_dir_inv _ _ _ _ _ _ H)
    as (st1 & buffer & bs & ei & ei1 & j1 & es & _ & _ & Hfill & Hl & _).
  destruct (fill_loop_shape _ _ _ _ _ Hfill) as (Hlen & Hall).
  unfold listing_ok. split; [exact Hcount|].
  assert (Hz : Z.of_nat (length es) = list_count l) by lia.
  rewrite Hl. unfold listing_of.
  cbn [entry_name attribute first_logical_cluster entry_size list_count].
  unfold zlen. rewrite !length_map.
  split; [exact Hz|]. split; [exact Hz|]. split; [exact Hz|]. split; [exact Hz|].
  rewrite !Forall_map.
  repeat split; eapply Forall_impl; try exact Hall; cbn beta;
    intros e (Hn & Ha & Hk & Hs); assumption.
Qed.

(** The listing [fatfs_read_dir] returns is well formed: the four arrays
    have [list_count] elements each, every name is 11 bytes and a NUL, and
    the values are in the ranges of their C types.  Of the file-level
    variables only [s_dirlist] has changed: it is the listing returned. *)
Theorem fatfs_read_dir_result (heap : heap_t) (fuel : nat) (st st2 : state) (c : Z)
        (l : fatfs_entry_list_struct_t) :
  fields_in_range st ->
  s_cluster_chain st = [] ->
  0 <= c < 65536 ->
  fatfs_read_dir heap fuel st c = Done (st2, l) ->
  st2 = set_dirlist st l /\ listing_ok l.
Proof.
  intros Hf Hnil Hc H. split.
  - destruct (fatfs_read_dir_inv _ _ _ _ _ _ H)
      as (st1 & buffer & bs & ei & ei1 & j1 & es & Hbuf & _ & _ & _ & Hst2).
    destruct (read_dir_buffer_frame _ _ _ _ _ _ _ _ Hbuf)
      as (Hh & Hinfo & Hfat & _ & Hcb & _).
    rewrite Hst2. unfold fatfs_clear_cluster_chain, set_chain, set_dirlist.
    cbn [hal s_FAT12Infor s_fat_table s_dirlist print_file_callback s_cluster_chain].
    rewrite Hh, Hinfo, Hfat, Hcb, Hnil. reflexivity.
  - exact (read_dir_listing_ok heap fuel st st2 c l Hf Hnil Hc H).
Qed.

(** The subdirectory of the image, read from a cleared list. *)
Lemma fatfs_read_dir_result_witness :
  fst (Images.run_read_dir (Images.mounted Images.nested) 3)
  = set_dirlist (Images.mounted Images.nested)
                (snd (Images.run_read_dir (Images.mounted Images.nested) 3))
  /\ listing_ok (snd (Images.run_read_dir (Images.mounted Images.nested) 3)).
Proof.
  apply (fatfs_read_dir_result Images.zero_heap 1 (Images.mounted Images.nested)
           (fst (Images.run_read_dir (Images.mounted Images.nested) 3)) 3
           (snd (Images.run_read_dir (Images.mounted Images.nested) 3))).
  - vm_compute. repeat split; discriminate.
  - vm_compute. reflexivity.
  - lia.
  - vm_compute. reflexivity.
Defined.

(** ** The room for entry offsets *)

Lemma zlen_malloc16 heap k n : 0 <= n -> zlen (malloc16 heap k n) = n.
Proof. intros H. unfold zlen, malloc16. rewrite length_map, length_seq. lia. Qed.

Lemma entry_listed_returns buffer i : entry_listed buffer i <> OutOfFuel.
Proof.
  unfold entry_listed. destruct (load buffer i); cbn [access bind]; [|discriminate].
  destruct (_ && _); [|discriminate].
  destruct (load buffer (u32 (i + 11))); cbn [access bind]; discriminate.
Qed.

Lemma scan_loop_returns buffer bs :
  0 <= bs -> bs + 32 <= 4294967296 ->
  forall fuel a entries_index j count,
    (entry_slots bs - a <= fuel)%nat ->
    scan_loop fuel buffer bs (32 * Z.of_nat a) entries_index j count <> OutOfFuel.
Proof.
  intros Hbs Hmax. induction fuel as [|fuel IH]; intros a ei j count Hfuel.
  { cbn [scan_loop]. rewrite slots_lt by lia.
    destruct (a <? entry_slots bs)%nat eqn:E; [|discriminate].
    apply Nat.ltb_lt in E. lia. }
  cbn [scan_loop]. rewrite slots_lt by lia.
  destruct (a <? entry_slots bs)%nat eqn:E; [|discriminate].
  apply Nat.ltb_lt in E.
  assert (Hi : 32 * Z.of_nat a < bs).
  { apply Z.ltb_lt. rewrite slots_lt by lia. apply Nat.ltb_lt. assumption. }
  assert (Hnext : u32 (32 * Z.of_nat a + 32) = 32 * Z.of_nat (S a)).
  { unfold u32. rewrite Z.mod_small by lia. lia. }
  rewrite Hnext.
  pose proof (entry_listed_returns buffer (32 * Z.of_nat a)) as Hret.
  destruct (entry_listed buffer (32 * Z.of_nat a)) as [keep| |]; cbn [bind];
    [| discriminate | contradiction].
  destruct keep.
  - destruct (upd ei j _); cbn [access bind]; [|discriminate]. apply IH. lia.
  - apply IH. lia.
Qed.

Lemma scan_capacity buffer bs entries_index count entries_index1 j1 count1 :
  0 <= bs -> bs + 32 <= 4294967296 ->
  scan_loop (S (Z.to_nat (Z.quot bs 32))) buffer bs 0 entries_index 0 count
  = Done (entries_index1, j1, count1) ->
  qualifying buffer bs <= zlen entries_index.
Proof.
  intros Hbs Hmax H.
  assert (H' : scan_loop (S (Z.to_nat (Z.quot bs 32))) buffer bs (32 * Z.of_nat 0)
                         entries_index 0 count = Done (entries_index1, j1, count1))
    by exact H.
  apply (scan_loop_done buffer bs Hbs Hmax) in H'; [|cbn; lia].
  rewrite Nat.sub_0_r in H'. fold (listed_offsets buffer bs) in H'.
  destruct H' as (_ & _ & _ & Hlen & Hw & _).
  unfold qualifying. pose proof (zlen_nonneg entries_index) as Hnn.
  set (L := listed_offsets buffer bs) in *.
  destruct (Nat.eq_dec (length L) 0) as [E | E].
  - unfold zlen in *. rewrite E. lia.
  - destruct (nth_error L (length L - 1)) as [o|] eqn:Ho.
    + specialize (Hw _ _ Ho). apply load_Some in Hw. unfold zlen in *. lia.
    + apply nth_error_None in Ho. lia.
Qed.

(** [entries_index] has room for max_root_dir_entries offsets when the root
    is read and for 16 per cluster of the chain when a subdirectory is;
    [fatfs_read_dir] returns only when the entries to list fit in it, and
    writes past its end when they do not. *)
Theorem fatfs_read_dir_capacity (heap : heap_t) (fuel : nat) (st st1 : state) (c : Z)
        (buffer : list byte) (bs : Z) (entries_index : list Z) :
  fields_in_range st ->
  s_cluster_chain st = [] ->
  0 <= c < 65536 ->
  read_dir_buffer heap fuel st c = Done (st1, buffer, bs, entries_index) ->
  (c = 0 -> zlen entries_index = max_root_dir_entries (s_FAT12Infor st))
  /\ (0 < c ->
      exists n, fatfs_get_cluster_chain fuel st c = Done (st1, n)
                /\ zlen entries_index = 16 * n)
  /\ (forall st2 l, fatfs_read_dir heap fuel st c = Done (st2, l) ->
        qualifying buffer bs <= zlen entries_index)
  /\ (zlen entries_index < qualifying buffer bs ->
      fatfs_read_dir heap fuel st c = Fault).
Proof.
  intros Hf Hnil Hc Hbuf.
  pose proof (read_dir_buffer_bound _ _ _ _ _ _ _ _ Hf Hnil Hc Hbuf) as Hbs.
  split; [|split; [|split]].
  - intros ->. unfold read_dir_buffer in Hbuf.
    change (ROOT_DIR_12_LOGICAL_BASE_INDEX =? 0) with true in Hbuf. cbn iota in Hbuf.
    destruct (HAL.kmc_read_multi_sector _ _ _ _) as [[k b]| |];
      cbn [bind] in Hbuf; try discriminate.
    injection Hbuf as _ _ _ <-. apply zlen_malloc16. destruct Hf as (_ & Hm & _). lia.
  - intros Hpos. unfold read_dir_buffer in Hbuf.
    replace (ROOT_DIR_12_LOGICAL_BASE_INDEX =? c) with false in Hbuf
      by (unfold ROOT_DIR_12_LOGICAL_BASE_INDEX; lia).
    replace (c >? ROOT_DIR_12_LOGICAL_BASE_INDEX) with true in Hbuf
      by (unfold ROOT_DIR_12_LOGICAL_BASE_INDEX; lia).
    destruct (fatfs_get_cluster_chain fuel st c) as [[st' n]| |] eqn:Hw;
      cbn [bind] in Hbuf; try discriminate.
    destruct (dir_chain_loop _ _ _ _ _) as [b| |]; cbn [bind] in Hbuf; try discriminate.
    injection Hbuf as <- _ _ <-.
    destruct (get_cluster_chain_nodes fuel st c st' n Hnil Hc Hw)
      as (body & last & _ & _ & _ & _ & _ & _ & Hn).
    exists n. split; [reflexivity|].
    unfold ENTRIES_PER_SECTOR. rewrite zlen_malloc16; [lia|].
    pose proof (zlen_nonneg body). lia.
  - intros st2 l H.
    destruct (fatfs_read_dir_inv _ _ _ _ _ _ H)
      as (st1' & buffer' & bs' & ei' & ei1 & j1 & es & Hbuf' & Hscan & _).
    rewrite Hbuf in Hbuf'. injection Hbuf' as <- <- <- <-.
    apply scan_capacity in Hscan; [exact Hscan | lia | lia].
  - intros Hover. unfold fatfs_read_dir. rewrite Hbuf. cbn [bind].
    assert (Hret : scan_loop (S (Z.to_nat (Z.quot bs 32))) buffer bs (32 * Z.of_nat 0)
                             entries_index 0 (list_count (s_dirlist st1)) <> OutOfFuel).
    { apply scan_loop_returns; [lia | lia |].
      unfold entry_slots. rewrite Z.quot_div_nonneg by lia.
      assert ((bs + 31) / 32 <= bs / 32 + 1) by div_lia.
      assert (0 <= bs / 32) by div_lia.
      assert (0 <= (bs + 31) / 32) by div_lia.
      rewrite Nat.sub_0_r.
      replace (S (Z.to_nat (bs / 32))) with (Z.to_nat (bs / 32 + 1))
        by (rewrite Z2Nat.inj_add by lia; cbn; lia).
      apply Z2Nat.inj_le; lia. }
    change (32 * Z.of_nat 0) with 0 in Hret.
    destruct (scan_loop _ _ _ _ _ _ _) as [[[ei1 j1] count1]| |] eqn:Hscan;
      [| reflexivity | contradiction].
    apply scan_capacity in Hscan; lia.
Qed.

(** The subdirectory of the image: one cluster, sixteen offsets. *)
Lemma fatfs_read_dir_capacity_witness :
  (3 = 0 -> zlen (malloc16 Images.zero_heap 1 16)
            = max_root_dir_entries (s_FAT12Infor (Images.mounted Images.nested)))
  /\ (0 < 3 ->
      exists n,
        fatfs_get_cluster_chain 1 (Images.mounted Images.nested) 3
        = Done (set_chain (Images.mounted Images.nested) [3; 0xFFF], n)
        /\ zlen (malloc16 Images.zero_heap 1 16) = 16 * n)
  /\ (forall st2 l,
        fatfs_read_dir Images.zero_heap 1 (Images.mounted Images.nested) 3 = Done (st2, l) ->
        qualifying (Images.dir_bytes (Images.mounted Images.nested) 3) 512
        <= zlen (malloc16 Images.zero_heap 1 16))
  /\ (zlen (malloc16 Images.zero_heap 1 16)
      < qualifying (Images.dir_bytes (Images.mounted Images.nested) 3) 512 ->
      fatfs_read_dir Images.zero_heap 1 (Images.mounted Images.nested) 3 = Fault).
Proof.
  apply (fatfs_read_dir_capacity Images.zero_heap 1 (Images.mounted Images.nested)
           (set_chain (Images.mounted Images.nested) [3; 0xFFF]) 3
           (Images.dir_bytes (Images.mounted Images.nested) 3) 512
           (malloc16 Images.zero_heap 1 16)).
  - vm_compute. repeat split; discriminate.
  - vm_compute. reflexivity.
  - lia.
  - vm_compute. reflexivity.
Defined.

(** ** The console of main.c *)

Lemma c_string_name (s : list byte) :
  App.c_string (s ++ [x00]) = Done (until_nul (s ++ [x00])).
Proof.
  induction s as [|b s IH].
  - reflexivity.
  - cbn [app App.c_string until_nul]. destruct (u8 b =? 0); [reflexivity|].
    rewrite IH. reflexivity.
Qed.

Lemma skipn_nth_error {A} (l : list A) : forall n x,
  nth_error l n = Some x -> skipn n l = x :: skipn (S n) l.
Proof.
  induction l as [|a l IH]; intros [|n] x H; try discriminate.
  - injection H as ->. reflexivity.
  - cbn [nth_error] in H. cbn [skipn]. apply (IH n x H).
Qed.

Lemma skipn_load {A} (l : list A) i x :
  load l i = Some x -> skipn (Z.to_nat i) l = x :: skipn (Z.to_nat (i + 1)) l.
Proof.
  intros H. pose proof (load_Some _ _ _ H) as Hr. unfold load in H.
  destruct (i <? 0) eqn:E; [discriminate|].
  replace (Z.to_nat (i + 1)) with (S (Z.to_nat i)) by lia.
  apply skipn_nth_error. exact H.
Qed.

Lemma load_In {A} (l : list A) i x : load l i = Some x -> In x l.
Proof.
  unfold load. destruct (i <? 0); [discriminate|]. apply nth_error_In.
Qed.

Lemma print_rows_table (l : fatfs_entry_list_struct_t) :
  listing_ok l ->
  forall n i,
    0 <= i -> i + Z.of_nat n = list_count l ->
    App.print_rows n l i
    = Done (table_rows i (skipn (Z.to_nat i) (entry_name l))
                       (skipn (Z.to_nat i) (attribute l))
                       (skipn (Z.to_nat i) (entry_size l))).
Proof.
  intros (Hc & Hn & Ha & _ & Hs & Hnames & _).
  induction n as [|n IH]; intros i Hi Hsum.
  - rewrite skipn_all2 by (unfold zlen in Hn; lia). reflexivity.
  - cbn [App.print_rows].
    destruct (load_in_range (attribute l) i) as [attr Hattr]; [lia|].
    destruct (load_in_range (entry_name l) i) as [block Hblock]; [lia|].
    destruct (load_in_range (entry_size l) i) as [size Hsize]; [lia|].
    rewrite Hattr, Hblock. cbn [access bind].
    assert (Hstr : App.c_string block = Done (until_nul block)).
    { pose proof (load_In _ _ _ Hblock) as Hin.
      rewrite Forall_forall in Hnames. destruct (Hnames _ Hin) as (s & -> & _).
      apply c_string_name. }
    rewrite Hstr. cbn [bind].
    rewrite (skipn_load _ _ _ Hattr), (skipn_load _ _ _ Hblock), (skipn_load _ _ _ Hsize).
    cbn [table_rows]. unfold table_row.
    rewrite (u32_small (i + 1)) by lia.
    rewrite (IH (i + 1)) by lia.
    unfold FOLDER_ENTRY. rewrite (Z.eqb_sym 16 attr).
    destruct (attr =? 16); cbn [bind].
    + reflexivity.
    + rewrite Hsize. reflexivity.
Qed.

Lemma print_entry_list_table (l : fatfs_entry_list_struct_t) :
  listing_ok l -> App.app_print_entry_list l = Done (table_of l).
Proof.
  intros Hok. unfold App.app_print_entry_list.
  rewrite (print_rows_table l Hok (Z.to_nat (list_count l)) 0);
    [reflexivity | lia | destruct Hok as (Hc & _); lia].
Qed.

(** [app_print_entry_list] of a well-formed listing, as [fatfs_read_dir]
    returns them, reads inside the arrays and writes the head of the table,
    one row per entry and the closing rule.  A row says Folder when the
    attribute is exactly 0x10 and File with the size, as a signed number,
    for every other attribute; the name is cut at its first NUL. *)
Theorem app_print_entry_list_table (l : fatfs_entry_list_struct_t) :
  listing_ok l ->
  App.app_print_entry_list l
  = Done (App.table_head
          ++ table_rows 0 (entry_name l) (attribute l) (entry_size l)
          ++ App.rule).
Proof.
  intros Hok. unfold App.app_print_entry_list.
  assert (Hcount : 0 <= list_count l) by (destruct Hok as (Hc & _); lia).
  rewrite (print_rows_table l Hok (Z.to_nat (list_count l)) 0); [reflexivity | lia | lia].
Qed.

(** The root of the image with a file of attribute 0x00, a folder and a
    file of attribute 0x20. *)
Lemma app_print_entry_list_table_witness :
  App.app_print_entry_list (snd (Images.run_read_dir (Images.mounted Images.menu) 0))
  = Done (App.table_head
          ++ table_rows 0
               (entry_name (snd (Images.run_read_dir (Images.mounted Images.menu) 0)))
               (attribute (snd (Images.run_read_dir (Images.mounted Images.menu) 0)))
               (entry_size (snd (Images.run_read_dir (Images.mounted Images.menu) 0)))
          ++ App.rule).
Proof.
  apply (app_print_entry_list_table
           (snd (Images.run_read_dir (Images.mounted Images.menu) 0))).
  apply (read_dir_listing_ok Images.zero_heap 1 (Images.mounted Images.menu)
           (fst (Images.run_read_dir (Images.mounted Images.menu) 0)) 0).
  - vm_compute. repeat split; discriminate.
  - vm_compute. reflexivity.
  - lia.
  - vm_compute. reflexivity.
Defined.

(** *** One option of the menu *)

(** The folder branch of [main] calls [fatfs_clear_dir_list], which frees
    the arrays of the listing, and then takes the cluster to read from
    [dir_list.first_logical_cluster], one of the arrays just freed: choosing
    a folder reads freed memory, whatever the listing. *)
Theorem main_folder_option_reads_freed_list (heap : heap_t) (fuel : nat) (st : state)
        (choice : Z) :
  choice <> 0 ->
  load (attribute (s_dirlist st)) (choice - 1) = Some FOLDER_ENTRY ->
  first_logical_cluster (s_dirlist (fatfs_clear_dir_list st)) = []
  /\ App.main_option heap fuel st choice = Fault.
Proof.
  intros Hc Hattr. split; [reflexivity|].
  unfold App.main_option.
  replace (choice =? 0) with false by lia.
  rewrite Hattr. cbn [access bind].
  change (FOLDER_ENTRY =? FOLDER_ENTRY) with true. cbn iota.
  cbn [fatfs_clear_dir_list set_dirlist s_dirlist first_logical_cluster].
  unfold load. destruct (choice - 1 <? 0); [reflexivity|].
  destruct (Z.to_nat (choice - 1)); reflexivity.
Qed.

(** Option 2 of the root of the image is the folder [SUB]. *)
Lemma main_folder_option_reads_freed_list_witness :
  first_logical_cluster
    (s_dirlist (fatfs_clear_dir_list
                  (fst (Images.run_read_dir (Images.mounted Images.menu) 0)))) = []
  /\ App.main_option Images.zero_heap 1
                     (fst (Images.run_read_dir (Images.mounted Images.menu) 0)) 2
     = Fault.
Proof.
  apply (main_folder_option_reads_freed_list Images.zero_heap 1
           (fst (Images.run_read_dir (Images.mounted Images.menu) 0)) 2).
  - lia.
  - vm_compute. reflexivity.
Defined.

(** The other options: 0 closes the image and ends the program, and closes
    a NULL stream when no image is open; an option outside the listing is
    looked up outside the attribute array; an entry whose attribute is
    neither 0x10 nor 0x00, the archive attribute 0x20 of an ordinary file
    for one, is passed over: nothing is read and nothing is written. *)
Theorem main_option_dispatch (heap : heap_t) (fuel : nat) (st : state) :
  App.main_option heap fuel st 0
  = match HAL.s_file_img (hal st) with
    | Some _ => Done (None, [])
    | None => Fault
    end
  /\ (forall choice,
        choice < 0 \/ zlen (attribute (s_dirlist st)) < choice ->
        App.main_option heap fuel st choice = Fault)
  /\ (forall choice attr,
        choice <> 0 ->
        load (attribute (s_dirlist st)) (choice - 1) = Some attr ->
        attr <> FOLDER_ENTRY -> attr <> FILE_ENTRY ->
        App.main_option heap fuel st choice = Done (Some st, [])).
Proof.
  split; [|split].
  - unfold App.main_option. change (0 =? 0) with true. cbn iota.
    unfold fatfs_de_init, HAL.kmc_de_init.
    destruct (HAL.s_file_img (hal st)); reflexivity.
  - intros choice Hout. unfold App.main_option.
    replace (choice =? 0) with false by (pose proof (zlen_nonneg (attribute (s_dirlist st))); lia).
    destruct (load (attribute (s_dirlist st)) (choice - 1)) as [a|] eqn:E; [|reflexivity].
    apply load_Some in E. lia.
  - intros choice attr Hc Hattr Hfolder Hfile. unfold App.main_option.
    replace (choice =? 0) with false by lia.
    rewrite Hattr. cbn [access bind].
    replace (FOLDER_ENTRY =? attr) with false by lia.
    replace (FILE_ENTRY =? attr) with false by lia.
    reflexivity.
Qed.

Lemma holds_at_whole (buf data : list byte) :
  zlen buf = zlen data -> holds_at buf 0 data -> buf = data.
Proof.
  intros Hlen H. apply load_ext. intros j Hj.
  destruct (Z.ltb_spec j (zlen data)) as [Hin | Hout].
  - rewrite <- (H j) by lia. f_equal.
  - rewrite !load_None by lia. reflexivity.
Qed.

Lemma slice_whole (buf : list byte) : slice buf 0 (zlen buf) = Some buf.
Proof.
  unfold slice. pose proof (zlen_nonneg buf).
  replace ((0 <=? 0) && (0 <=? zlen buf) && (0 + zlen buf <=? zlen buf)) with true by lia.
  unfold zlen. rewrite Nat2Z.id. cbn [Z.to_nat skipn]. rewrite firstn_all. reflexivity.
Qed.

Lemma print_calls_sectors img bps : forall body calls,
  0 <= bps ->
  Forall2 (fun c call =>
             snd call = bps /\ zlen (fst call) = bps
             /\ holds_at (fst call) 0 (sector_bytes img bps (c + FAT12_CLUSTER_OFFSET_FACTOR)))
          body calls ->
  clusters_ok body ->
  exists content,
    App.print_calls calls = Done content
    /\ zlen content = zlen body * bps
    /\ (Forall (fun c => (c + 32) * bps <= zlen img) body ->
        content = chain_bytes img bps body).
Proof.
  intros body calls Hbps H.
  induction H as [|c [buf len] body calls (Hlen & Hbuf & Hh) _ IH]; intros Hok.
  - exists []. repeat split.
  - unfold clusters_ok in Hok. apply Forall_cons_iff in Hok. destruct Hok as [Hc0 Hok'].
    cbn [fst snd] in *. destruct (IH Hok') as (rest & Hrest & Hz & Heq).
    exists (buf ++ rest). cbn [App.print_calls]. unfold App.app_print_file_content.
    replace (slice buf 0 len) with (Some buf)
      by (rewrite Hlen, <- Hbuf; symmetry; apply slice_whole).
    cbn [access bind].
    rewrite Hrest. cbn [bind]. split; [reflexivity|]. split.
    + rewrite zlen_app, Hz, Hbuf. unfold zlen. cbn [length]. lia.
    + intros Hall. apply Forall_cons_iff in Hall. destruct Hall as [Hc Hall'].
      unfold chain_bytes. cbn [map concat]. fold (chain_bytes img bps body).
      rewrite <- (Heq Hall'). f_equal.
      apply holds_at_whole; [|exact Hh].
      unfold sector_bytes, FAT12_CLUSTER_OFFSET_FACTOR in *.
      (* the sector is whole *)
      pose proof (zlen_nonneg buf).
      rewrite zlen_fread_eq by nia. nia.
Qed.

(** Choosing an entry whose attribute is 0x00 writes the head of the file
    view, then bytes_per_sector characters for every cluster of the chain,
    whatever the size of the file is, then the prompt to press a key and,
    after [getch] and a cleared screen, the table again; the file-level
    variables are as before.  The characters are the sectors c + 31 of the
    image when those lie inside it. *)
Theorem main_file_option (heap : heap_t) (fuel : nat) (st st1 : state) (img : list byte)
        (choice cluster n : Z) :
  HAL.s_file_img (hal st) = Some img ->
  HAL.s_sector_size (hal st) = bytes_per_sector (s_FAT12Infor st) ->
  0 <= bytes_per_sector (s_FAT12Infor st) < 65536 ->
  print_file_callback st = true ->
  s_cluster_chain st = [] ->
  listing_ok (s_dirlist st) ->
  choice <> 0 ->
  load (attribute (s_dirlist st)) (choice - 1) = Some FILE_ENTRY ->
  load (first_logical_cluster (s_dirlist st)) (choice - 1) = Some cluster ->
  fatfs_get_cluster_chain fuel st cluster = Done (st1, n) ->
  exists body last content,
    s_cluster_chain st1 = body ++ [last]
    /\ App.main_option heap fuel st choice
       = Done (Some st,
               App.puts (App.file_head ++ content ++ App.file_tail)
               ++ [App.Getch; App.Cls]
               ++ App.puts (table_of (s_dirlist st)))
    /\ zlen content = n * bytes_per_sector (s_FAT12Infor st)
    /\ (Forall (fun c => (c + 32) * bytes_per_sector (s_FAT12Infor st) <= zlen img) body ->
        content = chain_bytes img (bytes_per_sector (s_FAT12Infor st)) body).
Proof.
  intros Himg Hss Hbps Hcb Hnil Hok Hc Hattr Hcl Hwalk.
  assert (Hrange : 0 <= cluster < 65536).
  { destruct Hok as (_ & _ & _ & _ & _ & _ & _ & Hk & _).
    rewrite Forall_forall in Hk. apply Hk. apply (load_In _ _ _ Hcl). }
  destruct (get_cluster_chain_nodes fuel st cluster st1 n Hnil Hrange Hwalk)
    as (body & last & Hst1 & _ & _ & Hbody & _ & _ & Hn).
  assert (Hcontent : zlen (malloc heap 0 (bytes_per_sector (s_FAT12Infor st1)))
                     = bytes_per_sector (s_FAT12Infor st1)).
  { rewrite Hst1. cbn [set_chain s_FAT12Infor]. apply zlen_malloc. lia. }
  assert (Hst1' : s_cluster_chain st1 = body ++ [last]) by (rewrite Hst1; reflexivity).
  assert (Hinfo : s_FAT12Infor st1 = s_FAT12Infor st) by (rewrite Hst1; reflexivity).
  destruct (file_loop_spec st1 img) with (body := body) (last := last)
      (content := malloc heap 0 (bytes_per_sector (s_FAT12Infor st1))) (n := 0)
    as (calls & Hloop & Hall);
    try (rewrite Hst1; cbn [set_chain hal s_FAT12Infor print_file_callback]; assumption);
    try assumption.
  rewrite Hinfo in Hall.
  destruct (print_calls_sectors img (bytes_per_sector (s_FAT12Infor st)) body calls)
    as (content & Hprint & Hz & Heq); [lia | exact Hall | exact Hbody |].
  exists body, last, content.
  split; [exact Hst1'|]. split; [|split].
  - unfold App.main_option.
    replace (choice =? 0) with false by lia.
    rewrite Hattr. cbn [access bind].
    change (FOLDER_ENTRY =? FILE_ENTRY) with false.
    change (FILE_ENTRY =? FILE_ENTRY) with true. cbn iota.
    rewrite Hcl. cbn [access bind].
    unfold fatfs_read_file. rewrite Hwalk. cbn [bind].
    rewrite Hst1' , Hloop. cbn [bind].
    rewrite Hprint. cbn [bind].
    assert (Hback : fatfs_clear_cluster_chain st1 = st).
    { rewrite Hst1. apply set_chain_back. exact Hnil. }
    rewrite Hback. rewrite (print_entry_list_table _ Hok). reflexivity.
  - rewrite Hz, Hn. reflexivity.
  - exact Heq.
Qed.

(** Option 1 of the root of the image: [README  TXT], attribute 0x00, one
    cluster. *)
Lemma main_file_option_witness :
  exists body last content,
    s_cluster_chain (set_chain (fst (Images.run_read_dir (Images.mounted Images.menu) 0))
                               [2; 0xFFF])
    = body ++ [last]
    /\ App.main_option Images.zero_heap 1
                       (fst (Images.run_read_dir (Images.mounted Images.menu) 0)) 1
       = Done (Some (fst (Images.run_read_dir (Images.mounted Images.menu) 0)),
               App.puts (App.file_head ++ content ++ App.file_tail)
               ++ [App.Getch; App.Cls]
               ++ App.puts (table_of
                              (s_dirlist (fst (Images.run_read_dir
                                                 (Images.mounted Images.menu) 0)))))
    /\ zlen content
       = 1 * bytes_per_sector
               (s_FAT12Infor (fst (Images.run_read_dir (Images.mounted Images.menu) 0)))
    /\ (Forall (fun c =>
                  (c + 32)
                  * bytes_per_sector
                      (s_FAT12Infor (fst (Images.run_read_dir (Images.mounted Images.menu) 0)))
                  <= zlen Images.menu) body ->
        content
        = chain_bytes Images.menu
            (bytes_per_sector
               (s_FAT12Infor (fst (Images.run_read_dir (Images.mounted Images.menu) 0))))
            body).
Proof.
  apply (main_file_option Images.zero_heap 1
           (fst (Images.run_read_dir (Images.mounted Images.menu) 0))
           (set_chain (fst (Images.run_read_dir (Images.mounted Images.menu) 0)) [2; 0xFFF])
           Images.menu 1 2 1).
  - vm_compute. reflexivity.
  - vm_compute. reflexivity.
  - vm_compute. split; [discriminate | reflexivity].
  - vm_compute. reflexivity.
  - vm_compute. reflexivity.
  - replace (s_dirlist (fst (Images.run_read_dir (Images.mounted Images.menu) 0)))
      with (snd (Images.run_read_dir (Images.mounted Images.menu) 0))
      by (vm_compute; reflexivity).
    apply (read_dir_listing_ok Images.zero_heap 1 (Images.mounted Images.menu)
             (fst (Images.run_read_dir (Images.mounted Images.menu) 0)) 0).
    + vm_compute. repeat split; discriminate.
    + vm_compute. reflexivity.
    + lia.
    + vm_compute. reflexivity.
  - lia.
  - vm_compute. reflexivity.
  - vm_compute. reflexivity.
  - vm_compute. reflexivity.
Defined.

(** *** The program as a whole *)

Lemma main_option_nothing_open (heap : heap_t) (fuel : nat) (st : state) (choice : Z) :
  HAL.s_file_img (hal st) = None ->
  attribute (s_dirlist st) = [] ->
  App.main_option heap fuel st choice = Fault.
Proof.
  intros Hfile Hattr. unfold App.main_option.
  destruct (choice =? 0).
  - unfold fatfs_de_init, HAL.kmc_de_init. rewrite Hfile. reflexivity.
  - rewrite Hattr. unfold load. destruct (choice - 1 <? 0); [reflexivity|].
    destruct (Z.to_nat (choice - 1)); reflexivity.
Qed.

(** With no file [floppy.img] the program does not report it: [fatfs_init]
    returns GOOD_CONDITION, the root is read from no image and the table is
    written with no row.  Whatever is typed after that, the program reads
    outside the empty listing or, on option 0, closes the NULL stream; the
    message of FAILED_TO_OPEN is never written. *)
Theorem main_missing_image (fs : HAL.disk) (heap0 heap1 : heap_t) (heaps : nat -> heap_t)
        (fuel n : nat) (inputs : list App.scan) :
  fs Images.floppy = None ->
  (exists st,
      fatfs_init fs heap0 Images.floppy initial = Done (st, GOOD_CONDITION)
      /\ fatfs_read_dir heap1 fuel (ResgisterPrint_file_func st) ROOT_DIR_12_LOGICAL_BASE_INDEX
         = Done (ResgisterPrint_file_func st, mkList [] [] [] [] 0)
      /\ App.app_print_entry_list (mkList [] [] [] [] 0)
         = Done (App.table_head ++ App.rule))
  /\ App.main fs heap0 heap1 heaps fuel (S n) inputs = Fault
  /\ App.main fs heap0 heap1 heaps fuel (S n) inputs
     <> Done (App.puts (App.app_print_disk_state FAILED_TO_OPEN)).
Proof.
  intros Hfs.
  assert (Hinit : fatfs_init fs heap0 Images.floppy initial
                  = Done (mkState (HAL.mkState None 0) (s_FAT12Infor initial) (Some [])
                                  (s_dirlist initial) [] false, GOOD_CONDITION)).
  { unfold fatfs_init, HAL.kmc_init. rewrite Hfs. reflexivity. }
  assert (Hmain : App.main fs heap0 heap1 heaps fuel (S n) inputs = Fault).
  { unfold App.main. unfold Images.floppy in Hinit.
    rewrite Hinit. cbn [bind].
    change (fatfs_read_dir heap1 fuel _ ROOT_DIR_12_LOGICAL_BASE_INDEX)
      with (@Done (state * fatfs_entry_list_struct_t)
              (ResgisterPrint_file_func
                 (mkState (HAL.mkState None 0) (s_FAT12Infor initial) (Some [])
                          (s_dirlist initial) [] false),
               mkList [] [] [] [] 0)).
    cbn [bind].
    change (App.app_print_entry_list (mkList [] [] [] [] 0))
      with (@Done (list byte) (App.table_head ++ App.rule)).
    cbn [bind App.main_loop].
    destruct (App.ask inputs 0) as [[choice1 inputs1] asked].
    rewrite main_option_nothing_open; reflexivity. }
  split; [|split].
  - eexists. split; [exact Hinit|]. split; reflexivity.
  - exact Hmain.
  - rewrite Hmain. discriminate.
Qed.

(** No image at all, and a user who types 1. *)
Lemma main_missing_image_witness :
  (exists st,
      fatfs_init Images.no_image Images.zero_heap Images.floppy initial
      = Done (st, GOOD_CONDITION)
      /\ fatfs_read_dir Images.zero_heap 1 (ResgisterPrint_file_func st)
                        ROOT_DIR_12_LOGICAL_BASE_INDEX
         = Done (ResgisterPrint_file_func st, mkList [] [] [] [] 0)
      /\ App.app_print_entry_list (mkList [] [] [] [] 0)
         = Done (App.table_head ++ App.rule))
  /\ App.main Images.no_image Images.zero_heap Images.zero_heap (fun _ => Images.zero_heap)
              1 (S 3) [App.Number 1] = Fault
  /\ App.main Images.no_image Images.zero_heap Images.zero_heap (fun _ => Images.zero_heap)
              1 (S 3) [App.Number 1]
     <> Done (App.puts (App.app_print_disk_state FAILED_TO_OPEN)).
Proof.
  apply (main_missing_image Images.no_image Images.zero_heap Images.zero_heap
           (fun _ => Images.zero_heap) 1 3 [App.Number 1]).
  reflexivity.
Defined.

(** At the end of the input [scanf] returns [EOF]; [check_choice] is
    unsigned, so that is neither 0 nor below 0 and [main] goes on with the
    option it took last.  When that option is one that comes back to the
    menu with the state as it was, a file or an entry that is passed over,
    the program takes it again and again and never ends. *)
Theorem main_end_of_input_repeats (heaps : nat -> heap_t) (fuel : nat) (st : state)
        (choice : Z) (n k : nat) :
  choice <> 0 ->
  (forall heap, exists out, App.main_option heap fuel st choice = Done (Some st, out)) ->
  App.ask [] choice = (choice, [], App.prompt)
  /\ App.main_loop n heaps k fuel st choice [] = OutOfFuel.
Proof.
  intros Hc Hback. split; [reflexivity|].
  revert k. induction n as [|n IH]; intros k; [reflexivity|].
  cbn [App.main_loop App.ask].
  destruct (Hback (heaps k)) as (out & Hout). rewrite Hout. cbn [bind].
  rewrite IH. reflexivity.
Qed.

(** Option 3 of the root of the image, [HELLO   TXT] with the archive
    attribute, taken before the input ended. *)
Lemma main_end_of_input_repeats_witness :
  App.ask [] 3 = (3, [], App.prompt)
  /\ App.main_loop 5 (fun _ => Images.zero_heap) 0 1
                   (fst (Images.run_read_dir (Images.mounted Images.menu) 0)) 3 []
     = OutOfFuel.
Proof.
  apply (main_end_of_input_repeats (fun _ => Images.zero_heap) 1
           (fst (Images.run_read_dir (Images.mounted Images.menu) 0)) 3 5 0).
  - lia.
  - intros heap. exists []. vm_compute. reflexivity.
Defined.

(** The image with three root entries, and a user who types 3, then 1, then
    0: the table, nothing for the file with the archive attribute, the
    sector of the file with attribute 0x00 and the table again, the end. *)
Lemma menu_session :
  App.main (Images.one_image Images.menu) Images.zero_heap Images.zero_heap
           (fun _ => Images.zero_heap) 1 3 [App.Number 3; App.Number 1; App.Number 0]
  = Done (App.puts (table_of (snd (Images.run_read_dir (Images.mounted Images.menu) 0)))
          ++ App.puts App.prompt
          ++ App.puts App.prompt
          ++ App.puts (App.file_head
                       ++ sector_bytes Images.menu 512 33
                       ++ App.file_tail)
          ++ [App.Getch; App.Cls]
          ++ App.puts (table_of (snd (Images.run_read_dir (Images.mounted Images.menu) 0)))
          ++ App.puts App.prompt).
Proof. vm_compute. reflexivity. Qed.

(** An image whose bytes_per_sector field is no multiple of 512 is turned
    down, when its first 512 bytes hold a NUL for the [strlen] of
    [hex_to_decimal] to stop at: [main] writes that the disk has a bad boot
    sector and returns; it reads no directory and asks for no option. *)
Theorem main_bad_boot_sector (fs : HAL.disk) (heap0 heap1 : heap_t) (heaps : nat -> heap_t)
        (fuel n : nat) (inputs : list App.scan) (img : list byte) :
  fs Images.floppy = Some img ->
  512 <= zlen img ->
  In x00 (firstn 512 img) ->
  le16_at img 11 mod 512 <> 0 ->
  returned (fatfs_init fs heap0 Images.floppy initial) = Some BAD_BOOT_SECTOR
  /\ App.main fs heap0 heap1 heaps fuel n inputs
     = Done (App.puts (App.app_print_disk_state BAD_BOOT_SECTOR)).
Proof.
  intros Hfs Hlen Hnul Hbps.
  pose proof (fatfs_init_steps fs heap0 Images.floppy initial img Hfs Hlen Hnul) as Hinit.
  assert (Hbad : boot_sector_invalid (boot_fields img) = true).
  { unfold boot_sector_invalid. change (bytes_per_sector (boot_fields img)) with (le16_at img 11).
    pose proof (le16_at_range img 11) as Hr.
    rewrite Z.rem_mod_nonneg by lia.
    replace (le16_at img 11 mod 512 =? 0) with false
      by (symmetry; apply Z.eqb_neq; exact Hbps).
    reflexivity. }
  rewrite Hbad in Hinit.
  split; [rewrite Hinit; reflexivity|].
  unfold App.main. unfold Images.floppy in Hinit. rewrite Hinit. reflexivity.
Qed.

(** An image that says 500 bytes per sector. *)
Lemma main_bad_boot_sector_witness :
  returned (fatfs_init (Images.one_image (Images.boot_sector 500 1 1 2 224 2880 9))
                       Images.zero_heap Images.floppy initial)
  = Some BAD_BOOT_SECTOR
  /\ App.main (Images.one_image (Images.boot_sector 500 1 1 2 224 2880 9))
              Images.zero_heap Images.zero_heap (fun _ => Images.zero_heap) 1 2
              [App.Number 1]
     = Done (App.puts (App.app_print_disk_state BAD_BOOT_SECTOR)).
Proof.
  apply (main_bad_boot_sector (Images.one_image (Images.boot_sector 500 1 1 2 224 2880 9))
           Images.zero_heap Images.zero_heap (fun _ => Images.zero_heap) 1 2
           [App.Number 1] (Images.boot_sector 500 1 1 2 224 2880 9)).
  - reflexivity.
  - vm_compute. discriminate.
  - apply (nth_error_In (firstn 512 (Images.boot_sector 500 1 1 2 224 2880 9)) 15).
    vm_compute. reflexivity.
  - vm_compute. discriminate.
Defined.

(** ** A listing that was not cleared *)

Lemma scan_loop_frame : forall fuel buffer bs i entries_index j count
                               entries_index1 j1 count1,
  0 <= j -> zlen entries_index < 4294967296 ->
  scan_loop fuel buffer bs i entries_index j count = Done (entries_index1, j1, count1) ->
  j <= j1 /\ forall k, j1 <= k -> load entries_index1 k = load entries_index k.
Proof.
  induction fuel as [|fuel IH]; intros buffer bs i ei j count ei1 j1 count1 Hj Hmax H.
  - cbn [scan_loop] in H. destruct (i <? bs); [discriminate|].
    injection H as <- <- <-. split; [lia | reflexivity].
  - cbn [scan_loop] in H. destruct (i <? bs).
    + destruct (entry_listed buffer i) as [keep| |]; cbn [bind] in H; try discriminate.
      destruct keep.
      * destruct (upd ei j (u16 i)) as [ei'|] eqn:Hu; cbn [access bind] in H;
          [|discriminate].
        pose proof Hu as Hu'. unfold upd in Hu'.
        destruct ((0 <=? j) && (j <? zlen ei)) eqn:E; [|discriminate]. clear Hu'.
        apply upd_spec in Hu. destruct Hu as (Hl & _ & Hoth).
        rewrite (u32_small (j + 1)) in H by lia.
        apply IH in H; [| lia | lia].
        destruct H as (Hle & Hfr). split; [lia|].
        intros k Hk. rewrite Hfr by lia. apply Hoth. lia.
      * apply IH in H; [exact H | lia | lia].
    + injection H as <- <- <-. split; [lia | reflexivity].
Qed.

Lemma malloc16_range heap k n : Forall (fun x => 0 <= x < 65536) (malloc16 heap k n).
Proof.
  unfold malloc16. apply Forall_map. apply Forall_forall. intros i _.
  pose proof (u8_range (heap k (2 * i)%nat)). pose proof (u8_range (heap k (2 * i + 1)%nat)).
  lia.
Qed.

Lemma entries_index_ok heap fuel st st1 c buffer bs entries_index :
  fields_in_range st ->
  s_cluster_chain st = [] ->
  0 <= c < 65536 ->
  read_dir_buffer heap fuel st c = Done (st1, buffer, bs, entries_index) ->
  zlen entries_index < 4294967296
  /\ Forall (fun x => 0 <= x < 65536) entries_index.
Proof.
  intros (_ & Hm & _) Hnil Hc Hbuf. unfold read_dir_buffer in Hbuf.
  destruct (ROOT_DIR_12_LOGICAL_BASE_INDEX =? c).
  - destruct (HAL.kmc_read_multi_sector _ _ _ _) as [[k b]| |];
      cbn [bind] in Hbuf; try discriminate.
    injection Hbuf as _ _ _ <-. split; [|apply malloc16_range].
    rewrite zlen_malloc16 by lia. lia.
  - destruct (c >? ROOT_DIR_12_LOGICAL_BASE_INDEX).
    + destruct (fatfs_get_cluster_chain fuel st c) as [[st' n]| |] eqn:Hw;
        cbn [bind] in Hbuf; try discriminate.
      destruct (dir_chain_loop _ _ _ _ _) as [b| |]; cbn [bind] in Hbuf; try discriminate.
      injection Hbuf as _ _ _ <-. split; [|apply malloc16_range].
      destruct (get_cluster_chain_nodes fuel st c st' n Hnil Hc Hw)
        as (body & last & _ & _ & _ & _ & _ & Hb & Hn).
      pose proof (zlen_nonneg body). unfold ENTRIES_PER_SECTOR.
      rewrite zlen_malloc16 by lia. lia.
    + injection Hbuf as _ _ _ <-. split; [reflexivity | constructor].
Qed.

Lemma fill_loop_loads buffer entries_index : forall n i es,
  fill_loop n buffer entries_index i = Done es ->
  forall m, 0 <= m < Z.of_nat n -> exists off, load entries_index (i + m) = Some off.
Proof.
  induction n as [|n IH]; intros i es H m Hm; [lia|].
  cbn [fill_loop] in H.
  destruct (load entries_index i) as [index|] eqn:E; cbn [access bind] in H; [|discriminate].
  destruct (fill_entry buffer index) as [e| |]; cbn [bind] in H; try discriminate.
  destruct (fill_loop n buffer entries_index (i + 1)) as [rest| |] eqn:Hr;
    cbn [bind] in H; try discriminate.
  destruct (Z.eq_dec m 0) as [-> | Hne].
  - exists index. rewrite Z.add_0_r. exact E.
  - destruct (IH _ _ Hr (m - 1)) as (off & Hoff); [lia|].
    exists off. rewrite <- Hoff. f_equal. lia.
Qed.

Lemma nth_error_load {A} (l : list A) (k : nat) :
  nth_error l k = load l (Z.of_nat k).
Proof.
  unfold load. destruct (Z.ltb_spec (Z.of_nat k) 0) as [Hneg | _]; [lia|].
  rewrite Nat2Z.id. reflexivity.
Qed.

Lemma firstn_skipn_nth {A} (l : list A) (q n k : nat) (x : A) :
  nth_error (firstn n (skipn q l)) k = Some x -> nth_error l (q + k) = Some x.
Proof.
  intros H. rewrite nth_error_firstn in H.
  destruct (k <? n)%nat; [|discriminate].
  rewrite nth_error_skipn in H. exact H.
Qed.

(** [fatfs_read_dir] called with a listing that was not cleared: the count
    starts from the old one, so after the entries of the directory the
    listing goes on with as many entries as the old count, decoded at the
    offsets that lie in the part of [entries_index] that was never
    written, as [malloc] left it. *)
Theorem fatfs_read_dir_stale_count
        (heap : heap_t) (fuel : nat) (st st1 st2 : state) (c : Z)
        (buffer : list byte) (bs : Z) (entries_index : list Z)
        (l : fatfs_entry_list_struct_t) :
  fields_in_range st ->
  s_cluster_chain st = [] ->
  0 <= c < 65536 ->
  read_dir_buffer heap fuel st c = Done (st1, buffer, bs, entries_index) ->
  bs <= 65536 ->
  list_count (s_dirlist st) + qualifying buffer bs < 65536 ->
  fatfs_read_dir heap fuel st c = Done (st2, l) ->
  l = listing_of
        (map (parsed_entry buffer)
             (listed_offsets buffer bs
              ++ firstn (Z.to_nat (list_count (s_dirlist st)))
                        (skipn (Z.to_nat (qualifying buffer bs)) entries_index)))
        (list_count (s_dirlist st) + qualifying buffer bs)
  /\ list_count (s_dirlist st) + qualifying buffer bs <= zlen entries_index.
Proof.
  intros Hf Hnil Hc Hbuf Hsmall Hsum H.
  destruct (fatfs_read_dir_inv _ _ _ _ _ _ H)
    as (st1' & buffer' & bs' & ei' & ei1 & j1 & es & Hbuf' & Hscan & Hfill & Hl & _).
  rewrite Hbuf in Hbuf'. injection Hbuf' as <- <- <- <-.
  destruct (read_dir_buffer_frame _ _ _ _ _ _ _ _ Hbuf) as (_ & _ & _ & Hdl & _ & Hbs).
  pose proof Hf as (_ & Hm & Hcount).
  rewrite Hdl in Hscan.
  set (k := list_count (s_dirlist st)) in *.
  set (q := qualifying buffer bs) in *.
  assert (Hq : 0 <= q) by (unfold q, qualifying; apply zlen_nonneg).
  destruct (entries_index_ok heap fuel st st1 c buffer bs entries_index Hf Hnil Hc Hbuf)
    as (Hei & Hrange).
  assert (H0 : 0 <= 0) by lia.
  pose proof (scan_loop_frame _ _ _ _ _ _ _ _ _ _ H0 Hei Hscan) as (_ & Hfr).
  assert (Hbs0 : 0 <= bs) by lia. assert (Hbs1 : bs + 32 <= 4294967296) by lia.
  pose proof (scan_buffer_done _ _ _ _ _ _ _ Hbs0 Hbs1 Hcount Hscan)
    as (Hcnt & Hj1 & Hw).
  fold q in Hcnt, Hj1. rewrite u16_small in Hcnt by lia.
  assert (Hlen1 : zlen ei1 = zlen entries_index).
  { assert (H' : scan_loop (S (Z.to_nat (Z.quot bs 32))) buffer bs (32 * Z.of_nat 0)
                           entries_index 0 k = Done (ei1, j1, list_count l)) by exact Hscan.
    apply (scan_loop_done buffer bs) in H'; [| lia | lia | cbn; lia].
    destruct H' as (_ & _ & _ & Hlen & _). exact Hlen. }
  set (L := listed_offsets buffer bs) in *.
  set (G := firstn (Z.to_nat k) (skipn (Z.to_nat q) entries_index)).
  assert (HlenL : Z.of_nat (length L) = q) by reflexivity.
  (* the offsets read by the second loop are all there *)
  assert (Hroom : k + q <= zlen entries_index).
  { destruct (Z.eq_dec k 0) as [-> | Hk].
    - assert (Hcap : q <= zlen entries_index).
      { unfold q. apply (scan_capacity _ _ _ _ _ _ _ Hbs0 Hbs1 Hscan). }
      lia.
    - rewrite Hcnt in Hfill.
      assert (Hlast : exists off, load ei1 (k + q - 1) = Some off).
      { destruct (fill_loop_loads buffer ei1 (Z.to_nat (k + q)) 0 es Hfill (k + q - 1))
          as (off & Hoff); [lia|].
        exists off. rewrite <- Hoff. f_equal. }
      destruct Hlast as (off & Hoff). apply load_Some in Hoff. lia. }
  assert (HlenG : length G = Z.to_nat k).
  { unfold G. rewrite length_firstn, length_skipn. unfold zlen in Hroom. lia. }
  split; [|exact Hroom].
  rewrite Hl. f_equal; [|lia].
  rewrite Hcnt in Hfill.
  apply (fill_loop_map buffer ei1 (L ++ G) 0).
  - intros n off Hn. rewrite Z.add_0_l.
    destruct (Nat.lt_ge_cases n (length L)) as [Hin | Hout].
    + rewrite nth_error_app1 in Hn by exact Hin.
      pose proof (Hw n off Hn) as Hload. rewrite Hload. f_equal.
      apply u16_small.
      assert (HIn : In off L) by (apply (nth_error_In _ _ Hn)).
      apply listed_offsets_range in HIn; lia.
    + rewrite nth_error_app2 in Hn by exact Hout.
      unfold G in Hn. apply firstn_skipn_nth in Hn.
      rewrite Hfr by lia. rewrite <- Hn, nth_error_load. f_equal. lia.
  - apply Forall_app. split.
    + apply Forall_forall. intros off HIn.
      apply listed_offsets_range in HIn; lia.
    + apply Forall_forall. intros off HIn. unfold G in HIn.
      apply In_nth_error in HIn. destruct HIn as (n & Hn).
      apply firstn_skipn_nth in Hn.
      assert (Hr : 0 <= off < 65536).
      { rewrite Forall_forall in Hrange. apply Hrange.
        apply (nth_error_In _ _ Hn). }
      lia.
  - replace (length (L ++ G)) with (Z.to_nat (k + q)); [exact Hfill|].
    rewrite length_app, HlenG. lia.
Qed.

(** The root of the image read first, then its subdirectory with the list
    not cleared: the three entries of the subdirectory, then one more,
    decoded at the offset the zeroed heap holds. *)
Lemma fatfs_read_dir_stale_count_witness :
  snd (Images.run_read_dir (fst (Images.run_read_dir (Images.mounted Images.nested) 0)) 3)
  = listing_of
      (map (parsed_entry
              (Images.dir_bytes (fst (Images.run_read_dir (Images.mounted Images.nested) 0)) 3))
           (listed_offsets
              (Images.dir_bytes (fst (Images.run_read_dir (Images.mounted Images.nested) 0)) 3)
              512
            ++ firstn (Z.to_nat (list_count
                                   (s_dirlist (fst (Images.run_read_dir
                                                      (Images.mounted Images.nested) 0)))))
                      (skipn (Z.to_nat
                                (qualifying
                                   (Images.dir_bytes
                                      (fst (Images.run_read_dir
                                              (Images.mounted Images.nested) 0)) 3)
                                   512))
                             (malloc16 Images.zero_heap 1 16))))
      (list_count (s_dirlist (fst (Images.run_read_dir (Images.mounted Images.nested) 0)))
       + qualifying
           (Images.dir_bytes (fst (Images.run_read_dir (Images.mounted Images.nested) 0)) 3)
           512)
  /\ list_count (s_dirlist (fst (Images.run_read_dir (Images.mounted Images.nested) 0)))
     + qualifying
         (Images.dir_bytes (fst (Images.run_read_dir (Images.mounted Images.nested) 0)) 3)
         512
     <= zlen (malloc16 Images.zero_heap 1 16).
Proof.
  apply (fatfs_read_dir_stale_count Images.zero_heap 1
           (fst (Images.run_read_dir (Images.mounted Images.nested) 0))
           (set_chain (fst (Images.run_read_dir (Images.mounted Images.nested) 0))
                      [3; 0xFFF])
           (fst (Images.run_read_dir
                   (fst (Images.run_read_dir (Images.mounted Images.nested) 0)) 3))
           3
           (Images.dir_bytes (fst (Images.run_read_dir (Images.mounted Images.nested) 0)) 3)
           512 (malloc16 Images.zero_heap 1 16)).
  - vm_compute. repeat split; discriminate.
  - vm_compute. reflexivity.
  - lia.
  - vm_compute. reflexivity.
  - lia.
  - vm_compute. reflexivity.
  - vm_compute. reflexivity.
Defined.

(** ** The sector size *)

(** While an image is open the sector size of the device is a positive
    multiple of 512: [kmc_init] and [kmc_update_sector_size] keep it so,
    whatever they are given, and so does [fatfs_init], whatever the boot
    sector says. *)
Theorem sector_size_invariant (h : HAL.state) :
  sector_size_ok h ->
  (forall fs name, sector_size_ok (fst (HAL.kmc_init fs name h)))
  /\ (forall n, sector_size_ok (fst (HAL.kmc_update_sector_size h n)))
  /\ (forall fs heap name st st1 r,
        hal st = h ->
        fatfs_init fs heap name st = Done (st1, r) ->
        sector_size_ok (hal st1)).
Proof.
  intros Hok.
  assert (Hinit : forall fs name h0, sector_size_ok (fst (HAL.kmc_init fs name h0))).
  { intros fs name h0. unfold HAL.kmc_init. destruct (fs name); cbn [fst].
    - intros _. cbn [HAL.s_sector_size]. unfold HAL.KMC_DEFAULT_SECTOR_SIZE.
      split; [lia | reflexivity].
    - intros Hopen. cbn [HAL.s_file_img] in Hopen. contradiction. }
  assert (Hupd : forall h0 n, sector_size_ok h0 ->
                              sector_size_ok (fst (HAL.kmc_update_sector_size h0 n))).
  { intros h0 n H0. unfold HAL.kmc_update_sector_size, HAL.KMC_DEFAULT_SECTOR_SIZE.
    destruct ((0 <? n) && (0 =? Z.rem n 512) && negb (512 =? n)) eqn:E; cbn [fst].
    - intros _. cbn [HAL.s_sector_size].
      apply andb_true_iff in E. destruct E as [E _].
      apply andb_true_iff in E. destruct E as [Hpos Hrem].
      apply Z.ltb_lt in Hpos. apply Z.eqb_eq in Hrem.
      split; [exact Hpos|].
      rewrite <- Z.rem_mod_nonneg; [symmetry; exact Hrem | lia | lia].
    - exact H0. }
  split; [|split].
  - intros fs name. apply Hinit.
  - intros n. apply Hupd. exact Hok.
  - intros fs heap name st st1 r Hh H. unfold fatfs_init in H.
    pose proof (Hinit fs name (hal st)) as Hh1.
    destruct (HAL.kmc_init fs name (hal st)) as [h1 disk_ptr]. cbn [fst] in Hh1.
    match type of H with
    | (bind ?m _) = _ => destruct m as [[state1 info]| |]
    end; cbn [bind] in H; try discriminate.
    destruct (boot_sector_invalid info).
    + injection H as <- _. exact Hh1.
    + pose proof (Hupd h1 (bytes_per_sector info) Hh1) as Hh2.
      destruct (HAL.kmc_update_sector_size h1 (bytes_per_sector info)) as [h2 ss].
      cbn [fst] in Hh2.
      destruct (HAL.kmc_read_multi_sector _ _ _ _) as [[k fat1]| |];
        cbn [bind] in H; try discriminate.
      injection H as <- _. exact Hh2.
Qed.

(** The device as [fatfs_init] leaves it on the image of 1024-byte sectors. *)
Lemma sector_size_invariant_witness :
  (forall fs name,
      sector_size_ok (fst (HAL.kmc_init fs name (hal (Images.mounted Images.kilo)))))
  /\ (forall n,
        sector_size_ok
          (fst (HAL.kmc_update_sector_size (hal (Images.mounted Images.kilo)) n)))
  /\ (forall fs heap name st st1 r,
        hal st = hal (Images.mounted Images.kilo) ->
        fatfs_init fs heap name st = Done (st1, r) ->
        sector_size_ok (hal st1)).
Proof.
  apply (sector_size_invariant (hal (Images.mounted Images.kilo))).
  intros _. vm_compute. split; reflexivity.
Defined.
